(** * SimpliSafe RF protocol: a shallow embedding of the message codec,
      the demodulator and the device state machines.

    Sources embedded here:
    - [SimpliSafe.py]            serial-number formats, the message classes,
                                 [Message.factory] and [Message.__bytes__];
    - [RFUtils.py]               the callback demodulator [_recv_cbf];
    - [simplisafe/pigpio.py]     [Transceiver._listen_cbf], [Transceiver.decode],
                                 [Transceiver.send];
    - [simplisafe/devices.py]    [AbstractDevice], [BaseStation], [Keypad],
                                 [Sensor].

    Conventions.  A Python [bytes] value is a [list Z] whose elements lie in
    [0, 256); [bytes([x])] raises [ValueError] outside that range.  A Python
    [str] is a [string] of 8-bit characters, [ord] is the character code;
    the statements below are about strings of code points 0 to 255.  Python
    integers are unbounded, so they are [Z] and the bit operators are [Z.land], [Z.lor],
    [Z.shiftl] and [Z.shiftr].  A call that can raise returns a [result]. *)

From Stdlib Require Import ZArith List String Ascii Bool Lia.
Import ListNotations.
Local Open Scope Z_scope.

(** ** Exceptions and the error monad *)

(** The exception classes the modelled code raises.  [InvalidMessageBytesError]
    and [UnicodeError] are subclasses of [ValueError]; the checksum setter
    raises a plain [ValueError] whose message starts with "Checksum mismatch",
    kept apart here so that it can be told from the others. *)
Inductive exn : Type :=
| ValueError
| InvalidMessageBytesError
| ChecksumMismatch (received calculated : Z)
| UnicodeError
| NotImplementedError
| IndexError
| NameError
| AttributeError
| TypeError
| StructError
| Exception_
| DecodeError.

(** [except ValueError] catches the class and its subclasses. *)
Definition is_ValueError (e : exn) : bool :=
  match e with
  | ValueError | InvalidMessageBytesError | ChecksumMismatch _ _ | UnicodeError => true
  | _ => false
  end.

Inductive result (A : Type) : Type :=
| Ok (a : A)
| Raise (e : exn).
Arguments Ok {A} a.
Arguments Raise {A} e.

Definition bind {A B : Type} (c : result A) (k : A -> result B) : result B :=
  match c with
  | Ok a => k a
  | Raise e => Raise e
  end.

Declare Scope py_scope.
Delimit Scope py_scope with py.
Notation "x <- c ;; k" := (bind c (fun x => k))
  (at level 61, c at next level, right associativity) : py_scope.
Notation "' p <- c ;; k" := (bind c (fun x => let p := x in k))
  (at level 61, p pattern, c at next level, right associativity) : py_scope.
Notation "c ;;; k" := (bind c (fun _ => k))
  (at level 61, right associativity) : py_scope.
Local Open Scope py_scope.

(** [if cond: raise e] *)
Definition raise_if (cond : bool) (e : exn) : result unit :=
  if cond then Raise e else Ok tt.

(** [try: c  except ValueError: h] *)
Definition try_ValueError {A : Type} (c : result A) (h : result A) : result A :=
  match c with
  | Ok a => Ok a
  | Raise e => if is_ValueError e then h else Raise e
  end.

(** The loop
    [for c in cls.__subclasses__(): try: return c.factory(msg) except ValueError: pass]
    followed by [raise e]: the first subclass factory that does not raise a
    [ValueError] decides. *)
Fixpoint first_factory {A : Type} (fs : list (result A)) (e : exn) : result A :=
  match fs with
  | [] => Raise e
  | f :: fs' => try_ValueError f (first_factory fs' e)
  end.

(** The loop of [Message.factory],
    [for c in cls.__subclasses__(): try: msg = c.factory(msg); break
     except ValueError: pass],
    which keeps [msg] when every subclass factory raises a [ValueError]. *)
Definition first_factory_or {A : Type} (fs : list (result A)) (msg : A) : result A :=
  fold_right try_ValueError (Ok msg) fs.

(** ** Python sequences *)

Definition len {A : Type} (l : list A) : Z := Z.of_nat (List.length l).

(** [l[i]] for a non-negative index. *)
Definition index {A : Type} (l : list A) (i : nat) : result A :=
  match nth_error l i with
  | Some x => Ok x
  | None => Raise IndexError
  end.

(** [l[-1]]. *)
Definition index_last {A : Type} (l : list A) : result A :=
  match rev l with
  | x :: _ => Ok x
  | [] => Raise IndexError
  end.

(** [l[i:j]] for non-negative [i], [j]. *)
Definition slice {A : Type} (l : list A) (i j : nat) : list A :=
  firstn (j - i) (skipn i l).

(** [l[i:]] for a non-negative [i]. *)
Definition slice_from {A : Type} (l : list A) (i : nat) : list A := skipn i l.

(** [l[:-k]] for a positive [k]. *)
Definition drop_last {A : Type} (k : nat) (l : list A) : list A :=
  firstn (List.length l - k) l.

(** [l[-k:]] for a positive [k]. *)
Definition take_last {A : Type} (k : nat) (l : list A) : list A :=
  skipn (List.length l - k) l.

(** [l[i:-1]]. *)
Definition slice_to_last {A : Type} (l : list A) (i : nat) : list A :=
  skipn i (drop_last 1 l).

(** [bytes([x])]. *)
Definition byte1 (x : Z) : result (list Z) :=
  if (0 <=? x) && (x <? 256) then Ok [x] else Raise ValueError.

(** [bytes([x, y, ...])]. *)
Fixpoint bytes_of (xs : list Z) : result (list Z) :=
  match xs with
  | [] => Ok []
  | x :: xs' => b <- byte1 x ;; bs <- bytes_of xs' ;; Ok (b ++ bs)
  end.

Definition is_byte (x : Z) : bool := (0 <=? x) && (x <? 256).

Definition sum (l : list Z) : Z := fold_right Z.add 0 l.

Definition list_Z_eqb (a b : list Z) : bool :=
  if list_eq_dec Z.eq_dec a b then true else false.

(** ** Characters *)

Definition ord (c : ascii) : Z := Z.of_N (N_of_ascii c).
Definition chr (n : Z) : ascii := ascii_of_N (Z.to_N n).

Fixpoint ords (s : string) : list Z :=
  match s with
  | EmptyString => []
  | String c s' => ord c :: ords s'
  end.

Fixpoint chrs (l : list Z) : string :=
  match l with
  | [] => EmptyString
  | n :: l' => String (chr n) (chrs l')
  end.

Fixpoint string_get (s : string) (i : nat) : result ascii :=
  match s, i with
  | EmptyString, _ => Raise IndexError
  | String c _, O => Ok c
  | String _ s', S i' => string_get s' i'
  end.

(** ["{:X}".format(n)] for one hexadecimal digit, [0 <= n < 16]. *)
Definition hex_digit (n : Z) : ascii :=
  if n <? 10 then chr (48 + n) else chr (55 + n).

(** [int(c, 16)] for a one-character string [c] of an 8-bit character.
    Among the code points 0 to 255 the hexadecimal digits [0-9A-Fa-f] are
    the only ones [int] reads; the decimal digits of other scripts, which it
    reads as well, lie above 255. *)
Definition int16 (c : ascii) : result Z :=
  let n := ord c in
  if (48 <=? n) && (n <=? 57) then Ok (n - 48)
  else if (65 <=? n) && (n <=? 70) then Ok (n - 55)
  else if (97 <=? n) && (n <=? 102) then Ok (n - 87)
  else Raise ValueError.

(** [int(c)] for a one-character string [c] of an 8-bit character: among
    the code points 0 to 255 the digits [0-9] are the only ones [int] reads. *)
Definition int10 (c : ascii) : result Z :=
  let n := ord c in
  if (48 <=? n) && (n <=? 57) then Ok (n - 48) else Raise ValueError.

(** [str(n)] for [0 <= n < 16]: one or two decimal digits. *)
Definition str_small (n : Z) : string :=
  if n <? 10 then String (chr (48 + n)) EmptyString
  else String "1" (String (chr (48 + n - 10)) EmptyString).

(** [c.upper()] on one character. *)
Definition upper (c : ascii) : ascii :=
  let n := ord c in
  if (97 <=? n) && (n <=? 122) then chr (n - 32) else c.

Fixpoint string_upper (s : string) : string :=
  match s with
  | EmptyString => EmptyString
  | String c s' => String (upper c) (string_upper s')
  end.

(** ** SerialNumberFormat  (SimpliSafe.py, lines 5-61) *)

Module SerialNumberFormat.

Inductive fmt : Type := ASCII_4B5C | HEX_5B6C.

(** [unpack] returns a triple for [ASCII_4B5C] and a string for [HEX_5B6C]. *)
Inductive unpacked : Type :=
| Triple (sn : string) (hb lb : bool)
| Hex (sn : string).

(** The loop [for c in b: if c == 0x3F: break; sn += chr(c + 0x30)]. *)
Fixpoint until_blank (b : list Z) : string :=
  match b with
  | [] => EmptyString
  | c :: b' => if c =? 0x3F then EmptyString else String (chr (c + 0x30)) (until_blank b')
  end.

Definition unpack (f : fmt) (buffer : list Z) : result unpacked :=
  match f with
  | ASCII_4B5C =>
      raise_if (len buffer <? 4) ValueError ;;;
      b0 <- index buffer 0 ;; b1 <- index buffer 1 ;;
      b2 <- index buffer 2 ;; b3 <- index buffer 3 ;;
      let b := [ Z.lor (Z.land (Z.shiftr b2 0) 0x30) (Z.land b0 0xF);
                 Z.lor (Z.land (Z.shiftr b2 2) 0x30) (Z.shiftr b0 4);
                 Z.lor (Z.land (Z.shiftl b3 4) 0x30) (Z.land b1 0xF);
                 Z.lor (Z.land (Z.shiftl b3 2) 0x30) (Z.shiftr b1 4);
                 Z.lor (Z.land (Z.shiftl b3 0) 0x30) (Z.land b2 0xF) ] in
      let sn := until_blank b in
      let hb := negb (Z.land b3 0x80 =? 0) in
      let lb := negb (Z.land b3 0x40 =? 0) in
      Ok (Triple sn hb lb)
  | HEX_5B6C =>
      raise_if (len buffer <? 5) ValueError ;;;
      b0 <- index buffer 0 ;; b1 <- index buffer 1 ;;
      b2 <- index buffer 2 ;; b3 <- index buffer 3 ;; b4 <- index buffer 4 ;;
      Ok (Hex (string_of_list_ascii
            [ hex_digit (Z.land b0 0xF); hex_digit (Z.land b1 0xF);
              hex_digit (Z.land b2 0xF); hex_digit (Z.land b3 0xF);
              hex_digit (Z.land b4 0xF); hex_digit (Z.shiftr b3 4) ]))
  end.

(** [b[i]] of the list built by [for i in range(5)]: [ord(s[i]) - 0x30],
    or the blank [0x3F] past the end of [s]. *)
Definition code_at (s : string) (i : nat) : Z :=
  match string_get s i with
  | Ok c => ord c - 0x30
  | Raise _ => 0x3F
  end.

Definition int_of_bool (b : bool) : Z := if b then 1 else 0.

Definition pack (f : fmt) (s : string) (hb lb : bool) : result (list Z) :=
  match f with
  | ASCII_4B5C =>
      let b0 := code_at s 0 in let b1 := code_at s 1 in
      let b2 := code_at s 2 in let b3 := code_at s 3 in
      let b4 := code_at s 4 in
      x0 <- byte1 (Z.lor (Z.shiftl (Z.land b1 0x0F) 4) (Z.land b0 0xF)) ;;
      x1 <- byte1 (Z.lor (Z.shiftl (Z.land b3 0x0F) 4) (Z.land b2 0xF)) ;;
      x2 <- byte1 (Z.lor (Z.lor (Z.shiftl (Z.land b1 0x30) 2)
                                (Z.shiftl (Z.land b0 0x30) 0))
                         (Z.land b4 0x0F)) ;;
      x3 <- byte1 (Z.lor (Z.lor (Z.lor (Z.lor
                     (Z.shiftl (int_of_bool hb) 7)
                     (Z.shiftl (int_of_bool lb) 6))
                     (Z.shiftl (Z.land b4 0x30) 0))
                     (Z.shiftr (Z.land b3 0x30) 2))
                     (Z.shiftr (Z.land b2 0x30) 4)) ;;
      Ok (x0 ++ x1 ++ x2 ++ x3)
  | HEX_5B6C =>
      c0 <- string_get s 0 ;; h0 <- int16 c0 ;; x0 <- byte1 h0 ;;
      c1 <- string_get s 1 ;; h1 <- int16 c1 ;; x1 <- byte1 h1 ;;
      c2 <- string_get s 2 ;; h2 <- int16 c2 ;; x2 <- byte1 h2 ;;
      c5 <- string_get s 5 ;; h5 <- int16 c5 ;;
      c3 <- string_get s 3 ;; h3 <- int16 c3 ;;
      x3 <- byte1 (Z.shiftl h5 4 + h3) ;;
      c4 <- string_get s 4 ;; h4 <- int16 c4 ;; x4 <- byte1 h4 ;;
      Ok (x0 ++ x1 ++ x2 ++ x3 ++ x4)
  end.

End SerialNumberFormat.

(** ** Enumerations of SimpliSafe.py *)

(** [Message.OriginType] *)
Module OriginType.
Definition BASE_STATION : Z := 0x0.
Definition KEYPAD : Z := 0x1.
Definition KEYCHAIN_REMOTE : Z := 0x2.
Definition MOTION_SENSOR : Z := 0x4.
Definition ENTRY_SENSOR : Z := 0x5.
Definition values : list Z :=
  [BASE_STATION; KEYPAD; KEYCHAIN_REMOTE; MOTION_SENSOR; ENTRY_SENSOR].
End OriginType.

(** [KeypadMessage.EventType].  The enumeration is an [IntEnum]; its members
    compare by value, and [ADD_SMOKE_DETECTOR_MENU_REQUEST] has the value of
    [ADD_GLASSBREAK_SENSOR_MENU_REQUEST] (the [@unique] decorator sits on the
    empty base class [UniqueEnum], so the duplicate is an alias). *)
Module EventType.
Definition EXTENDED_STATUS_REQUEST : Z := 0x11.
Definition TEST_MODE_ON_REQUEST : Z := 0x13.
Definition EXTENDED_STATUS_REMOTE_UPDATE : Z := 0x14.
Definition ENTRY_SENSOR_UPDATE : Z := 0x27.
Definition EXTENDED_STATUS_UPDATE : Z := 0x28.
Definition STATUS_UPDATE : Z := 0x31.
Definition SENSOR_ERROR_1_UPDATE : Z := 0x32.
Definition SENSOR_ERROR_2_UPDATE : Z := 0x35.
Definition SENSOR_ERROR_3_UPDATE : Z := 0x36.
Definition SENSOR_ERROR_4_UPDATE : Z := 0x37.
Definition REMOVE_COMPONENT_MENU_REQUEST : Z := 0x44.
Definition REMOVE_COMPONENT_SCROLL_MENU_REQUEST : Z := 0x45.
Definition REMOVE_ENTRY_SENSOR_SCROLL_MENU_REQUEST : Z := 0x47.
Definition REMOVE_MOTION_SENSOR_SCROLL_MENU_REQUEST : Z := 0x48.
Definition REMOVE_PANIC_BUTTON_SCROLL_MENU_REQUEST : Z := 0x49.
Definition REMOVE_KEYPAD_SCROLL_MENU_REQUEST : Z := 0x4A.
Definition REMOVE_KEYCHAIN_REMOTE_SCROLL_MENU_REQUEST : Z := 0x4B.
Definition REMOVE_GLASSBREAK_SENSOR_SCROLL_MENU_REQUEST : Z := 0x4C.
Definition REMOVE_SMOKE_DETECTOR_SCROLL_MENU_REQUEST : Z := 0x4D.
Definition REMOVE_CO_DETECTOR_SCROLL_MENU_REQUEST : Z := 0x4E.
Definition REMOVE_FREEZE_SENSOR_SCROLL_MENU_REQUEST : Z := 0x4F.
Definition REMOVE_WATER_SENSOR_SCROLL_MENU_REQUEST : Z := 0x50.
Definition DISARM_PIN_REQUEST : Z := 0x51.
Definition HOME_REQUEST : Z := 0x53.
Definition PANIC_REQUEST : Z := 0x54.
Definition AWAY_REQUEST : Z := 0x56.
Definition OFF_REMOTE_UPDATE : Z := 0x57.
Definition OFF_REQUEST : Z := 0x5C.
Definition TEST_MODE_OFF_REQUEST : Z := 0x5E.
Definition ENTER_MENU_REQUEST : Z := 0x61.
Definition NEW_PIN_REQUEST : Z := 0x62.
Definition NEW_PREFIX_REQUEST : Z := 0x63.
Definition EXIT_MENU_REQUEST : Z := 0x64.
Definition MENU_PIN_REQUEST : Z := 0x66.
Definition REMOVE_COMPONENT_CONFIRM_MENU_REQUEST : Z := 0x67.
Definition ADD_ENTRY_SENSOR_MENU_REQUEST : Z := 0x69.
Definition ADD_MOTION_SENSOR_MENU_REQUEST : Z := 0x6A.
Definition ADD_PANIC_BUTTON_MENU_REQUEST : Z := 0x6B.
Definition ADD_KEYCHAIN_REMOTE_MENU_REQUEST : Z := 0x6D.
Definition ADD_GLASSBREAK_SENSOR_MENU_REQUEST : Z := 0x6E.
Definition ADD_SMOKE_DETECTOR_MENU_REQUEST : Z := 0x6E.
Definition CHANGE_PIN_MENU_REQUEST : Z := 0x71.
Definition CHANGE_PIN_CONFIRM_MENU_REQUEST : Z := 0x72.
Definition CHANGE_PREFIX_MENU_REQUEST : Z := 0x73.
Definition ADD_COMPONENT_MENU_REQUEST : Z := 0x74.
Definition ADD_COMPONENT_TYPE_MENU_REQUEST : Z := 0x75.
Definition REMOVE_COMPONENT_SELECT_MENU_REQUEST : Z := 0x76.
Definition ADD_COMPONENT_LAST_TYPE_MENU_REQUEST : Z := 0x77.
Definition ADD_CO_DETECTOR_MENU_REQUEST : Z := 0x78.
Definition ADD_FREEZE_SENSOR_MENU_REQUEST : Z := 0x79.
Definition ADD_WATER_SENSOR_MENU_REQUEST : Z := 0x7A.
Definition values : list Z :=
  [ EXTENDED_STATUS_REQUEST; TEST_MODE_ON_REQUEST; EXTENDED_STATUS_REMOTE_UPDATE;
    ENTRY_SENSOR_UPDATE; EXTENDED_STATUS_UPDATE; STATUS_UPDATE;
    SENSOR_ERROR_1_UPDATE; SENSOR_ERROR_2_UPDATE; SENSOR_ERROR_3_UPDATE;
    SENSOR_ERROR_4_UPDATE; REMOVE_COMPONENT_MENU_REQUEST;
    REMOVE_COMPONENT_SCROLL_MENU_REQUEST; REMOVE_ENTRY_SENSOR_SCROLL_MENU_REQUEST;
    REMOVE_MOTION_SENSOR_SCROLL_MENU_REQUEST; REMOVE_PANIC_BUTTON_SCROLL_MENU_REQUEST;
    REMOVE_KEYPAD_SCROLL_MENU_REQUEST; REMOVE_KEYCHAIN_REMOTE_SCROLL_MENU_REQUEST;
    REMOVE_GLASSBREAK_SENSOR_SCROLL_MENU_REQUEST; REMOVE_SMOKE_DETECTOR_SCROLL_MENU_REQUEST;
    REMOVE_CO_DETECTOR_SCROLL_MENU_REQUEST; REMOVE_FREEZE_SENSOR_SCROLL_MENU_REQUEST;
    REMOVE_WATER_SENSOR_SCROLL_MENU_REQUEST; DISARM_PIN_REQUEST; HOME_REQUEST;
    PANIC_REQUEST; AWAY_REQUEST; OFF_REMOTE_UPDATE; OFF_REQUEST; TEST_MODE_OFF_REQUEST;
    ENTER_MENU_REQUEST; NEW_PIN_REQUEST; NEW_PREFIX_REQUEST; EXIT_MENU_REQUEST;
    MENU_PIN_REQUEST; REMOVE_COMPONENT_CONFIRM_MENU_REQUEST;
    ADD_ENTRY_SENSOR_MENU_REQUEST; ADD_MOTION_SENSOR_MENU_REQUEST;
    ADD_PANIC_BUTTON_MENU_REQUEST; ADD_KEYCHAIN_REMOTE_MENU_REQUEST;
    ADD_GLASSBREAK_SENSOR_MENU_REQUEST; ADD_SMOKE_DETECTOR_MENU_REQUEST;
    CHANGE_PIN_MENU_REQUEST; CHANGE_PIN_CONFIRM_MENU_REQUEST;
    CHANGE_PREFIX_MENU_REQUEST; ADD_COMPONENT_MENU_REQUEST;
    ADD_COMPONENT_TYPE_MENU_REQUEST; REMOVE_COMPONENT_SELECT_MENU_REQUEST;
    ADD_COMPONENT_LAST_TYPE_MENU_REQUEST; ADD_CO_DETECTOR_MENU_REQUEST;
    ADD_FREEZE_SENSOR_MENU_REQUEST; ADD_WATER_SENSOR_MENU_REQUEST ].
End EventType.

(** [BaseStationKeypadMessage.MessageType] and [.InfoType] *)
Module MessageType.
Definition RESPONSE : Z := 0x01.
Definition UPDATE : Z := 0x05.
Definition values : list Z := [RESPONSE; UPDATE].
End MessageType.

Module InfoType.
Definition STATUS : Z := 0x2.
Definition MENU : Z := 0x6.
Definition values : list Z := [STATUS; MENU].
End InfoType.

(** [Enum(value)]: the value itself when it is a member's value, [ValueError]
    otherwise. *)
Definition enum_of (values : list Z) (x : Z) : result Z :=
  if existsb (Z.eqb x) values then Ok x else Raise ValueError.

(** Enumerations that appear as typed fields of leaf messages. *)

(** [KeypadAddComponentTypeMenuRequest.ComponentType] *)
Inductive ComponentType : Type :=
| CT_ENTRY_SENSOR | CT_MOTION_SENSOR | CT_PANIC_BUTTON | CT_KEYPAD
| CT_KEYCHAIN_REMOTE | CT_GLASSBREAK_SENSOR | CT_CO_DETECTOR | CT_SMOKE_DETECTOR
| CT_WATER_SENSOR | CT_FREEZE_SENSOR.

Definition ComponentType_value (c : ComponentType) : Z :=
  match c with
  | CT_ENTRY_SENSOR => 0x00 | CT_MOTION_SENSOR => 0x01 | CT_PANIC_BUTTON => 0x02
  | CT_KEYPAD => 0x03 | CT_KEYCHAIN_REMOTE => 0x04 | CT_GLASSBREAK_SENSOR => 0x05
  | CT_CO_DETECTOR => 0x06 | CT_SMOKE_DETECTOR => 0x07 | CT_WATER_SENSOR => 0x08
  | CT_FREEZE_SENSOR => 0x09
  end.

(** Lookup of an enumeration member by value, over the list of members. *)
Definition enum_lookup {E : Type} (members : list E) (value : E -> Z) (x : Z) : result E :=
  match find (fun e => value e =? x) members with
  | Some e => Ok e
  | None => Raise ValueError
  end.

Definition ComponentType_of : Z -> result ComponentType :=
  enum_lookup [CT_ENTRY_SENSOR; CT_MOTION_SENSOR; CT_PANIC_BUTTON; CT_KEYPAD;
               CT_KEYCHAIN_REMOTE; CT_GLASSBREAK_SENSOR; CT_CO_DETECTOR;
               CT_SMOKE_DETECTOR; CT_WATER_SENSOR; CT_FREEZE_SENSOR]
              ComponentType_value.

(** [BaseStationKeypadExtendedStatusMessage.ArmedStatusType] *)
Inductive ArmedStatusType : Type :=
| AS_OFF | AS_ARMED_AWAY | AS_ARMED_HOME | AS_ARMING_AWAY | AS_ARMING_HOME.

Definition ArmedStatusType_value (a : ArmedStatusType) : Z :=
  match a with
  | AS_OFF => 0x0 | AS_ARMED_AWAY => 0x1 | AS_ARMED_HOME => 0x2
  | AS_ARMING_AWAY => 0x3 | AS_ARMING_HOME => 0x4
  end.

Definition ArmedStatusType_of : Z -> result ArmedStatusType :=
  enum_lookup [AS_OFF; AS_ARMED_AWAY; AS_ARMED_HOME; AS_ARMING_AWAY; AS_ARMING_HOME]
              ArmedStatusType_value.

(** [BaseStationKeypadExtendedStatusMessage.EntrySensorStatusType] *)
Inductive EntrySensorStatusType : Type := ESS_CLOSED | ESS_OPEN.

Definition EntrySensorStatusType_value (e : EntrySensorStatusType) : Z :=
  match e with ESS_CLOSED => 0xF0 | ESS_OPEN => 0xF1 end.

Definition EntrySensorStatusType_of : Z -> result EntrySensorStatusType :=
  enum_lookup [ESS_CLOSED; ESS_OPEN] EntrySensorStatusType_value.

(** [BaseStationKeypadDisarmPinResponse.ResponseType] *)
Inductive DisarmPinResponseType : Type := DPR_VALID | DPR_INVALID.

Definition DisarmPinResponseType_value (r : DisarmPinResponseType) : Z :=
  match r with DPR_VALID => 0x4E | DPR_INVALID => 0x01 end.

Definition DisarmPinResponseType_of : Z -> result DisarmPinResponseType :=
  enum_lookup [DPR_VALID; DPR_INVALID] DisarmPinResponseType_value.

(** [BaseStationKeypadMenuPinResponse.ResponseType] *)
Inductive MenuPinResponseType : Type := MPR_VALID | MPR_INVALID.

Definition MenuPinResponseType_value (r : MenuPinResponseType) : Z :=
  match r with MPR_VALID => 0x00 | MPR_INVALID => 0x01 end.

Definition MenuPinResponseType_of : Z -> result MenuPinResponseType :=
  enum_lookup [MPR_VALID; MPR_INVALID] MenuPinResponseType_value.

(** [AbstractBaseStationKeypadAddComponentSerialMenuResponse.ResponseType] *)
Inductive AddComponentResponseType : Type := SENSOR_ADDED | SENSOR_ALREADY_ADDED.

Definition AddComponentResponseType_value (r : AddComponentResponseType) : Z :=
  match r with SENSOR_ADDED => 0x00 | SENSOR_ALREADY_ADDED => 0x01 end.

Definition AddComponentResponseType_of : Z -> result AddComponentResponseType :=
  enum_lookup [SENSOR_ADDED; SENSOR_ALREADY_ADDED] AddComponentResponseType_value.

(** [BaseStationKeypadEntrySensorUpdate.UpdateType] *)
Inductive EntrySensorUpdateType : Type := ESU_CLOSED | ESU_OPEN.

Definition EntrySensorUpdateType_value (u : EntrySensorUpdateType) : Z :=
  match u with ESU_CLOSED => 0x00 | ESU_OPEN => 0x01 end.

Definition EntrySensorUpdateType_of : Z -> result EntrySensorUpdateType :=
  enum_lookup [ESU_CLOSED; ESU_OPEN] EntrySensorUpdateType_value.

(** The event types of the three sensor classes. *)
Inductive KeychainRemoteEvent : Type := KR_PANIC | KR_AWAY | KR_OFF.
Definition KeychainRemoteEvent_value (e : KeychainRemoteEvent) : Z :=
  match e with KR_PANIC => 0x01 | KR_AWAY => 0x02 | KR_OFF => 0x03 end.
Definition KeychainRemoteEvent_of : Z -> result KeychainRemoteEvent :=
  enum_lookup [KR_PANIC; KR_AWAY; KR_OFF] KeychainRemoteEvent_value.

Inductive MotionSensorEvent : Type := MS_HEARTBEAT | MS_MOTION.
Definition MotionSensorEvent_value (e : MotionSensorEvent) : Z :=
  match e with MS_HEARTBEAT => 0x00 | MS_MOTION => 0x02 end.
Definition MotionSensorEvent_of : Z -> result MotionSensorEvent :=
  enum_lookup [MS_HEARTBEAT; MS_MOTION] MotionSensorEvent_value.

Inductive EntrySensorEvent : Type := ES_OPEN | ES_CLOSED.
Definition EntrySensorEvent_value (e : EntrySensorEvent) : Z :=
  match e with ES_OPEN => 0x01 | ES_CLOSED => 0x02 end.
Definition EntrySensorEvent_of : Z -> result EntrySensorEvent :=
  enum_lookup [ES_OPEN; ES_CLOSED] EntrySensorEvent_value.

(** ** The message classes of SimpliSafe.py

    The class hierarchy has five levels.  A leaf class is either defined with
    its own [factory] or is one of the subclasses an abstract class walks
    through with [cls.__subclasses__()]; the latter are collected in the
    enumerations below, each in the order of the class definitions, which is
    the order [__subclasses__()] returns. *)

(** Subclasses of [KeypadPinMessage] *)
Inductive PinClass : Type :=
| KeypadDisarmPinRequest | KeypadNewPinRequest | KeypadMenuPinRequest.

Definition PinClass_subclasses : list PinClass :=
  [KeypadDisarmPinRequest; KeypadNewPinRequest; KeypadMenuPinRequest].

Definition PinClass_event_type (c : PinClass) : Z :=
  match c with
  | KeypadDisarmPinRequest => EventType.DISARM_PIN_REQUEST
  | KeypadNewPinRequest => EventType.NEW_PIN_REQUEST
  | KeypadMenuPinRequest => EventType.MENU_PIN_REQUEST
  end.

(** Subclasses of [AbstractKeypadSimpleRequest] *)
Inductive SimpleRequestClass : Type :=
| KeypadExtendedStatusRequest | KeypadTestModeOnRequest | KeypadTestModeOffRequest
| KeypadRemoveComponentMenuRequest | KeypadHomeRequest | KeypadPanicRequest
| KeypadAwayRequest | KeypadOffRequest | KeypadEnterMenuRequest
| KeypadExitMenuRequest | KeypadChangePinMenuRequest
| KeypadChangePinConfirmMenuRequest | KeypadAddComponentMenuRequest
| KeypadRemoveComponentSelectMenuRequest | KeypadAddComponentLastTypeMenuRequest.

Definition SimpleRequestClass_subclasses : list SimpleRequestClass :=
  [ KeypadExtendedStatusRequest; KeypadTestModeOnRequest; KeypadTestModeOffRequest;
    KeypadRemoveComponentMenuRequest; KeypadHomeRequest; KeypadPanicRequest;
    KeypadAwayRequest; KeypadOffRequest; KeypadEnterMenuRequest;
    KeypadExitMenuRequest; KeypadChangePinMenuRequest;
    KeypadChangePinConfirmMenuRequest; KeypadAddComponentMenuRequest;
    KeypadRemoveComponentSelectMenuRequest; KeypadAddComponentLastTypeMenuRequest ].

Definition SimpleRequestClass_event_type (c : SimpleRequestClass) : Z :=
  match c with
  | KeypadExtendedStatusRequest => EventType.EXTENDED_STATUS_REQUEST
  | KeypadTestModeOnRequest => EventType.TEST_MODE_ON_REQUEST
  | KeypadTestModeOffRequest => EventType.TEST_MODE_OFF_REQUEST
  | KeypadRemoveComponentMenuRequest => EventType.REMOVE_COMPONENT_MENU_REQUEST
  | KeypadHomeRequest => EventType.HOME_REQUEST
  | KeypadPanicRequest => EventType.PANIC_REQUEST
  | KeypadAwayRequest => EventType.AWAY_REQUEST
  | KeypadOffRequest => EventType.OFF_REQUEST
  | KeypadEnterMenuRequest => EventType.ENTER_MENU_REQUEST
  | KeypadExitMenuRequest => EventType.EXIT_MENU_REQUEST
  | KeypadChangePinMenuRequest => EventType.CHANGE_PIN_MENU_REQUEST
  | KeypadChangePinConfirmMenuRequest => EventType.CHANGE_PIN_CONFIRM_MENU_REQUEST
  | KeypadAddComponentMenuRequest => EventType.ADD_COMPONENT_MENU_REQUEST
  | KeypadRemoveComponentSelectMenuRequest => EventType.REMOVE_COMPONENT_SELECT_MENU_REQUEST
  | KeypadAddComponentLastTypeMenuRequest => EventType.ADD_COMPONENT_LAST_TYPE_MENU_REQUEST
  end.

(** Subclasses of [AbstractKeypadModifyComponentMenuRequest] *)
Inductive ModifyComponentClass : Type :=
| KeypadRemoveComponentConfirmMenuRequest | KeypadAddEntrySensorMenuRequest
| KeypadAddMotionSensorMenuRequest | KeypadAddPanicButtonMenuRequest
| KeypadAddKeychainRemoteMenuRequest | KeypadAddGlassbreakSensorMenuRequest
| KeypadAddSmokeDetectorMenuRequest | KeypadAddCoDetectorMenuRequest
| KeypadAddFreezeSensorMenuRequest | KeypadAddWaterSensorMenuRequest.

Definition ModifyComponentClass_subclasses : list ModifyComponentClass :=
  [ KeypadRemoveComponentConfirmMenuRequest; KeypadAddEntrySensorMenuRequest;
    KeypadAddMotionSensorMenuRequest; KeypadAddPanicButtonMenuRequest;
    KeypadAddKeychainRemoteMenuRequest; KeypadAddGlassbreakSensorMenuRequest;
    KeypadAddSmokeDetectorMenuRequest; KeypadAddCoDetectorMenuRequest;
    KeypadAddFreezeSensorMenuRequest; KeypadAddWaterSensorMenuRequest ].

Definition ModifyComponentClass_event_type (c : ModifyComponentClass) : Z :=
  match c with
  | KeypadRemoveComponentConfirmMenuRequest => EventType.REMOVE_COMPONENT_CONFIRM_MENU_REQUEST
  | KeypadAddEntrySensorMenuRequest => EventType.ADD_ENTRY_SENSOR_MENU_REQUEST
  | KeypadAddMotionSensorMenuRequest => EventType.ADD_MOTION_SENSOR_MENU_REQUEST
  | KeypadAddPanicButtonMenuRequest => EventType.ADD_PANIC_BUTTON_MENU_REQUEST
  | KeypadAddKeychainRemoteMenuRequest => EventType.ADD_KEYCHAIN_REMOTE_MENU_REQUEST
  | KeypadAddGlassbreakSensorMenuRequest => EventType.ADD_GLASSBREAK_SENSOR_MENU_REQUEST
  | KeypadAddSmokeDetectorMenuRequest => EventType.ADD_SMOKE_DETECTOR_MENU_REQUEST
  | KeypadAddCoDetectorMenuRequest => EventType.ADD_CO_DETECTOR_MENU_REQUEST
  | KeypadAddFreezeSensorMenuRequest => EventType.ADD_FREEZE_SENSOR_MENU_REQUEST
  | KeypadAddWaterSensorMenuRequest => EventType.ADD_WATER_SENSOR_MENU_REQUEST
  end.

(** Subclasses of [BaseStationKeypadExtendedStatusMessage] *)
Inductive ExtendedStatusClass : Type :=
| BaseStationKeypadExtendedStatusResponse
| BaseStationKeypadExtendedStatusUpdate
| BaseStationKeypadExtendedStatusRemoteUpdate.

Definition ExtendedStatusClass_subclasses : list ExtendedStatusClass :=
  [ BaseStationKeypadExtendedStatusResponse; BaseStationKeypadExtendedStatusUpdate;
    BaseStationKeypadExtendedStatusRemoteUpdate ].

Definition ExtendedStatusClass_msg_type (c : ExtendedStatusClass) : Z :=
  match c with
  | BaseStationKeypadExtendedStatusResponse => MessageType.RESPONSE
  | BaseStationKeypadExtendedStatusUpdate => MessageType.UPDATE
  | BaseStationKeypadExtendedStatusRemoteUpdate => MessageType.UPDATE
  end.

Definition ExtendedStatusClass_event_type (c : ExtendedStatusClass) : Z :=
  match c with
  | BaseStationKeypadExtendedStatusResponse => EventType.EXTENDED_STATUS_REQUEST
  | BaseStationKeypadExtendedStatusUpdate => EventType.EXTENDED_STATUS_UPDATE
  | BaseStationKeypadExtendedStatusRemoteUpdate => EventType.EXTENDED_STATUS_REMOTE_UPDATE
  end.

(** Subclasses of [BaseStationKeypadDisarmPinResponse] and of
    [BaseStationKeypadMenuPinResponse] *)
Inductive DisarmPinResponseClass : Type :=
| BaseStationKeypadInvalidDisarmPinResponse | BaseStationKeypadValidDisarmPinResponse.

Definition DisarmPinResponseClass_subclasses : list DisarmPinResponseClass :=
  [BaseStationKeypadInvalidDisarmPinResponse; BaseStationKeypadValidDisarmPinResponse].

Definition DisarmPinResponseClass_response_type (c : DisarmPinResponseClass) : DisarmPinResponseType :=
  match c with
  | BaseStationKeypadInvalidDisarmPinResponse => DPR_INVALID
  | BaseStationKeypadValidDisarmPinResponse => DPR_VALID
  end.

Inductive MenuPinResponseClass : Type :=
| BaseStationKeypadInvalidMenuPinResponse | BaseStationKeypadValidMenuPinResponse.

Definition MenuPinResponseClass_subclasses : list MenuPinResponseClass :=
  [BaseStationKeypadInvalidMenuPinResponse; BaseStationKeypadValidMenuPinResponse].

Definition MenuPinResponseClass_response_type (c : MenuPinResponseClass) : MenuPinResponseType :=
  match c with
  | BaseStationKeypadInvalidMenuPinResponse => MPR_INVALID
  | BaseStationKeypadValidMenuPinResponse => MPR_VALID
  end.

(** Subclasses of [AbstractBaseStationKeypadAddComponentSerialMenuResponse] *)
Inductive AddComponentSerialClass : Type :=
| BaseStationKeypadAddEntrySensorMenuResponse | BaseStationKeypadAddMotionSensorMenuResponse
| BaseStationKeypadAddPanicButtonMenuResponse | BaseStationKeypadAddKeychainRemoteMenuResponse
| BaseStationKeypadAddGlassbreakSensorMenuResponse | BaseStationKeypadAddSmokeDetectorMenuResponse
| BaseStationKeypadAddCoDetectorMenuResponse | BaseStationKeypadAddFreezeSensorMenuResponse
| BaseStationKeypadAddWaterSensorMenuResponse.

Definition AddComponentSerialClass_subclasses : list AddComponentSerialClass :=
  [ BaseStationKeypadAddEntrySensorMenuResponse; BaseStationKeypadAddMotionSensorMenuResponse;
    BaseStationKeypadAddPanicButtonMenuResponse; BaseStationKeypadAddKeychainRemoteMenuResponse;
    BaseStationKeypadAddGlassbreakSensorMenuResponse; BaseStationKeypadAddSmokeDetectorMenuResponse;
    BaseStationKeypadAddCoDetectorMenuResponse; BaseStationKeypadAddFreezeSensorMenuResponse;
    BaseStationKeypadAddWaterSensorMenuResponse ].

Definition AddComponentSerialClass_event_type (c : AddComponentSerialClass) : Z :=
  match c with
  | BaseStationKeypadAddEntrySensorMenuResponse => EventType.ADD_ENTRY_SENSOR_MENU_REQUEST
  | BaseStationKeypadAddMotionSensorMenuResponse => EventType.ADD_MOTION_SENSOR_MENU_REQUEST
  | BaseStationKeypadAddPanicButtonMenuResponse => EventType.ADD_PANIC_BUTTON_MENU_REQUEST
  | BaseStationKeypadAddKeychainRemoteMenuResponse => EventType.ADD_KEYCHAIN_REMOTE_MENU_REQUEST
  | BaseStationKeypadAddGlassbreakSensorMenuResponse => EventType.ADD_GLASSBREAK_SENSOR_MENU_REQUEST
  | BaseStationKeypadAddSmokeDetectorMenuResponse => EventType.ADD_SMOKE_DETECTOR_MENU_REQUEST
  | BaseStationKeypadAddCoDetectorMenuResponse => EventType.ADD_CO_DETECTOR_MENU_REQUEST
  | BaseStationKeypadAddFreezeSensorMenuResponse => EventType.ADD_FREEZE_SENSOR_MENU_REQUEST
  | BaseStationKeypadAddWaterSensorMenuResponse => EventType.ADD_WATER_SENSOR_MENU_REQUEST
  end.

(** Subclasses of [AbstractBaseStationKeypadSimpleStatusMessage] *)
Inductive SimpleStatusClass : Type :=
| BaseStationKeypadTestModeOnResponse | BaseStationKeypadOffResponse
| BaseStationKeypadTestModeOffResponse
| BaseStationKeypadClearSensorError1Update | BaseStationKeypadClearSensorError2Update
| BaseStationKeypadClearSensorError3Update | BaseStationKeypadClearSensorError4Update.

Definition SimpleStatusClass_subclasses : list SimpleStatusClass :=
  [ BaseStationKeypadTestModeOnResponse; BaseStationKeypadOffResponse;
    BaseStationKeypadTestModeOffResponse;
    BaseStationKeypadClearSensorError1Update; BaseStationKeypadClearSensorError2Update;
    BaseStationKeypadClearSensorError3Update; BaseStationKeypadClearSensorError4Update ].

Definition SimpleStatusClass_msg_type (c : SimpleStatusClass) : Z :=
  match c with
  | BaseStationKeypadTestModeOnResponse | BaseStationKeypadOffResponse
  | BaseStationKeypadTestModeOffResponse => MessageType.RESPONSE
  | _ => MessageType.UPDATE
  end.

Definition SimpleStatusClass_event_type (c : SimpleStatusClass) : Z :=
  match c with
  | BaseStationKeypadTestModeOnResponse => EventType.TEST_MODE_ON_REQUEST
  | BaseStationKeypadOffResponse => EventType.OFF_REQUEST
  | BaseStationKeypadTestModeOffResponse => EventType.TEST_MODE_OFF_REQUEST
  | BaseStationKeypadClearSensorError1Update => EventType.SENSOR_ERROR_1_UPDATE
  | BaseStationKeypadClearSensorError2Update => EventType.SENSOR_ERROR_2_UPDATE
  | BaseStationKeypadClearSensorError3Update => EventType.SENSOR_ERROR_3_UPDATE
  | BaseStationKeypadClearSensorError4Update => EventType.SENSOR_ERROR_4_UPDATE
  end.

(** Subclasses of [AbstractBaseStationKeypadSimpleMenuMessage]; all of them
    carry [BaseStationKeypadResponseTrait]. *)
Inductive SimpleMenuClass : Type :=
| BaseStationKeypadExitMenuResponse | BaseStationKeypadChangePinMenuResponse
| BaseStationKeypadChangePinConfirmMenuResponse | BaseStationKeypadChangePrefixMenuResponse
| BaseStationKeypadAddComponentMenuResponse | BaseStationKeypadAddComponentTypeMenuResponse.

Definition SimpleMenuClass_subclasses : list SimpleMenuClass :=
  [ BaseStationKeypadExitMenuResponse; BaseStationKeypadChangePinMenuResponse;
    BaseStationKeypadChangePinConfirmMenuResponse; BaseStationKeypadChangePrefixMenuResponse;
    BaseStationKeypadAddComponentMenuResponse; BaseStationKeypadAddComponentTypeMenuResponse ].

Definition SimpleMenuClass_event_type (c : SimpleMenuClass) : Z :=
  match c with
  | BaseStationKeypadExitMenuResponse => EventType.EXIT_MENU_REQUEST
  | BaseStationKeypadChangePinMenuResponse => EventType.CHANGE_PIN_MENU_REQUEST
  | BaseStationKeypadChangePinConfirmMenuResponse => EventType.CHANGE_PIN_CONFIRM_MENU_REQUEST
  | BaseStationKeypadChangePrefixMenuResponse => EventType.CHANGE_PREFIX_MENU_REQUEST
  | BaseStationKeypadAddComponentMenuResponse => EventType.ADD_COMPONENT_MENU_REQUEST
  | BaseStationKeypadAddComponentTypeMenuResponse => EventType.ADD_COMPONENT_TYPE_MENU_REQUEST
  end.

(** Subclasses of [AbstractBaseStationKeypadRemoveComponentScrollMenuResponse] *)
Inductive RemoveScrollClass : Type :=
| BaseStationKeypadRemoveEntrySensorScrollMenuResponse
| BaseStationKeypadRemoveMotionSensorScrollMenuResponse
| BaseStationKeypadRemovePanicButtonScrollMenuResponse
| BaseStationKeypadRemoveKeypadScrollMenuResponse
| BaseStationKeypadRemoveKeychainRemoteScrollMenuResponse
| BaseStationKeypadRemoveGlassbreakSensorScrollMenuResponse
| BaseStationKeypadRemoveSmokeDetectorScrollMenuResponse
| BaseStationKeypadRemoveCoDetectorScrollMenuResponse
| BaseStationKeypadRemoveFreezeSensorScrollMenuResponse
| BaseStationKeypadRemoveWaterSensorScrollMenuResponse.

Definition RemoveScrollClass_subclasses : list RemoveScrollClass :=
  [ BaseStationKeypadRemoveEntrySensorScrollMenuResponse;
    BaseStationKeypadRemoveMotionSensorScrollMenuResponse;
    BaseStationKeypadRemovePanicButtonScrollMenuResponse;
    BaseStationKeypadRemoveKeypadScrollMenuResponse;
    BaseStationKeypadRemoveKeychainRemoteScrollMenuResponse;
    BaseStationKeypadRemoveGlassbreakSensorScrollMenuResponse;
    BaseStationKeypadRemoveSmokeDetectorScrollMenuResponse;
    BaseStationKeypadRemoveCoDetectorScrollMenuResponse;
    BaseStationKeypadRemoveFreezeSensorScrollMenuResponse;
    BaseStationKeypadRemoveWaterSensorScrollMenuResponse ].

Definition RemoveScrollClass_event_type (c : RemoveScrollClass) : Z :=
  match c with
  | BaseStationKeypadRemoveEntrySensorScrollMenuResponse => EventType.REMOVE_ENTRY_SENSOR_SCROLL_MENU_REQUEST
  | BaseStationKeypadRemoveMotionSensorScrollMenuResponse => EventType.REMOVE_MOTION_SENSOR_SCROLL_MENU_REQUEST
  | BaseStationKeypadRemovePanicButtonScrollMenuResponse => EventType.REMOVE_PANIC_BUTTON_SCROLL_MENU_REQUEST
  | BaseStationKeypadRemoveKeypadScrollMenuResponse => EventType.REMOVE_KEYPAD_SCROLL_MENU_REQUEST
  | BaseStationKeypadRemoveKeychainRemoteScrollMenuResponse => EventType.REMOVE_KEYCHAIN_REMOTE_SCROLL_MENU_REQUEST
  | BaseStationKeypadRemoveGlassbreakSensorScrollMenuResponse => EventType.REMOVE_GLASSBREAK_SENSOR_SCROLL_MENU_REQUEST
  | BaseStationKeypadRemoveSmokeDetectorScrollMenuResponse => EventType.REMOVE_SMOKE_DETECTOR_SCROLL_MENU_REQUEST
  | BaseStationKeypadRemoveCoDetectorScrollMenuResponse => EventType.REMOVE_CO_DETECTOR_SCROLL_MENU_REQUEST
  | BaseStationKeypadRemoveFreezeSensorScrollMenuResponse => EventType.REMOVE_FREEZE_SENSOR_SCROLL_MENU_REQUEST
  | BaseStationKeypadRemoveWaterSensorScrollMenuResponse => EventType.REMOVE_WATER_SENSOR_SCROLL_MENU_REQUEST
  end.

(** The loop [for c in cls.__subclasses__(): if <test c>: return c(...)]
    followed by [raise InvalidMessageBytesError]. *)
Definition find_subclass {C : Type} (subclasses : list C) (test : C -> bool) : result C :=
  match find test subclasses with
  | Some c => Ok c
  | None => Raise InvalidMessageBytesError
  end.

(** A message object: an instance of the base class [Message] or of one of
    the leaf classes, with the arguments of the leaf's constructor. *)
Inductive message : Type :=
| Message (plc : Z) (sn : string) (payload footer : list Z)
(* KeypadMessage *)
| KeypadRemoveComponentScrollMenuRequest (sn : string) (sequence n : Z)
| KeypadPinMessage (c : PinClass) (sn : string) (sequence : Z) (pin : string)
| AbstractKeypadSimpleRequest (c : SimpleRequestClass) (sn : string) (sequence : Z)
| KeypadPrefixRequest (sn : string) (sequence : Z) (prefix : option Z)
| AbstractKeypadModifyComponentMenuRequest (c : ModifyComponentClass)
    (sn : string) (sequence : Z) (c_sn : string)
| KeypadAddComponentTypeMenuRequest (sn : string) (sequence : Z) (c_type : ComponentType)
(* BaseStationKeypadMessage *)
| BaseStationKeypadExtendedStatusMessage (c : ExtendedStatusClass)
    (kp_sn : string) (sequence : Z) (bs_sn : string) (flags : Z)
    (armed : ArmedStatusType) (ess : EntrySensorStatusType) (tl : Z)
| BaseStationKeypadStatusUpdate (kp_sn : string) (sequence : Z) (bs_sn : string) (flags : Z)
| BaseStationKeypadDisarmPinResponse (c : DisarmPinResponseClass)
    (kp_sn : string) (sequence : Z) (bs_sn : string)
| BaseStationKeypadMenuPinResponse (c : MenuPinResponseClass) (kp_sn : string) (sequence : Z)
| BaseStationKeypadHomeResponse (kp_sn : string) (sequence : Z) (bs_sn : string)
| BaseStationKeypadAwayResponse (kp_sn : string) (sequence : Z) (bs_sn : string)
| BaseStationKeypadOffRemoteUpdate (kp_sn : string) (sequence : Z) (bs_sn : string)
| BaseStationKeypadEnterMenuResponse (kp_sn : string) (sequence : Z)
| BaseStationKeypadNewPrefixResponse (kp_sn : string) (sequence : Z)
| BaseStationKeypadRemoveComponentSelectResponse (kp_sn : string) (sequence : Z)
| BaseStationKeypadRemoveComponentConfirmMenuResponse (kp_sn : string) (sequence : Z)
| AbstractBaseStationKeypadAddComponentSerialMenuResponse (c : AddComponentSerialClass)
    (kp_sn : string) (sequence : Z) (response_type : AddComponentResponseType)
| AbstractBaseStationKeypadSimpleStatusMessage (c : SimpleStatusClass)
    (kp_sn : string) (sequence : Z) (bs_sn : string)
| AbstractBaseStationKeypadSimpleMenuMessage (c : SimpleMenuClass) (kp_sn : string) (sequence : Z)
| AbstractBaseStationKeypadRemoveComponentScrollMenuResponse (c : RemoveScrollClass)
    (kp_sn : string) (sequence : Z) (c_sn : string) (left_arrow right_arrow : bool)
| BaseStationKeypadEntrySensorUpdate (kp_sn : string) (sequence : Z) (bs_sn : string)
    (ese : EntrySensorUpdateType)
| BaseStationKeypadSensorErrorUpdate (kp_sn : string) (sequence : Z) (bs_sn : string)
    (n : Z) (c_sn : string)
(* SensorMessage *)
| KeychainRemoteMessage (sn : string) (sequence : Z) (event_type : KeychainRemoteEvent)
| MotionSensorMessage (sn : string) (sequence : Z) (event_type : MotionSensorEvent)
| EntrySensorMessage (sn : string) (sequence : Z) (event_type : EntrySensorEvent).

(** The objects of the inner classes that the factories build on the way to
    a leaf. *)
Record KeypadMessage_obj : Type := mkKeypadMessage
  { km_plc : Z; km_sn : string; km_sequence : Z; km_event_type : Z;
    km_payload_body : list Z }.

Record KeypadPinMessage_obj : Type := mkKeypadPinMessage
  { kp_sn_ : string; kp_sequence : Z; kp_event_type : Z; kp_pin : string }.

Record BaseStationKeypadMessage_obj : Type := mkBaseStationKeypadMessage
  { bm_plc : Z; bm_sn : string; bm_sequence : Z; bm_msg_type : Z; bm_info_type : Z;
    bm_event_type : Z; bm_payload_body : list Z; bm_footer_body : list Z }.

Record ExtendedStatusMessage_obj : Type := mkExtendedStatusMessage
  { xm_sn : string; xm_sequence : Z; xm_bs_sn : string; xm_msg_type : Z;
    xm_event_type : Z; xm_flags : Z; xm_armed : ArmedStatusType;
    xm_ess : EntrySensorStatusType; xm_tl : Z }.

Record SensorMessage_obj : Type := mkSensorMessage
  { sm_sn : string; sm_origin_type : Z; sm_sequence : Z; sm_event_type : Z }.

(** ** Encoding: the [payload], [payload_body], [footer] and [footer_body]
       properties and [Message.__bytes__] *)

Definition VENDOR_CODE : Z := 0xCC05.

(** [Message.PAYLOAD_LENGTHS] *)
Definition PAYLOAD_LENGTHS (plc : Z) : option nat :=
  if plc =? 0x00 then Some 7%nat
  else if plc =? 0x11 then Some 2%nat
  else if plc =? 0x22 then Some 3%nat
  else if plc =? 0x33 then Some 4%nat
  else if plc =? 0x66 then Some 7%nat
  else None.

Definition unpack_hex (buffer : list Z) : result string :=
  u <- SerialNumberFormat.unpack SerialNumberFormat.HEX_5B6C buffer ;;
  match u with
  | SerialNumberFormat.Hex s => Ok s
  | SerialNumberFormat.Triple _ _ _ => Raise TypeError
  end.

Definition unpack_ascii (buffer : list Z) : result (string * bool * bool) :=
  u <- SerialNumberFormat.unpack SerialNumberFormat.ASCII_4B5C buffer ;;
  match u with
  | SerialNumberFormat.Triple s hb lb => Ok (s, hb, lb)
  | SerialNumberFormat.Hex _ => Raise TypeError
  end.

Definition pack_hex (s : string) : result (list Z) :=
  SerialNumberFormat.pack SerialNumberFormat.HEX_5B6C s false false.

Definition pack_ascii (s : string) (hb lb : bool) : result (list Z) :=
  SerialNumberFormat.pack SerialNumberFormat.ASCII_4B5C s hb lb.

(** [KeypadMessage.payload]; the body is a property of the subclass and is
    evaluated between the two [bytes(...)] calls. *)
Definition KeypadMessage_payload (sequence event_type : Z) (payload_body : result (list Z))
  : result (list Z) :=
  h <- bytes_of [OriginType.KEYPAD; Z.lor (Z.shiftl sequence 4) 0x4] ;;
  b <- payload_body ;;
  e <- byte1 event_type ;;
  Ok (h ++ b ++ e).

(** [BaseStationKeypadMessage.payload] and [.footer] *)
Definition BaseStationKeypadMessage_payload (msg_type event_type : Z)
  (payload_body : result (list Z)) : result (list Z) :=
  h <- bytes_of [OriginType.BASE_STATION; msg_type] ;;
  b <- payload_body ;;
  e <- byte1 event_type ;;
  Ok (h ++ b ++ e).

Definition BaseStationKeypadMessage_footer (sequence info_type : Z)
  (footer_body : result (list Z)) : result (list Z) :=
  f <- footer_body ;;
  s <- byte1 (Z.lor (Z.shiftl sequence 4) info_type) ;;
  Ok (f ++ s).

(** [SensorMessage.payload] *)
Definition SensorMessage_payload (origin_type sequence event_type : Z) : result (list Z) :=
  let stuffed_byte := Z.shiftl sequence 4 + origin_type in
  bytes_of [stuffed_byte; event_type].

(** [KeypadPinMessage.payload_body] *)
Definition KeypadPinMessage_payload_body (pin : string) : result (list Z) :=
  c1 <- string_get pin 1 ;; d1 <- int10 c1 ;;
  c0 <- string_get pin 0 ;; d0 <- int10 c0 ;;
  c3 <- string_get pin 3 ;; d3 <- int10 c3 ;;
  c2 <- string_get pin 2 ;; d2 <- int10 c2 ;;
  stuffed_pin <- bytes_of [Z.shiftl d1 4 + d0; Z.shiftl d3 4 + d2] ;;
  Ok (stuffed_pin ++ [0x0F; 0xF0]).

(** [KeypadPrefixRequest.payload_body]: with a digit prefix the body refers
    to the name [payload_body_suffix], which is neither a local nor a global
    of the module, so the evaluation raises [NameError]. *)
Definition KeypadPrefixRequest_payload_body (prefix : option Z) : result (list Z) :=
  match prefix with
  | None => Ok [0xFF; 0xFF; 0xFF; 0xFF]
  | Some _ => Raise NameError
  end.

(** [AbstractKeypadModifyComponentMenuRequest.payload_body] *)
Definition ModifyComponent_payload_body (c_sn : string) : result (list Z) :=
  if (String.length c_sn =? 5)%nat then pack_ascii c_sn false false
  else pack_ascii c_sn true true.

(** [BaseStationKeypadExtendedStatusMessage.payload_body] *)
Definition ExtendedStatus_payload_body (flags : Z) (armed : ArmedStatusType)
  (ess : EntrySensorStatusType) (tl : Z) : result (list Z) :=
  a <- byte1 (Z.lor (Z.shiftl flags 4) (ArmedStatusType_value armed)) ;;
  b <- byte1 (EntrySensorStatusType_value ess) ;;
  c <- bytes_of [Z.shiftr tl 4; Z.lor (Z.shiftl (Z.land tl 0xF) 4) 0xC] ;;
  Ok (a ++ b ++ c).

Definition MENU_footer_body : list Z := [0xFF; 0xFF; 0xFF; 0xFF; 0xFF].

(** The attributes of a message object, by class. *)

Definition plc_of (m : message) : Z :=
  match m with
  | Message plc _ _ _ => plc
  | KeypadRemoveComponentScrollMenuRequest _ _ _ => 0x33
  | KeypadPinMessage _ _ _ _ => 0x66
  | AbstractKeypadSimpleRequest _ _ _ => 0x22
  | KeypadPrefixRequest _ _ _ => 0x66
  | AbstractKeypadModifyComponentMenuRequest _ _ _ _ => 0x66
  | KeypadAddComponentTypeMenuRequest _ _ _ => 0x33
  | BaseStationKeypadExtendedStatusMessage _ _ _ _ _ _ _ _ => 0x66
  | BaseStationKeypadStatusUpdate _ _ _ _ => 0x33
  | BaseStationKeypadDisarmPinResponse _ _ _ _ => 0x33
  | BaseStationKeypadMenuPinResponse _ _ _ => 0x33
  | BaseStationKeypadHomeResponse _ _ _ => 0x33
  | BaseStationKeypadAwayResponse _ _ _ => 0x33
  | BaseStationKeypadOffRemoteUpdate _ _ _ => 0x33
  | BaseStationKeypadEnterMenuResponse _ _ => 0x33
  | BaseStationKeypadNewPrefixResponse _ _ => 0x33
  | BaseStationKeypadRemoveComponentSelectResponse _ _ => 0x33
  | BaseStationKeypadRemoveComponentConfirmMenuResponse _ _ => 0x33
  | AbstractBaseStationKeypadAddComponentSerialMenuResponse _ _ _ _ => 0x33
  | AbstractBaseStationKeypadSimpleStatusMessage _ _ _ _ => 0x22
  | AbstractBaseStationKeypadSimpleMenuMessage _ _ _ => 0x22
  | AbstractBaseStationKeypadRemoveComponentScrollMenuResponse _ _ _ _ _ _ => 0x66
  | BaseStationKeypadEntrySensorUpdate _ _ _ _ => 0x33
  | BaseStationKeypadSensorErrorUpdate _ _ _ _ _ => 0x66
  | KeychainRemoteMessage _ _ _ | MotionSensorMessage _ _ _ | EntrySensorMessage _ _ _ => 0x11
  end.

Definition sn_of (m : message) : string :=
  match m with
  | Message _ sn _ _
  | KeypadRemoveComponentScrollMenuRequest sn _ _
  | KeypadPinMessage _ sn _ _
  | AbstractKeypadSimpleRequest _ sn _
  | KeypadPrefixRequest sn _ _
  | AbstractKeypadModifyComponentMenuRequest _ sn _ _
  | KeypadAddComponentTypeMenuRequest sn _ _
  | BaseStationKeypadExtendedStatusMessage _ sn _ _ _ _ _ _
  | BaseStationKeypadStatusUpdate sn _ _ _
  | BaseStationKeypadDisarmPinResponse _ sn _ _
  | BaseStationKeypadMenuPinResponse _ sn _
  | BaseStationKeypadHomeResponse sn _ _
  | BaseStationKeypadAwayResponse sn _ _
  | BaseStationKeypadOffRemoteUpdate sn _ _
  | BaseStationKeypadEnterMenuResponse sn _
  | BaseStationKeypadNewPrefixResponse sn _
  | BaseStationKeypadRemoveComponentSelectResponse sn _
  | BaseStationKeypadRemoveComponentConfirmMenuResponse sn _
  | AbstractBaseStationKeypadAddComponentSerialMenuResponse _ sn _ _
  | AbstractBaseStationKeypadSimpleStatusMessage _ sn _ _
  | AbstractBaseStationKeypadSimpleMenuMessage _ sn _
  | AbstractBaseStationKeypadRemoveComponentScrollMenuResponse _ sn _ _ _ _
  | BaseStationKeypadEntrySensorUpdate sn _ _ _
  | BaseStationKeypadSensorErrorUpdate sn _ _ _ _
  | KeychainRemoteMessage sn _ _ | MotionSensorMessage sn _ _ | EntrySensorMessage sn _ _ => sn
  end.

(** [self.sequence]; the base class has no such attribute. *)
Definition sequence_of (m : message) : Z :=
  match m with
  | Message _ _ _ _ => 0
  | KeypadRemoveComponentScrollMenuRequest _ s _
  | KeypadPinMessage _ _ s _
  | AbstractKeypadSimpleRequest _ _ s
  | KeypadPrefixRequest _ s _
  | AbstractKeypadModifyComponentMenuRequest _ _ s _
  | KeypadAddComponentTypeMenuRequest _ s _
  | BaseStationKeypadExtendedStatusMessage _ _ s _ _ _ _ _
  | BaseStationKeypadStatusUpdate _ s _ _
  | BaseStationKeypadDisarmPinResponse _ _ s _
  | BaseStationKeypadMenuPinResponse _ _ s
  | BaseStationKeypadHomeResponse _ s _
  | BaseStationKeypadAwayResponse _ s _
  | BaseStationKeypadOffRemoteUpdate _ s _
  | BaseStationKeypadEnterMenuResponse _ s
  | BaseStationKeypadNewPrefixResponse _ s
  | BaseStationKeypadRemoveComponentSelectResponse _ s
  | BaseStationKeypadRemoveComponentConfirmMenuResponse _ s
  | AbstractBaseStationKeypadAddComponentSerialMenuResponse _ _ s _
  | AbstractBaseStationKeypadSimpleStatusMessage _ _ s _
  | AbstractBaseStationKeypadSimpleMenuMessage _ _ s
  | AbstractBaseStationKeypadRemoveComponentScrollMenuResponse _ _ s _ _ _
  | BaseStationKeypadEntrySensorUpdate _ s _ _
  | BaseStationKeypadSensorErrorUpdate _ s _ _ _
  | KeychainRemoteMessage _ s _ | MotionSensorMessage _ s _ | EntrySensorMessage _ s _ => s
  end.

(** [self.event_type] of keypad and base-station messages.  For
    [BaseStationKeypadSensorErrorUpdate] the constructor derives it from [n]
    (and raises for any other [n], see [init_checks]). *)
Definition event_type_of (m : message) : Z :=
  match m with
  | KeypadRemoveComponentScrollMenuRequest _ _ _ => EventType.REMOVE_COMPONENT_SCROLL_MENU_REQUEST
  | KeypadPinMessage c _ _ _ => PinClass_event_type c
  | AbstractKeypadSimpleRequest c _ _ => SimpleRequestClass_event_type c
  | KeypadPrefixRequest _ _ _ => EventType.NEW_PREFIX_REQUEST
  | AbstractKeypadModifyComponentMenuRequest c _ _ _ => ModifyComponentClass_event_type c
  | KeypadAddComponentTypeMenuRequest _ _ _ => EventType.ADD_COMPONENT_TYPE_MENU_REQUEST
  | BaseStationKeypadExtendedStatusMessage c _ _ _ _ _ _ _ => ExtendedStatusClass_event_type c
  | BaseStationKeypadStatusUpdate _ _ _ _ => EventType.STATUS_UPDATE
  | BaseStationKeypadDisarmPinResponse _ _ _ _ => EventType.DISARM_PIN_REQUEST
  | BaseStationKeypadMenuPinResponse _ _ _ => EventType.MENU_PIN_REQUEST
  | BaseStationKeypadHomeResponse _ _ _ => EventType.HOME_REQUEST
  | BaseStationKeypadAwayResponse _ _ _ => EventType.AWAY_REQUEST
  | BaseStationKeypadOffRemoteUpdate _ _ _ => EventType.OFF_REMOTE_UPDATE
  | BaseStationKeypadEnterMenuResponse _ _ => EventType.ENTER_MENU_REQUEST
  | BaseStationKeypadNewPrefixResponse _ _ => EventType.NEW_PREFIX_REQUEST
  | BaseStationKeypadRemoveComponentSelectResponse _ _ => EventType.REMOVE_COMPONENT_SELECT_MENU_REQUEST
  | BaseStationKeypadRemoveComponentConfirmMenuResponse _ _ => EventType.REMOVE_COMPONENT_CONFIRM_MENU_REQUEST
  | AbstractBaseStationKeypadAddComponentSerialMenuResponse c _ _ _ => AddComponentSerialClass_event_type c
  | AbstractBaseStationKeypadSimpleStatusMessage c _ _ _ => SimpleStatusClass_event_type c
  | AbstractBaseStationKeypadSimpleMenuMessage c _ _ => SimpleMenuClass_event_type c
  | AbstractBaseStationKeypadRemoveComponentScrollMenuResponse c _ _ _ _ _ => RemoveScrollClass_event_type c
  | BaseStationKeypadEntrySensorUpdate _ _ _ _ => EventType.ENTRY_SENSOR_UPDATE
  | BaseStationKeypadSensorErrorUpdate _ _ _ n _ =>
      if n =? 0 then EventType.SENSOR_ERROR_1_UPDATE
      else if n =? 1 then EventType.SENSOR_ERROR_2_UPDATE
      else if n =? 2 then EventType.SENSOR_ERROR_3_UPDATE
      else EventType.SENSOR_ERROR_4_UPDATE
  | KeychainRemoteMessage _ _ e => KeychainRemoteEvent_value e
  | MotionSensorMessage _ _ e => MotionSensorEvent_value e
  | EntrySensorMessage _ _ e => EntrySensorEvent_value e
  | Message _ _ _ _ => 0
  end.

(** [self.msg_type] and [self.info_type] of base-station messages, from the
    Response/Update and Status/Menu traits of the class. *)
Definition msg_type_of (m : message) : Z :=
  match m with
  | BaseStationKeypadExtendedStatusMessage c _ _ _ _ _ _ _ => ExtendedStatusClass_msg_type c
  | AbstractBaseStationKeypadSimpleStatusMessage c _ _ _ => SimpleStatusClass_msg_type c
  | BaseStationKeypadStatusUpdate _ _ _ _
  | BaseStationKeypadOffRemoteUpdate _ _ _
  | BaseStationKeypadEntrySensorUpdate _ _ _ _
  | BaseStationKeypadSensorErrorUpdate _ _ _ _ _ => MessageType.UPDATE
  | _ => MessageType.RESPONSE
  end.

Definition info_type_of (m : message) : Z :=
  match m with
  | BaseStationKeypadExtendedStatusMessage _ _ _ _ _ _ _ _
  | BaseStationKeypadStatusUpdate _ _ _ _
  | BaseStationKeypadDisarmPinResponse _ _ _ _
  | BaseStationKeypadHomeResponse _ _ _
  | BaseStationKeypadAwayResponse _ _ _
  | BaseStationKeypadOffRemoteUpdate _ _ _
  | AbstractBaseStationKeypadSimpleStatusMessage _ _ _ _
  | BaseStationKeypadEntrySensorUpdate _ _ _ _
  | BaseStationKeypadSensorErrorUpdate _ _ _ _ _ => InfoType.STATUS
  | _ => InfoType.MENU
  end.

(** [self.payload_body] *)
Definition payload_body_of (m : message) : result (list Z) :=
  match m with
  | KeypadRemoveComponentScrollMenuRequest _ _ n => byte1 n
  | KeypadPinMessage _ _ _ pin => KeypadPinMessage_payload_body pin
  | AbstractKeypadSimpleRequest _ _ _ => Ok []
  | KeypadPrefixRequest _ _ prefix => KeypadPrefixRequest_payload_body prefix
  | AbstractKeypadModifyComponentMenuRequest _ _ _ c_sn => ModifyComponent_payload_body c_sn
  | KeypadAddComponentTypeMenuRequest _ _ c_type => byte1 (ComponentType_value c_type)
  | BaseStationKeypadExtendedStatusMessage _ _ _ _ flags armed ess tl =>
      ExtendedStatus_payload_body flags armed ess tl
  | BaseStationKeypadStatusUpdate _ _ _ flags => byte1 flags
  | BaseStationKeypadDisarmPinResponse c _ _ _ =>
      byte1 (DisarmPinResponseType_value (DisarmPinResponseClass_response_type c))
  | BaseStationKeypadMenuPinResponse c _ _ =>
      byte1 (MenuPinResponseType_value (MenuPinResponseClass_response_type c))
  | BaseStationKeypadHomeResponse _ _ _ => Ok [0x00]
  | BaseStationKeypadAwayResponse _ _ _ => Ok [0x78]
  | BaseStationKeypadOffRemoteUpdate _ _ _ => Ok [0xFF]
  | BaseStationKeypadEnterMenuResponse _ _ => Ok [0x01]
  | BaseStationKeypadNewPrefixResponse _ _ => Ok [0x00]
  | BaseStationKeypadRemoveComponentSelectResponse _ _ => Ok [0x00]
  | BaseStationKeypadRemoveComponentConfirmMenuResponse _ _ => Ok [0x00]
  | AbstractBaseStationKeypadAddComponentSerialMenuResponse _ _ _ r =>
      byte1 (AddComponentResponseType_value r)
  | AbstractBaseStationKeypadSimpleStatusMessage _ _ _ _ => Ok []
  | AbstractBaseStationKeypadSimpleMenuMessage _ _ _ => Ok []
  | AbstractBaseStationKeypadRemoveComponentScrollMenuResponse _ _ _ c_sn l r => pack_ascii c_sn l r
  | BaseStationKeypadEntrySensorUpdate _ _ _ ese => byte1 (EntrySensorUpdateType_value ese)
  | BaseStationKeypadSensorErrorUpdate _ _ _ _ c_sn => pack_ascii c_sn false false
  | _ => Ok []
  end.

(** [self.footer_body]: [pack(HEX_5B6C, self.bs_sn)] under
    [BaseStationKeypadStatusMessageTrait], the constant of
    [BaseStationKeypadMenuMessageTrait] otherwise. *)
Definition footer_body_of (m : message) : result (list Z) :=
  match m with
  | BaseStationKeypadExtendedStatusMessage _ _ _ bs_sn _ _ _ _
  | BaseStationKeypadStatusUpdate _ _ bs_sn _
  | BaseStationKeypadDisarmPinResponse _ _ _ bs_sn
  | BaseStationKeypadHomeResponse _ _ bs_sn
  | BaseStationKeypadAwayResponse _ _ bs_sn
  | BaseStationKeypadOffRemoteUpdate _ _ bs_sn
  | AbstractBaseStationKeypadSimpleStatusMessage _ _ _ bs_sn
  | BaseStationKeypadEntrySensorUpdate _ _ bs_sn _
  | BaseStationKeypadSensorErrorUpdate _ _ bs_sn _ _ => pack_hex bs_sn
  | BaseStationKeypadMenuPinResponse _ _ _
  | BaseStationKeypadEnterMenuResponse _ _
  | BaseStationKeypadNewPrefixResponse _ _
  | BaseStationKeypadRemoveComponentSelectResponse _ _
  | BaseStationKeypadRemoveComponentConfirmMenuResponse _ _
  | AbstractBaseStationKeypadAddComponentSerialMenuResponse _ _ _ _
  | AbstractBaseStationKeypadSimpleMenuMessage _ _ _
  | AbstractBaseStationKeypadRemoveComponentScrollMenuResponse _ _ _ _ _ _ => Ok MENU_footer_body
  | _ => Ok []
  end.

(** The three families of leaf classes and the base class. *)
Inductive family : Type := FBase | FKeypad | FBaseStation | FSensor.

Definition family_of (m : message) : family :=
  match m with
  | Message _ _ _ _ => FBase
  | KeypadRemoveComponentScrollMenuRequest _ _ _
  | KeypadPinMessage _ _ _ _
  | AbstractKeypadSimpleRequest _ _ _
  | KeypadPrefixRequest _ _ _
  | AbstractKeypadModifyComponentMenuRequest _ _ _ _
  | KeypadAddComponentTypeMenuRequest _ _ _ => FKeypad
  | KeychainRemoteMessage _ _ _ | MotionSensorMessage _ _ _ | EntrySensorMessage _ _ _ => FSensor
  | _ => FBaseStation
  end.

(** [self.origin_type] of a sensor message. *)
Definition sensor_origin_of (m : message) : Z :=
  match m with
  | KeychainRemoteMessage _ _ _ => OriginType.KEYCHAIN_REMOTE
  | MotionSensorMessage _ _ _ => OriginType.MOTION_SENSOR
  | _ => OriginType.ENTRY_SENSOR
  end.

(** [self.payload] *)
Definition payload_of (m : message) : result (list Z) :=
  match family_of m with
  | FBase => match m with Message _ _ payload _ => Ok payload | _ => Ok [] end
  | FKeypad => KeypadMessage_payload (sequence_of m) (event_type_of m) (payload_body_of m)
  | FBaseStation =>
      BaseStationKeypadMessage_payload (msg_type_of m) (event_type_of m) (payload_body_of m)
  | FSensor => SensorMessage_payload (sensor_origin_of m) (sequence_of m) (event_type_of m)
  end.

(** [self.footer]: the class attribute [bytes()] of keypad and sensor
    messages, the property of base-station messages. *)
Definition footer_of (m : message) : result (list Z) :=
  match family_of m with
  | FBase => match m with Message _ _ _ footer => Ok footer | _ => Ok [] end
  | FKeypad | FSensor => Ok []
  | FBaseStation =>
      BaseStationKeypadMessage_footer (sequence_of m) (info_type_of m) (footer_body_of m)
  end.

(** [Message.checksum] (the getter) *)
Definition Message_checksum (m : message) : result Z :=
  p <- payload_of m ;; Ok (sum p mod 256).

(** [str.encode('ascii')] and [bytes.decode('ascii')] *)
Definition encode_ascii (s : string) : result (list Z) :=
  if forallb (fun c => c <? 128) (ords s) then Ok (ords s) else Raise UnicodeError.

Definition decode_ascii (b : list Z) : result string :=
  if forallb (fun c => c <? 128) b then Ok (chrs b) else Raise UnicodeError.

(** [struct.pack(">HB5B", vc, plc, *sn)] *)
Definition struct_pack_HB5B (vc plc : Z) (sn : list Z) : result (list Z) :=
  if (List.length sn =? 5)%nat && is_byte plc && (0 <=? vc) && (vc <? 65536)
  then Ok ([Z.shiftr vc 8; Z.land vc 0xFF; plc] ++ sn)
  else Raise StructError.

(** [Message.__bytes__] *)
Definition Message_bytes (m : message) : result (list Z) :=
  sn <- encode_ascii (sn_of m) ;;
  h <- struct_pack_HB5B VENDOR_CODE (plc_of m) sn ;;
  p <- payload_of m ;;
  c <- Message_checksum m ;;
  f <- footer_of m ;;
  Ok (h ++ p ++ [c] ++ f).

(** ** Constructors ([__init__])

    A constructor evaluates the properties it passes up the chain of
    [super().__init__] calls and ends in [Message.__init__], which checks the
    length of the serial number; the property setters compare the value with
    the property itself and so cannot fail once the property has been
    evaluated. *)

(** [Message.__init__] *)
Definition Message_init (sn : string) : result unit :=
  raise_if (negb (String.length sn =? 5)%nat) ValueError.

(** [KeypadMessage.__init__] *)
Definition KeypadMessage_init (sn : string) (sequence event_type : Z)
  (payload_body : result (list Z)) : result unit :=
  payload_body ;;;
  KeypadMessage_payload sequence event_type payload_body ;;;
  Message_init sn.

(** [BaseStationKeypadMessage.__init__] *)
Definition BaseStationKeypadMessage_init (sn : string)
  (sequence msg_type info_type event_type : Z)
  (payload_body footer_body : result (list Z)) : result unit :=
  payload_body ;;;
  footer_body ;;;
  BaseStationKeypadMessage_payload msg_type event_type payload_body ;;;
  BaseStationKeypadMessage_footer sequence info_type footer_body ;;;
  Message_init sn.

(** [SensorMessage.__init__] *)
Definition SensorMessage_init (sn : string) (origin_type sequence event_type : Z)
  : result unit :=
  SensorMessage_payload origin_type sequence event_type ;;;
  Message_init sn.

(** The PIN test of [KeypadPinMessage.__init__], for a PIN of 8-bit
    characters: [int(pin)] must succeed and [len(pin)] must be 4.  Every
    string of four decimal digits [0-9] passes both;
    for any other string one of the two, or one of the [int(pin[i])] of
    [payload_body] that the constructor evaluates next, raises [ValueError].
    The test is therefore written with the two conditions that decide it. *)
Definition pin_check (pin : string) : result unit :=
  raise_if (negb (String.length pin =? 4)%nat) ValueError ;;;
  KeypadPinMessage_payload_body pin ;;;
  Ok tt.

(** The tests a constructor makes before it calls [super().__init__]. *)
Definition init_checks (m : message) : result unit :=
  match m with
  | KeypadPinMessage _ _ _ pin => pin_check pin
  | KeypadPrefixRequest _ _ (Some p) =>
      (* [str(prefix)] of an integer is numeric; it has one character
         exactly when [0 <= prefix <= 9] *)
      raise_if (negb ((0 <=? p) && (p <=? 9))) Exception_
  | BaseStationKeypadSensorErrorUpdate _ _ _ n _ =>
      raise_if (negb ((0 <=? n) && (n <=? 3))) Exception_
  | _ => Ok tt
  end.

(** [cls(...)]: running the constructor of a class on its arguments. *)
Definition construct (m : message) : result message :=
  init_checks m ;;;
  match family_of m with
  | FBase => Message_init (sn_of m)
  | FKeypad =>
      KeypadMessage_init (sn_of m) (sequence_of m) (event_type_of m) (payload_body_of m)
  | FBaseStation =>
      BaseStationKeypadMessage_init (sn_of m) (sequence_of m) (msg_type_of m)
        (info_type_of m) (event_type_of m) (payload_body_of m) (footer_body_of m)
  | FSensor =>
      SensorMessage_init (sn_of m) (sensor_origin_of m) (sequence_of m) (event_type_of m)
  end ;;;
  Ok m.

(** ** Parsing: the [factory] class methods *)

(** *** Keypad messages *)

Definition KeypadRemoveComponentScrollMenuRequest_factory (msg : KeypadMessage_obj)
  : result message :=
  raise_if (negb (km_plc msg =? 0x33)) InvalidMessageBytesError ;;;
  raise_if (negb (km_event_type msg =? EventType.REMOVE_COMPONENT_SCROLL_MENU_REQUEST))
           InvalidMessageBytesError ;;;
  n <- index (km_payload_body msg) 0 ;;
  construct (KeypadRemoveComponentScrollMenuRequest (km_sn msg) (km_sequence msg) n).

(** The factories of [KeypadDisarmPinRequest], [KeypadNewPinRequest] and
    [KeypadMenuPinRequest] *)
Definition PinClass_factory (c : PinClass) (msg : KeypadPinMessage_obj) : result message :=
  raise_if (negb (kp_event_type msg =? PinClass_event_type c)) InvalidMessageBytesError ;;;
  construct (KeypadPinMessage c (kp_sn_ msg) (kp_sequence msg) (kp_pin msg)).

Definition KeypadPinMessage_factory (msg : KeypadMessage_obj) : result message :=
  raise_if (negb (km_plc msg =? 0x66)) InvalidMessageBytesError ;;;
  raise_if (negb (list_Z_eqb (slice (km_payload_body msg) 2 4) [0x0F; 0xF0]))
           InvalidMessageBytesError ;;;
  b0 <- index (km_payload_body msg) 0 ;;
  b1 <- index (km_payload_body msg) 1 ;;
  let pin := (str_small (Z.land b0 0xF) ++ str_small (Z.shiftr b0 4) ++
              str_small (Z.land b1 0xF) ++ str_small (Z.shiftr b1 4))%string in
  (* cls(msg.sn, msg.sequence, msg.event_type, pin) *)
  pin_check pin ;;;
  KeypadMessage_init (km_sn msg) (km_sequence msg) (km_event_type msg)
                     (KeypadPinMessage_payload_body pin) ;;;
  let msg' := mkKeypadPinMessage (km_sn msg) (km_sequence msg) (km_event_type msg) pin in
  first_factory (map (fun c => PinClass_factory c msg') PinClass_subclasses)
                InvalidMessageBytesError.

Definition AbstractKeypadSimpleRequest_factory (msg : KeypadMessage_obj) : result message :=
  raise_if (negb (km_plc msg =? 0x22)) InvalidMessageBytesError ;;;
  raise_if (negb (list_Z_eqb (km_payload_body msg) [])) InvalidMessageBytesError ;;;
  c <- find_subclass SimpleRequestClass_subclasses
         (fun c => km_event_type msg =? SimpleRequestClass_event_type c) ;;
  construct (AbstractKeypadSimpleRequest c (km_sn msg) (km_sequence msg)).

(** ["{:02X}".format(n)] for a byte [n] *)
Definition format_02X (n : Z) : string :=
  String (hex_digit (Z.shiftr n 4)) (String (hex_digit (Z.land n 0xF)) EmptyString).

Definition KeypadPrefixRequest_factory (msg : KeypadMessage_obj) : result message :=
  raise_if (negb (km_plc msg =? 0x66)) InvalidMessageBytesError ;;;
  raise_if (negb (km_event_type msg =? EventType.NEW_PREFIX_REQUEST)) InvalidMessageBytesError ;;;
  b0 <- index (km_payload_body msg) 0 ;;
  let payload_body_prefix := String (hex_digit (Z.shiftr b0 4)) EmptyString in
  raise_if (negb (String.eqb payload_body_prefix "F")) InvalidMessageBytesError ;;;
  b1 <- index (km_payload_body msg) 1 ;;
  let payload_body_suffix := format_02X b1 in
  raise_if (negb (String.eqb payload_body_suffix "FFCFFF")) InvalidMessageBytesError ;;;
  let prefix := Z.land b0 0xF in
  prefix' <- (if prefix =? 0xF then Ok None
              else if 9 <? prefix then Raise InvalidMessageBytesError
              else Ok (Some prefix)) ;;
  construct (KeypadPrefixRequest (km_sn msg) (km_sequence msg) prefix').

Definition AbstractKeypadModifyComponentMenuRequest_factory (msg : KeypadMessage_obj)
  : result message :=
  raise_if (negb (km_plc msg =? 0x66)) InvalidMessageBytesError ;;;
  '(c_sn, hb, lb) <- unpack_ascii (km_payload_body msg) ;;
  c <- find_subclass ModifyComponentClass_subclasses
         (fun c => km_event_type msg =? ModifyComponentClass_event_type c) ;;
  construct (AbstractKeypadModifyComponentMenuRequest c (km_sn msg) (km_sequence msg) c_sn).

Definition KeypadAddComponentTypeMenuRequest_factory (msg : KeypadMessage_obj)
  : result message :=
  raise_if (negb (km_plc msg =? 0x33)) InvalidMessageBytesError ;;;
  raise_if (negb (km_event_type msg =? EventType.ADD_COMPONENT_TYPE_MENU_REQUEST))
           InvalidMessageBytesError ;;;
  b0 <- index (km_payload_body msg) 0 ;;
  c_type <- ComponentType_of b0 ;;
  construct (KeypadAddComponentTypeMenuRequest (km_sn msg) (km_sequence msg) c_type).

(** [KeypadMessage.factory], on the fields of the [ComponentMessage] object *)
Definition KeypadMessage_factory (plc : Z) (sn : string) (payload : list Z) : result message :=
  p0 <- index payload 0 ;;
  origin_type <- enum_of OriginType.values p0 ;;
  raise_if (negb (origin_type =? OriginType.KEYPAD)) InvalidMessageBytesError ;;;
  p1 <- index payload 1 ;;
  let sequence := Z.shiftr p1 4 in
  let payload_body := slice_to_last payload 2 in
  pl <- index_last payload ;;
  event_type <- enum_of EventType.values pl ;;
  KeypadMessage_init sn sequence event_type (Ok payload_body) ;;;
  let msg := mkKeypadMessage plc sn sequence event_type payload_body in
  first_factory
    [ KeypadRemoveComponentScrollMenuRequest_factory msg;
      KeypadPinMessage_factory msg;
      AbstractKeypadSimpleRequest_factory msg;
      KeypadPrefixRequest_factory msg;
      AbstractKeypadModifyComponentMenuRequest_factory msg;
      KeypadAddComponentTypeMenuRequest_factory msg ]
    NotImplementedError.

(** *** Sensor messages *)

Definition KeychainRemoteMessage_factory (msg : SensorMessage_obj) : result message :=
  raise_if (negb (sm_origin_type msg =? OriginType.KEYCHAIN_REMOTE)) InvalidMessageBytesError ;;;
  event_type <- KeychainRemoteEvent_of (sm_event_type msg) ;;
  construct (KeychainRemoteMessage (sm_sn msg) (sm_sequence msg) event_type).

Definition MotionSensorMessage_factory (msg : SensorMessage_obj) : result message :=
  raise_if (negb (sm_origin_type msg =? OriginType.MOTION_SENSOR)) InvalidMessageBytesError ;;;
  event_type <- MotionSensorEvent_of (sm_event_type msg) ;;
  construct (MotionSensorMessage (sm_sn msg) (sm_sequence msg) event_type).

Definition EntrySensorMessage_factory (msg : SensorMessage_obj) : result message :=
  raise_if (negb (sm_origin_type msg =? OriginType.ENTRY_SENSOR)) InvalidMessageBytesError ;;;
  event_type <- EntrySensorEvent_of (sm_event_type msg) ;;
  construct (EntrySensorMessage (sm_sn msg) (sm_sequence msg) event_type).

Definition SensorMessage_factory (plc : Z) (sn : string) (payload : list Z) : result message :=
  raise_if (negb (plc =? 0x11)) InvalidMessageBytesError ;;;
  p0 <- index payload 0 ;;
  origin_type <- enum_of OriginType.values (Z.land p0 0xF) ;;
  let sequence := Z.shiftr p0 4 in
  event_type <- index payload 1 ;;
  SensorMessage_init sn origin_type sequence event_type ;;;
  let msg := mkSensorMessage sn origin_type sequence event_type in
  first_factory
    [ KeychainRemoteMessage_factory msg; MotionSensorMessage_factory msg;
      EntrySensorMessage_factory msg ]
    NotImplementedError.

(** [ComponentMessage.factory] *)
Definition ComponentMessage_factory (plc : Z) (sn : string) (payload footer : list Z)
  : result message :=
  Message_init sn ;;;
  first_factory
    [ KeypadMessage_factory plc sn payload; SensorMessage_factory plc sn payload ]
    ValueError.

(** *** Base-station messages

    Several factories compare an attribute of the message with itself
    ([msg.event_type != msg.event_type], [msg.info_type != msg.info_type]);
    the comparison is kept as written. *)

Definition ExtendedStatusClass_factory (c : ExtendedStatusClass)
  (msg : ExtendedStatusMessage_obj) : result message :=
  raise_if (negb (xm_msg_type msg =? ExtendedStatusClass_msg_type c)) InvalidMessageBytesError ;;;
  raise_if (negb (xm_event_type msg =? ExtendedStatusClass_event_type c)) InvalidMessageBytesError ;;;
  footer_body <- pack_hex (xm_bs_sn msg) ;;
  bs_sn <- unpack_hex footer_body ;;
  construct (BaseStationKeypadExtendedStatusMessage c (xm_sn msg) (xm_sequence msg) bs_sn
               (xm_flags msg) (xm_armed msg) (xm_ess msg) (xm_tl msg)).

Definition BaseStationKeypadExtendedStatusMessage_factory (msg : BaseStationKeypadMessage_obj)
  : result message :=
  raise_if (negb (bm_plc msg =? 0x66)) InvalidMessageBytesError ;;;
  raise_if (negb (bm_info_type msg =? InfoType.STATUS)) InvalidMessageBytesError ;;;
  bs_sn <- unpack_hex (bm_footer_body msg) ;;
  b0 <- index (bm_payload_body msg) 0 ;;
  let flags := Z.shiftr b0 4 in
  armed <- ArmedStatusType_of (Z.land b0 0xF) ;;
  b1 <- index (bm_payload_body msg) 1 ;;
  ess <- EntrySensorStatusType_of b1 ;;
  b2 <- index (bm_payload_body msg) 2 ;;
  b3 <- index (bm_payload_body msg) 3 ;;
  let tl := Z.lor (Z.shiftl b2 4) (Z.shiftr b3 4) in
  BaseStationKeypadMessage_init (bm_sn msg) (bm_sequence msg) (bm_msg_type msg)
    InfoType.STATUS (bm_event_type msg)
    (ExtendedStatus_payload_body flags armed ess tl) (pack_hex bs_sn) ;;;
  let msg' := mkExtendedStatusMessage (bm_sn msg) (bm_sequence msg) bs_sn
                (bm_msg_type msg) (bm_event_type msg) flags armed ess tl in
  first_factory (map (fun c => ExtendedStatusClass_factory c msg') ExtendedStatusClass_subclasses)
                NotImplementedError.

Definition BaseStationKeypadStatusUpdate_factory (msg : BaseStationKeypadMessage_obj)
  : result message :=
  raise_if (negb (bm_plc msg =? 0x33)) InvalidMessageBytesError ;;;
  raise_if (negb (bm_msg_type msg =? MessageType.UPDATE)) InvalidMessageBytesError ;;;
  raise_if (negb (bm_info_type msg =? InfoType.STATUS)) InvalidMessageBytesError ;;;
  raise_if (negb (bm_event_type msg =? EventType.STATUS_UPDATE)) InvalidMessageBytesError ;;;
  flags <- index (bm_payload_body msg) 0 ;;
  bs_sn <- unpack_hex (bm_footer_body msg) ;;
  construct (BaseStationKeypadStatusUpdate (bm_sn msg) (bm_sequence msg) bs_sn flags).

(** The factories of [BaseStationKeypadInvalidDisarmPinResponse] and
    [BaseStationKeypadValidDisarmPinResponse], on the fields of the
    [BaseStationKeypadDisarmPinResponse] object *)
Definition DisarmPinResponseClass_factory (c : DisarmPinResponseClass)
  (sn : string) (sequence : Z) (bs_sn : string) (response_type : DisarmPinResponseType)
  : result message :=
  raise_if (negb (DisarmPinResponseType_value response_type =?
                  DisarmPinResponseType_value (DisarmPinResponseClass_response_type c)))
           InvalidMessageBytesError ;;;
  footer_body <- pack_hex bs_sn ;;
  bs_sn' <- unpack_hex footer_body ;;
  construct (BaseStationKeypadDisarmPinResponse c sn sequence bs_sn').

Definition BaseStationKeypadDisarmPinResponse_factory (msg : BaseStationKeypadMessage_obj)
  : result message :=
  raise_if (negb (bm_plc msg =? 0x33)) InvalidMessageBytesError ;;;
  raise_if (negb (bm_msg_type msg =? MessageType.RESPONSE)) InvalidMessageBytesError ;;;
  raise_if (negb (bm_info_type msg =? InfoType.STATUS)) InvalidMessageBytesError ;;;
  raise_if (negb (bm_event_type msg =? bm_event_type msg)) InvalidMessageBytesError ;;;
  b0 <- index (bm_payload_body msg) 0 ;;
  response_type <- DisarmPinResponseType_of b0 ;;
  bs_sn <- unpack_hex (bm_footer_body msg) ;;
  BaseStationKeypadMessage_init (bm_sn msg) (bm_sequence msg) MessageType.RESPONSE
    InfoType.STATUS EventType.DISARM_PIN_REQUEST
    (byte1 (DisarmPinResponseType_value response_type)) (pack_hex bs_sn) ;;;
  first_factory
    (map (fun c => DisarmPinResponseClass_factory c (bm_sn msg) (bm_sequence msg) bs_sn response_type)
         DisarmPinResponseClass_subclasses)
    NotImplementedError.

Definition MenuPinResponseClass_factory (c : MenuPinResponseClass)
  (sn : string) (sequence : Z) (response_type : MenuPinResponseType) : result message :=
  raise_if (negb (MenuPinResponseType_value response_type =?
                  MenuPinResponseType_value (MenuPinResponseClass_response_type c)))
           InvalidMessageBytesError ;;;
  construct (BaseStationKeypadMenuPinResponse c sn sequence).

Definition BaseStationKeypadMenuPinResponse_factory (msg : BaseStationKeypadMessage_obj)
  : result message :=
  raise_if (negb (bm_plc msg =? 0x33)) InvalidMessageBytesError ;;;
  raise_if (negb (bm_msg_type msg =? MessageType.RESPONSE)) InvalidMessageBytesError ;;;
  raise_if (negb (bm_info_type msg =? InfoType.MENU)) InvalidMessageBytesError ;;;
  raise_if (negb (bm_event_type msg =? EventType.MENU_PIN_REQUEST)) InvalidMessageBytesError ;;;
  b0 <- index (bm_payload_body msg) 0 ;;
  response_type <- MenuPinResponseType_of b0 ;;
  BaseStationKeypadMessage_init (bm_sn msg) (bm_sequence msg) MessageType.RESPONSE
    InfoType.MENU EventType.MENU_PIN_REQUEST
    (byte1 (MenuPinResponseType_value response_type)) (Ok MENU_footer_body) ;;;
  first_factory
    (map (fun c => MenuPinResponseClass_factory c (bm_sn msg) (bm_sequence msg) response_type)
         MenuPinResponseClass_subclasses)
    NotImplementedError.

Definition BaseStationKeypadHomeResponse_factory (msg : BaseStationKeypadMessage_obj)
  : result message :=
  raise_if (negb (bm_plc msg =? 0x33)) InvalidMessageBytesError ;;;
  raise_if (negb (bm_msg_type msg =? MessageType.RESPONSE)) InvalidMessageBytesError ;;;
  raise_if (negb (bm_info_type msg =? InfoType.STATUS)) InvalidMessageBytesError ;;;
  raise_if (negb (bm_event_type msg =? EventType.HOME_REQUEST)) InvalidMessageBytesError ;;;
  raise_if (negb (list_Z_eqb (bm_payload_body msg) [0x00])) InvalidMessageBytesError ;;;
  bs_sn <- unpack_hex (bm_footer_body msg) ;;
  construct (BaseStationKeypadHomeResponse (bm_sn msg) (bm_sequence msg) bs_sn).

Definition BaseStationKeypadAwayResponse_factory (msg : BaseStationKeypadMessage_obj)
  : result message :=
  raise_if (negb (bm_plc msg =? 0x33)) InvalidMessageBytesError ;;;
  raise_if (negb (bm_msg_type msg =? MessageType.RESPONSE)) InvalidMessageBytesError ;;;
  raise_if (negb (bm_info_type msg =? bm_info_type msg)) InvalidMessageBytesError ;;;
  raise_if (negb (bm_event_type msg =? EventType.AWAY_REQUEST)) InvalidMessageBytesError ;;;
  raise_if (negb (list_Z_eqb (bm_payload_body msg) [0x78])) InvalidMessageBytesError ;;;
  bs_sn <- unpack_hex (bm_footer_body msg) ;;
  construct (BaseStationKeypadAwayResponse (bm_sn msg) (bm_sequence msg) bs_sn).

Definition BaseStationKeypadOffRemoteUpdate_factory (msg : BaseStationKeypadMessage_obj)
  : result message :=
  raise_if (negb (bm_plc msg =? 0x33)) InvalidMessageBytesError ;;;
  raise_if (negb (bm_msg_type msg =? MessageType.UPDATE)) InvalidMessageBytesError ;;;
  raise_if (negb (bm_info_type msg =? InfoType.STATUS)) InvalidMessageBytesError ;;;
  raise_if (negb (bm_event_type msg =? EventType.OFF_REMOTE_UPDATE)) InvalidMessageBytesError ;;;
  raise_if (negb (list_Z_eqb (bm_payload_body msg) [0xFF])) InvalidMessageBytesError ;;;
  bs_sn <- unpack_hex (bm_footer_body msg) ;;
  construct (BaseStationKeypadOffRemoteUpdate (bm_sn msg) (bm_sequence msg) bs_sn).

(** The common shape of the factories of [BaseStationKeypadEnterMenuResponse],
    [BaseStationKeypadNewPrefixResponse],
    [BaseStationKeypadRemoveComponentSelectResponse] and
    [BaseStationKeypadRemoveComponentConfirmMenuResponse]: a menu response
    of length code 0x33 with a constant body. *)
Definition menu_response_factory (event_type : Z) (payload_body : list Z)
  (leaf : string -> Z -> message) (msg : BaseStationKeypadMessage_obj) : result message :=
  raise_if (negb (bm_plc msg =? 0x33)) InvalidMessageBytesError ;;;
  raise_if (negb (bm_msg_type msg =? MessageType.RESPONSE)) InvalidMessageBytesError ;;;
  raise_if (negb (bm_info_type msg =? InfoType.MENU)) InvalidMessageBytesError ;;;
  raise_if (negb (bm_event_type msg =? event_type)) InvalidMessageBytesError ;;;
  raise_if (negb (list_Z_eqb (bm_footer_body msg) MENU_footer_body)) InvalidMessageBytesError ;;;
  raise_if (negb (list_Z_eqb (bm_payload_body msg) payload_body)) InvalidMessageBytesError ;;;
  construct (leaf (bm_sn msg) (bm_sequence msg)).

Definition BaseStationKeypadEnterMenuResponse_factory :=
  menu_response_factory EventType.ENTER_MENU_REQUEST [0x01] BaseStationKeypadEnterMenuResponse.

Definition BaseStationKeypadNewPrefixResponse_factory :=
  menu_response_factory EventType.NEW_PREFIX_REQUEST [0x00] BaseStationKeypadNewPrefixResponse.

Definition BaseStationKeypadRemoveComponentSelectResponse_factory :=
  menu_response_factory EventType.REMOVE_COMPONENT_SELECT_MENU_REQUEST [0x00]
    BaseStationKeypadRemoveComponentSelectResponse.

Definition BaseStationKeypadRemoveComponentConfirmMenuResponse_factory :=
  menu_response_factory EventType.REMOVE_COMPONENT_CONFIRM_MENU_REQUEST [0x00]
    BaseStationKeypadRemoveComponentConfirmMenuResponse.

Definition AbstractBaseStationKeypadAddComponentSerialMenuResponse_factory
  (msg : BaseStationKeypadMessage_obj) : result message :=
  raise_if (negb (bm_plc msg =? 0x33)) InvalidMessageBytesError ;;;
  raise_if (negb (bm_msg_type msg =? MessageType.RESPONSE)) InvalidMessageBytesError ;;;
  raise_if (negb (bm_info_type msg =? InfoType.MENU)) InvalidMessageBytesError ;;;
  raise_if (negb (list_Z_eqb (bm_footer_body msg) MENU_footer_body)) InvalidMessageBytesError ;;;
  b0 <- index (bm_payload_body msg) 0 ;;
  response_type <- AddComponentResponseType_of b0 ;;
  c <- find_subclass AddComponentSerialClass_subclasses
         (fun c => bm_event_type msg =? AddComponentSerialClass_event_type c) ;;
  construct (AbstractBaseStationKeypadAddComponentSerialMenuResponse c
               (bm_sn msg) (bm_sequence msg) response_type).

Definition AbstractBaseStationKeypadSimpleStatusMessage_factory
  (msg : BaseStationKeypadMessage_obj) : result message :=
  raise_if (negb (bm_plc msg =? 0x22)) InvalidMessageBytesError ;;;
  raise_if (negb (list_Z_eqb (bm_payload_body msg) [])) InvalidMessageBytesError ;;;
  bs_sn <- unpack_hex (bm_footer_body msg) ;;
  c <- find_subclass SimpleStatusClass_subclasses
         (fun c => (bm_msg_type msg =? SimpleStatusClass_msg_type c) &&
                   (bm_info_type msg =? InfoType.STATUS) &&
                   (bm_event_type msg =? SimpleStatusClass_event_type c)) ;;
  construct (AbstractBaseStationKeypadSimpleStatusMessage c (bm_sn msg) (bm_sequence msg) bs_sn).

Definition AbstractBaseStationKeypadSimpleMenuMessage_factory
  (msg : BaseStationKeypadMessage_obj) : result message :=
  raise_if (negb (bm_plc msg =? 0x22)) InvalidMessageBytesError ;;;
  raise_if (negb (list_Z_eqb (bm_payload_body msg) [])) InvalidMessageBytesError ;;;
  c <- find_subclass SimpleMenuClass_subclasses
         (fun c => (bm_msg_type msg =? MessageType.RESPONSE) &&
                   (bm_info_type msg =? InfoType.MENU) &&
                   (bm_event_type msg =? SimpleMenuClass_event_type c) &&
                   list_Z_eqb (bm_footer_body msg) MENU_footer_body) ;;
  construct (AbstractBaseStationKeypadSimpleMenuMessage c (bm_sn msg) (bm_sequence msg)).

Definition AbstractBaseStationKeypadRemoveComponentScrollMenuResponse_factory
  (msg : BaseStationKeypadMessage_obj) : result message :=
  raise_if (negb (bm_plc msg =? 0x66)) InvalidMessageBytesError ;;;
  raise_if (negb (bm_msg_type msg =? MessageType.RESPONSE)) InvalidMessageBytesError ;;;
  raise_if (negb (bm_info_type msg =? InfoType.MENU)) InvalidMessageBytesError ;;;
  '(c_sn, left_arrow, right_arrow) <- unpack_ascii (bm_payload_body msg) ;;
  c <- find_subclass RemoveScrollClass_subclasses
         (fun c => bm_event_type msg =? RemoveScrollClass_event_type c) ;;
  construct (AbstractBaseStationKeypadRemoveComponentScrollMenuResponse c
               (bm_sn msg) (bm_sequence msg) c_sn left_arrow right_arrow).

Definition BaseStationKeypadEntrySensorUpdate_factory (msg : BaseStationKeypadMessage_obj)
  : result message :=
  raise_if (negb (bm_plc msg =? 0x33)) InvalidMessageBytesError ;;;
  raise_if (negb (bm_msg_type msg =? MessageType.UPDATE)) InvalidMessageBytesError ;;;
  raise_if (negb (bm_info_type msg =? InfoType.STATUS)) InvalidMessageBytesError ;;;
  raise_if (negb (bm_event_type msg =? EventType.ENTRY_SENSOR_UPDATE)) InvalidMessageBytesError ;;;
  b0 <- index (bm_payload_body msg) 0 ;;
  ese <- EntrySensorUpdateType_of b0 ;;
  bs_sn <- unpack_hex (bm_footer_body msg) ;;
  construct (BaseStationKeypadEntrySensorUpdate (bm_sn msg) (bm_sequence msg) bs_sn ese).

Definition BaseStationKeypadSensorErrorUpdate_factory (msg : BaseStationKeypadMessage_obj)
  : result message :=
  raise_if (negb (bm_plc msg =? 0x66)) InvalidMessageBytesError ;;;
  raise_if (negb (bm_msg_type msg =? MessageType.UPDATE)) InvalidMessageBytesError ;;;
  raise_if (negb (bm_info_type msg =? bm_info_type msg)) InvalidMessageBytesError ;;;
  n <- (if bm_event_type msg =? EventType.SENSOR_ERROR_1_UPDATE then Ok 0
        else if bm_event_type msg =? EventType.SENSOR_ERROR_2_UPDATE then Ok 1
        else if bm_event_type msg =? EventType.SENSOR_ERROR_3_UPDATE then Ok 2
        else if bm_event_type msg =? EventType.SENSOR_ERROR_4_UPDATE then Ok 3
        else Raise InvalidMessageBytesError) ;;
  '(c_sn, hb, lb) <- unpack_ascii (bm_payload_body msg) ;;
  bs_sn <- unpack_hex (bm_footer_body msg) ;;
  construct (BaseStationKeypadSensorErrorUpdate (bm_sn msg) (bm_sequence msg) bs_sn n c_sn).

(** [BaseStationKeypadMessage.factory], on the fields of the [Message] object *)
Definition BaseStationKeypadMessage_factory (plc : Z) (sn : string) (payload footer : list Z)
  : result message :=
  p0 <- index payload 0 ;;
  origin_type <- enum_of OriginType.values p0 ;;
  raise_if (negb (origin_type =? OriginType.BASE_STATION)) InvalidMessageBytesError ;;;
  p1 <- index payload 1 ;;
  msg_type <- enum_of MessageType.values p1 ;;
  let payload_body := slice_to_last payload 2 in
  pl <- index_last payload ;;
  event_type <- enum_of EventType.values pl ;;
  f5 <- index footer 5 ;;
  let sequence := Z.shiftr f5 4 in
  info_type <- enum_of InfoType.values (Z.land f5 0xF) ;;
  let footer_body := drop_last 1 footer in
  BaseStationKeypadMessage_init sn sequence msg_type info_type event_type
    (Ok payload_body) (Ok footer_body) ;;;
  let msg := mkBaseStationKeypadMessage plc sn sequence msg_type info_type event_type
               payload_body footer_body in
  first_factory
    [ BaseStationKeypadExtendedStatusMessage_factory msg;
      BaseStationKeypadStatusUpdate_factory msg;
      BaseStationKeypadDisarmPinResponse_factory msg;
      BaseStationKeypadMenuPinResponse_factory msg;
      BaseStationKeypadHomeResponse_factory msg;
      BaseStationKeypadAwayResponse_factory msg;
      BaseStationKeypadOffRemoteUpdate_factory msg;
      BaseStationKeypadEnterMenuResponse_factory msg;
      BaseStationKeypadNewPrefixResponse_factory msg;
      BaseStationKeypadRemoveComponentSelectResponse_factory msg;
      BaseStationKeypadRemoveComponentConfirmMenuResponse_factory msg;
      AbstractBaseStationKeypadAddComponentSerialMenuResponse_factory msg;
      AbstractBaseStationKeypadSimpleStatusMessage_factory msg;
      AbstractBaseStationKeypadSimpleMenuMessage_factory msg;
      AbstractBaseStationKeypadRemoveComponentScrollMenuResponse_factory msg;
      BaseStationKeypadEntrySensorUpdate_factory msg;
      BaseStationKeypadSensorErrorUpdate_factory msg ]
    NotImplementedError.

(** *** [Message.factory] *)

(** The [checksum] setter: [msg.checksum = value] *)
Definition set_checksum (msg : message) (value : Z) : result unit :=
  c <- Message_checksum msg ;;
  raise_if (negb (value =? c)) (ChecksumMismatch value c).

(** [Message.factory] up to the loop over the subclasses: the message the
    dispatch settles on, and the payload length. *)
Definition Message_factory_dispatch (b : list Z) : result (message * nat) :=
  raise_if (len b <? 9) InvalidMessageBytesError ;;;
  b0 <- index b 0 ;; b1 <- index b 1 ;;
  let vc := Z.shiftl b0 8 + b1 in
  raise_if (negb (vc =? VENDOR_CODE)) InvalidMessageBytesError ;;;
  plc <- index b 2 ;;
  pl <- match PAYLOAD_LENGTHS plc with
        | Some pl => Ok pl
        | None => Raise InvalidMessageBytesError
        end ;;
  sn <- decode_ascii (slice b 3 8) ;;
  let payload := slice b 8 (8 + pl) in
  let footer := slice_from b (8 + pl + 1) in
  msg <- construct (Message plc sn payload footer) ;;
  (* for c in cls.__subclasses__(): try: msg = c.factory(msg); break
     except ValueError: pass *)
  msg <- first_factory_or
           [ ComponentMessage_factory plc sn payload footer;
             BaseStationKeypadMessage_factory plc sn payload footer ] msg ;;
  Ok (msg, pl).

(** [Message.factory]: the dispatch, then the checksum byte is read and
    checked against the message the dispatch returned. *)
Definition Message_factory (b : list Z) : result message :=
  '(msg, pl) <- Message_factory_dispatch b ;;
  checksum <- index b (8 + pl) ;;
  set_checksum msg checksum ;;;
  Ok msg.

(** ** The demodulators

    Both callbacks compute [dt = (tick - t) / 1000], a float in milliseconds,
    and compare it with the constants 0.4, 0.6, 0.9, 1.1, 1.9 and 2.1.  The
    numerator is an integer number of microseconds and Python's true division
    is correctly rounded, so [dt < 0.4] holds exactly when the numerator is
    below 400, and likewise for the other thresholds; the model keeps the
    duration in microseconds and compares it with the thresholds times 1000.
    Bit strings and hexadecimal strings are lists of characters. *)

Definition bitstring : Type := list ascii.

Definition bits_1111 : bitstring := ["1"; "1"; "1"; "1"]%char.

(** The duration both callbacks compute, in microseconds:
    [(tick << 32) - t] when [t > tick] (tick overflow), [tick - t] otherwise. *)
Definition duration_us (t tick : Z) : Z :=
  if tick <? t then Z.shiftl tick 32 - t else tick - t.

(** The symbol of a duration below the preamble range:
    [if dt > 1.1: 'X' elif dt >= 0.9: '1' elif dt > 0.6: 'X' else: '0'] *)
Definition symbol_of (dt : Z) : ascii :=
  if 1100 <? dt then "X"%char
  else if 900 <=? dt then "1"%char
  else if 600 <? dt then "X"%char
  else "0"%char.

(** *** RFUtils._recv_cbf: the module globals as a record *)

Record rf_state : Type := mkRf
  { done : bool; skip : bool; encoded : bitstring; t : option Z;
    start_flag0 : bool; start_flag1 : bool; sync_buffer : bitstring }.

(** The globals as [recv] initialises them before it registers the callback. *)
Definition rf_init : rf_state := mkRf false false [] None false false [].

Definition _recv_cbf (s : rf_state) (level tick : Z) : rf_state :=
  match t s with
  | None => mkRf (done s) (skip s) (encoded s) (Some tick)
                 (start_flag0 s) (start_flag1 s) (sync_buffer s)
  | Some t0 =>
    if skip s then
      (* previous transition was a glitch *)
      mkRf (done s) false (encoded s) (t s) (start_flag0 s) (start_flag1 s) (sync_buffer s)
    else
      let dt := duration_us t0 tick in
      if dt <? 400 then
        (* glitch *)
        mkRf (done s) true (encoded s) (t s) (start_flag0 s) (start_flag1 s) (sync_buffer s)
      else if 2100 <? dt then
        if start_flag1 s then
          (* end of transmission *)
          mkRf true (skip s) (encoded s) (t s) (start_flag0 s) (start_flag1 s) (sync_buffer s)
        else
          mkRf (done s) (skip s) (encoded s) (Some tick) false (start_flag1 s) (sync_buffer s)
      else if 1900 <? dt then
        if list_eq_dec ascii_dec (sync_buffer s) bits_1111 then
          if level =? 1 then
            mkRf (done s) (skip s) (encoded s) (Some tick) true false (sync_buffer s)
          else if start_flag0 s then
            mkRf (done s) (skip s) [] (Some tick) (start_flag0 s) true (sync_buffer s)
          else
            mkRf (done s) (skip s) (encoded s) (Some tick)
                 (start_flag0 s) (start_flag1 s) (sync_buffer s)
        else
          mkRf (done s) (skip s) (encoded s) (Some tick) false (start_flag1 s) (sync_buffer s)
      else
        let encoded' := encoded s ++ [symbol_of dt] in
        (* sync_buffer += encoded; sync_buffer = sync_buffer[-4:] *)
        let sync' := take_last 4 (sync_buffer s ++ encoded') in
        mkRf (done s) (skip s) (if start_flag1 s then encoded' else [])
             (Some tick) (start_flag0 s) (start_flag1 s) sync'
  end.

(** An edge as the driver reports it: the new level and the tick. *)
Definition edge : Type := (Z * Z)%type.

(** The callback run over a sequence of edges. *)
Definition recv_edges (s : rf_state) (es : list edge) : rf_state :=
  fold_left (fun s e => _recv_cbf s (fst e) (snd e)) es s.

(** *** Transceiver._listen_cbf: the receiver fields of the instance *)

Record rx_state : Type := mkRx
  { _rx_done : bool; _rx_buffer : bitstring; _rx_t : option Z;
    _rx_preamble_low : bool; _rx_preamble_high : bool;
    _rx_sync_buffer : bitstring; _rx_start_flag0 : option bool }.

(** The fields as [_listen] sets them before it registers the callback;
    [_rx_start_flag0] is only ever written by the callback. *)
Definition rx_init : rx_state := mkRx false [] None false false [] None.

Definition _listen_cbf (s : rx_state) (level tick : Z) : rx_state :=
  if _rx_done s then s
  else
    match _rx_t s with
    | None => mkRx (_rx_done s) (_rx_buffer s) (Some tick) (_rx_preamble_low s)
                   (_rx_preamble_high s) (_rx_sync_buffer s) (_rx_start_flag0 s)
    | Some t0 =>
      let dt := duration_us t0 tick in
      if 2100 <? dt then
        if _rx_preamble_high s then
          mkRx true (_rx_buffer s) (Some tick) (_rx_preamble_low s)
               (_rx_preamble_high s) (_rx_sync_buffer s) (_rx_start_flag0 s)
        else
          mkRx (_rx_done s) (_rx_buffer s) (Some tick) (_rx_preamble_low s)
               (_rx_preamble_high s) (_rx_sync_buffer s) (Some false)
      else if 1900 <? dt then
        if list_eq_dec ascii_dec (_rx_sync_buffer s) bits_1111 then
          if level =? 1 then
            mkRx (_rx_done s) (_rx_buffer s) (Some tick) true false
                 (_rx_sync_buffer s) (_rx_start_flag0 s)
          else if _rx_preamble_low s then
            mkRx (_rx_done s) [] (Some tick) (_rx_preamble_low s) true
                 (_rx_sync_buffer s) (_rx_start_flag0 s)
          else
            mkRx (_rx_done s) (_rx_buffer s) (Some tick) (_rx_preamble_low s)
                 (_rx_preamble_high s) (_rx_sync_buffer s) (_rx_start_flag0 s)
        else
          mkRx (_rx_done s) (_rx_buffer s) (Some tick) false
               (_rx_preamble_high s) (_rx_sync_buffer s) (_rx_start_flag0 s)
      else
        let bit := symbol_of dt in
        let sync' := take_last 4 (_rx_sync_buffer s ++ [bit]) in
        mkRx (_rx_done s)
             (if _rx_preamble_high s then _rx_buffer s ++ [bit] else [])
             (Some tick) (_rx_preamble_low s) (_rx_preamble_high s) sync'
             (_rx_start_flag0 s)
    end.

Definition listen_edges (s : rx_state) (es : list edge) : rx_state :=
  fold_left (fun s e => _listen_cbf s (fst e) (snd e)) es s.

(** *** Transceiver.decode *)

(** [int(s, 2)] on a string of binary digits, most significant first. *)
Fixpoint int2_acc (acc : Z) (s : bitstring) : result Z :=
  match s with
  | [] => Ok acc
  | c :: s' =>
      if ascii_dec c "0" then int2_acc (2 * acc) s'
      else if ascii_dec c "1" then int2_acc (2 * acc + 1) s'
      else Raise ValueError
  end.

Definition int2 (s : bitstring) : result Z :=
  match s with
  | [] => Raise ValueError
  | _ => int2_acc 0 s
  end.

(** The loop [for i in range(0, len(bits), 4)] that turns each group of four
    bits, least significant first, into a hexadecimal digit; the last group
    may be shorter.  [fuel] bounds the number of groups. *)
Fixpoint nibbles (fuel : nat) (bits : bitstring) : result (list ascii) :=
  match fuel, bits with
  | _, [] => Ok []
  | O, _ => Ok []
  | S fuel', _ =>
      n <- int2 (rev (firstn 4 bits)) ;;
      rest <- nibbles fuel' (skipn 4 bits) ;;
      Ok (hex_digit n :: rest)
  end.

Definition raw_hex_of (bits : bitstring) : result (list ascii) :=
  nibbles (List.length bits) bits.

(** [s.startswith(p)] *)
Fixpoint starts_with (p s : list ascii) : bool :=
  match p, s with
  | [], _ => true
  | _ :: _, [] => false
  | a :: p', b :: s' => if ascii_dec a b then starts_with p' s' else false
  end.

(** [s.find(p)]: the lowest index at which [p] occurs in [s], or -1. *)
Fixpoint find_from (p s : list ascii) (i : Z) : Z :=
  if starts_with p s then i
  else match s with
       | [] => -1
       | _ :: s' => find_from p s' (i + 1)
       end.

Definition str_find (s p : list ascii) : Z := find_from p s 0.

(** [s[:k]] for any integer [k], negative ones counting from the end. *)
Definition slice_upto {A : Type} (s : list A) (k : Z) : list A :=
  if k <? 0 then firstn (List.length s - Z.to_nat (- k)) s
  else firstn (Z.to_nat k) s.

(** [simplisafe.DeviceType] *)
Module DeviceType.
Definition BASE_STATION : Z := 0.
Definition KEYPAD : Z := 1.
Definition KEYCHAIN_REMOTE : Z := 2.
Definition PANIC_BUTTON : Z := 3.
Definition MOTION_SENSOR : Z := 4.
Definition ENTRY_SENSOR : Z := 5.
Definition GLASSBREAK_SENSOR : Z := 6.
Definition CO_DETECTOR : Z := 7.
Definition SMOKE_DETECTOR : Z := 8.
Definition WATER_SENSOR : Z := 9.
Definition FREEZE_SENSOR : Z := 10.
Definition values : list Z :=
  [ BASE_STATION; KEYPAD; KEYCHAIN_REMOTE; PANIC_BUTTON; MOTION_SENSOR; ENTRY_SENSOR;
    GLASSBREAK_SENSOR; CO_DETECTOR; SMOKE_DETECTOR; WATER_SENSOR; FREEZE_SENSOR ].
End DeviceType.

(** The loop that swaps the nibbles of each pair of hexadecimal digits,
    [bytes([int(unswapped[i + 1] + unswapped[i], 16)])]. *)
Fixpoint swap_nibbles (unswapped : list ascii) : result (list Z) :=
  match unswapped with
  | [] => Ok []
  | [_] => Raise IndexError
  | lo :: hi :: rest =>
      h <- int16 hi ;; l <- int16 lo ;;
      b <- byte1 (16 * h + l) ;;
      bs <- swap_nibbles rest ;;
      Ok (b ++ bs)
  end.

(** [try: origin = DeviceType(int(raw_hex[16], 16))  except: raise DecodeError] *)
Definition decode_origin (raw_hex : list ascii) : result Z :=
  match (c <- index raw_hex 16 ;; n <- int16 c ;; enum_of DeviceType.values n) with
  | Ok origin => Ok origin
  | Raise _ => Raise DecodeError
  end.

(** The part of [decode] that works on the hexadecimal string. *)
Definition decode_hex (raw_hex : list ascii) : result (list Z) :=
  origin <- decode_origin raw_hex ;;
  let unswapped :=
    if origin =? DeviceType.BASE_STATION then slice_upto raw_hex (-2)
    else
      let rd := str_find raw_hex ("F"%char :: firstn 4 raw_hex) in
      slice_upto raw_hex rd in
  raise_if (Z.of_nat (List.length unswapped) mod 2 =? 1) DecodeError ;;;
  swap_nibbles unswapped.

Definition count_X (bits : bitstring) : nat :=
  count_occ ascii_dec bits "X"%char.

Definition decode (bits : bitstring) : result (list Z) :=
  raise_if (negb (count_X bits =? 0)%nat) DecodeError ;;;
  raw_hex <- raw_hex_of bits ;;
  decode_hex raw_hex.

(** ** simplisafe/devices.py and Transceiver.send of simplisafe/pigpio.py *)

Module Devices.

(** [simplisafe.ArmedState] *)
Inductive ArmedState : Type := OFF | ARMED_AWAY | ARMED_HOME | ARMING_AWAY.

Definition ArmedState_eqb (a b : ArmedState) : bool :=
  match a, b with
  | OFF, OFF | ARMED_AWAY, ARMED_AWAY | ARMED_HOME, ARMED_HOME
  | ARMING_AWAY, ARMING_AWAY => true
  | _, _ => false
  end.

(** [AbstractDevice._inc] and the override [Keypad._inc] *)
Definition AbstractDevice_inc (sequence : Z) : Z := (sequence + 1) mod 0xF.

Definition Keypad_inc (sequence : Z) : Z := (sequence + 4) mod 0xF.

(** [AbstractDevice._send]: [self.txr.send(msg)] and then [self._inc()].  A
    device is its sequence counter and the list of messages handed to the
    transceiver, oldest first; [inc] is the [_inc] of the device's class. *)
Record device (Msg : Type) : Type := mkDevice
  { sequence : Z; outbox : list Msg }.
Arguments mkDevice {Msg} sequence outbox.
Arguments sequence {Msg} d.
Arguments outbox {Msg} d.

Definition AbstractDevice_send {Msg : Type} (inc : Z -> Z) (d : device Msg) (msg : Msg)
  : device Msg :=
  mkDevice (inc (sequence d)) (outbox d ++ [msg]).

(** [n] transmissions in a row, each of the message [mk] builds from the
    current counter, as in [self._send(Cls(self.sn, self.sequence, ...))]. *)
Fixpoint send_n {Msg : Type} (inc : Z -> Z) (mk : Z -> Msg) (n : nat) (d : device Msg)
  : device Msg :=
  match n with
  | O => d
  | S n' => send_n inc mk n' (AbstractDevice_send inc d (mk (sequence d)))
  end.

(** *** BaseStation *)

(** A [threading.Timer]: its interval, what it calls, and whether it has been
    started and not cancelled ([is_alive()]). *)
Inductive callback : Type := cb_countdown | cb_stop_siren.

Record Timer : Type := mkTimer
  { interval : Z; function : callback; is_alive : bool }.

Definition Timer_start (tm : Timer) : Timer := mkTimer (interval tm) (function tm) true.
Definition Timer_cancel (tm : Timer) : Timer := mkTimer (interval tm) (function tm) false.

(** An instance attribute that [__init__] does not assign: reading it before
    the first assignment raises [AttributeError]. *)
Inductive attr (A : Type) : Type := Unset | Value (a : A).
Arguments Unset {A}.
Arguments Value {A} a.

(** The values of the settings enumerations of [BaseStation] that
    [_process_msg] compares with ([IntEnum] members compare by value). *)
Definition KeypadSetting_PANIC_ENABLED : Z := 1.
Definition SensorSetting_ALARM_HOME_AND_AWAY : Z := 1.
Definition SensorSetting_ALARM_AWAY_ONLY : Z := 2.
Definition SensorSetting_NO_ALARM_ALERT_ONLY : Z := 64.

(** An entry of [self._components].  [add_component] stores the keys
    ["name"], ["type"], ["setting"] and ["instat_trigger"]; [_process_msg]
    reads the key ['instant_trip'], which [add_component] never writes. *)
Record component : Type := mkComponent
  { c_name : string; c_type : Z; c_setting : option Z;
    c_instat_trigger : option bool; c_instant_trip : option bool }.

(** [BaseStation.add_component], the dictionary entry it builds for a sensor
    type ([ENTRY_SENSOR], [MOTION_SENSOR], [GLASSBREAK_SENSOR]). *)
Definition sensor_component (name : string) (cls : Z) (setting : Z) (instant_trigger : bool)
  : component :=
  mkComponent name cls (Some setting) (Some instant_trigger) None.

(** The entries of [self._settings] the modelled methods read. *)
Record Settings : Type := mkSettings
  { siren_duration : Z; entry_delay_away : Z; entry_delay_home : Z; exit_delay : Z }.

(** The defaults of [BaseStation.__init__]. *)
Definition default_settings : Settings := mkSettings 5 30 1 45.

(** Modelled from the spec: the module [simplisafe.messages], from which
    devices.py imports the message classes, is not among the sources.  The
    classes [_process_msg] tests with [isinstance] are taken with the fields
    the handler reads.  The PIN request the handler names
    [KeypadAlarmPinRequest] is the spec's [KeypadDisarmPinRequest], and the
    [BaseStationKeypadAlarmPinResponse] it answers with, of response type
    [DISARM] or [INVALID], is the spec's [ValidDisarmPinResponse] or
    [InvalidDisarmPinResponse]. *)
Inductive MotionEvent : Type := HEARTBEAT | MOTION.
Inductive EntryEvent : Type := OPEN | CLOSED.

Inductive received : Type :=
| BaseStationKeypadMessage (sn : string)
| KeypadAlarmPinRequest (sn : string) (pin : string)
| KeypadMenuPinRequest (sn : string) (pin : string)
| KeypadPanicRequest (sn : string)
| MotionSensorMessage (sn : string) (event_type : MotionEvent)
| EntrySensorMessage (sn : string) (event_type : EntryEvent).

Definition received_sn (msg : received) : string :=
  match msg with
  | BaseStationKeypadMessage sn | KeypadAlarmPinRequest sn _ | KeypadMenuPinRequest sn _
  | KeypadPanicRequest sn | MotionSensorMessage sn _ | EntrySensorMessage sn _ => sn
  end.

Inductive AlarmPinResponseType : Type := DISARM | INVALID.

Inductive sent : Type :=
| BaseStationKeypadAlarmPinResponse (kp_sn : string) (seq : Z) (bs_sn : string)
    (response_type : AlarmPinResponseType)
| BaseStationKeypadValidMenuPinResponse (kp_sn : string) (seq : Z)
| BaseStationKeypadInvalidMenuPinResponse (kp_sn : string) (seq : Z).

(** What the base station does that can be observed from outside: the
    messages it hands to the transceiver, the hooks a subclass overrides,
    and what it prints. *)
Inductive event : Type :=
| Sent (msg : sent)
| alarm | alert | arm_away | arm_home | disarm | start_siren | stop_siren
| printed (time_left : Z).

Record BaseStation : Type := mkBaseStation
  { sn : string; _master_pin : string; _duress_pin : option string;
    _pins : list (string * string);        (* name, pin *)
    _settings : Settings;
    _components : list (string * component);
    _error_flags : Z; _armed : ArmedState; _ess : Z; _time_left : Z;
    _siren_timer : option Timer;
    _time_left_timer : attr Timer;
    bs_sequence : Z;
    trace : list event }.

(** State and exceptions: a method runs on the instance and leaves it
    changed also when it raises. *)
Definition method (A : Type) : Type := BaseStation -> BaseStation * result A.

Definition ret {A : Type} (a : A) : method A := fun s => (s, Ok a).
Definition throw {A : Type} (e : exn) : method A := fun s => (s, Raise e).
Definition seq {A B : Type} (c : method A) (k : A -> method B) : method B :=
  fun s => match c s with
           | (s', Ok a) => k a s'
           | (s', Raise e) => (s', Raise e)
           end.
Definition get : method BaseStation := fun s => (s, Ok s).
Definition modify (f : BaseStation -> BaseStation) : method unit := fun s => (f s, Ok tt).

Declare Scope method_scope.
Delimit Scope method_scope with method.
Notation "x <- c ;; k" := (seq c (fun x => k))
  (at level 61, c at next level, right associativity) : method_scope.
Notation "c ;;; k" := (seq c (fun _ => k))
  (at level 61, right associativity) : method_scope.
Local Open Scope method_scope.

Definition set_armed (a : ArmedState) : method unit :=
  modify (fun s => mkBaseStation (sn s) (_master_pin s) (_duress_pin s) (_pins s)
    (_settings s) (_components s) (_error_flags s) a (_ess s) (_time_left s)
    (_siren_timer s) (_time_left_timer s) (bs_sequence s) (trace s)).

Definition set_time_left (n : Z) : method unit :=
  modify (fun s => mkBaseStation (sn s) (_master_pin s) (_duress_pin s) (_pins s)
    (_settings s) (_components s) (_error_flags s) (_armed s) (_ess s) n
    (_siren_timer s) (_time_left_timer s) (bs_sequence s) (trace s)).

Definition set_siren_timer (tm : option Timer) : method unit :=
  modify (fun s => mkBaseStation (sn s) (_master_pin s) (_duress_pin s) (_pins s)
    (_settings s) (_components s) (_error_flags s) (_armed s) (_ess s) (_time_left s)
    tm (_time_left_timer s) (bs_sequence s) (trace s)).

Definition set_time_left_timer (tm : attr Timer) : method unit :=
  modify (fun s => mkBaseStation (sn s) (_master_pin s) (_duress_pin s) (_pins s)
    (_settings s) (_components s) (_error_flags s) (_armed s) (_ess s) (_time_left s)
    (_siren_timer s) tm (bs_sequence s) (trace s)).

Definition set_sequence (n : Z) : method unit :=
  modify (fun s => mkBaseStation (sn s) (_master_pin s) (_duress_pin s) (_pins s)
    (_settings s) (_components s) (_error_flags s) (_armed s) (_ess s) (_time_left s)
    (_siren_timer s) (_time_left_timer s) n (trace s)).

(** Appends an observable event. *)
Definition emit (e : event) : method unit :=
  modify (fun s => mkBaseStation (sn s) (_master_pin s) (_duress_pin s) (_pins s)
    (_settings s) (_components s) (_error_flags s) (_armed s) (_ess s) (_time_left s)
    (_siren_timer s) (_time_left_timer s) (bs_sequence s) (trace s ++ [e])).

Definition is_armed_away (s : BaseStation) : bool := ArmedState_eqb (_armed s) ARMED_AWAY.
Definition is_armed_home (s : BaseStation) : bool := ArmedState_eqb (_armed s) ARMED_HOME.
Definition is_armed (s : BaseStation) : bool := is_armed_away s || is_armed_home s.
Definition is_arming (s : BaseStation) : bool := ArmedState_eqb (_armed s) ARMING_AWAY.

(** [BaseStation._send] is [AbstractDevice._send]. *)
Definition _send (msg : sent) : method unit :=
  emit (Sent msg) ;;;
  s <- get ;;
  set_sequence (AbstractDevice_inc (bs_sequence s)).

Definition _cancel_countdown : method unit :=
  s <- get ;;
  match _time_left_timer s with
  | Unset => throw AttributeError
  | Value tm =>
      (if is_alive tm then set_time_left_timer (Value (Timer_cancel tm)) else ret tt) ;;;
      set_time_left 0
  end.

(** [BaseStation._alarm].  The siren branch reads [self._sirent_timer], an
    attribute no method assigns. *)
Definition _alarm (silent : bool) : method unit :=
  _cancel_countdown ;;;
  (if negb silent then
     s <- get ;;
     match _siren_timer s with
     | Some _ => throw AttributeError          (* self._sirent_timer.is_alive() *)
     | None =>
         emit start_siren ;;;
         set_siren_timer (Some (mkTimer (60 * siren_duration (_settings s)) cb_stop_siren false)) ;;;
         throw AttributeError                   (* self._sirent_timer.start() *)
     end
   else ret tt) ;;;
  emit alarm.

Definition _countdown : method unit :=
  s <- get ;;
  if negb (is_armed s) && negb (is_arming s) then _cancel_countdown
  else if is_armed s then
    if _time_left s =? 0 then _alarm false
    else
      set_time_left (_time_left s - 1) ;;;
      emit (printed (_time_left s - 1)) ;;;
      set_time_left_timer (Value (Timer_start (mkTimer 1 cb_countdown false)))
  else if is_arming s then
    if _time_left s =? 0 then
      set_armed ARMED_AWAY ;;;
      emit arm_away
    else
      set_time_left (_time_left s - 1) ;;;
      emit (printed (_time_left s - 1)) ;;;
      set_time_left_timer (Value (Timer_start (mkTimer 1 cb_countdown false)))
  else ret tt.

Definition _disarm : method unit :=
  set_armed OFF ;;;
  s <- get ;;
  match _siren_timer s with
  | Some tm => if is_alive tm then set_siren_timer (Some (Timer_cancel tm)) else ret tt
  | None => ret tt
  end ;;;
  emit stop_siren ;;;
  emit disarm.

(** [BaseStation._trip].  Both tests of the armed state are
    [self.is_armed_away()], as in the source. *)
Definition _trip (trip_function : method unit) (instant_trip : option bool) : method unit :=
  s <- get ;;
  if match instant_trip with Some true => true | _ => false end then trip_function
  else if _time_left s =? 0 then
    (if is_armed_away s then set_time_left (entry_delay_away (_settings s))
     else if is_armed_away s then set_time_left (entry_delay_home (_settings s))
     else ret tt) ;;;
    _countdown
  else ret tt.

(** [self._components.get(sn)] *)
Fixpoint components_get (cs : list (string * component)) (key : string) : option component :=
  match cs with
  | [] => None
  | (k, c) :: cs' => if String.eqb k key then Some c else components_get cs' key
  end.

Definition setting_is (c : component) (v : Z) : bool :=
  match c_setting c with Some x => x =? v | None => false end.

(** [any(d['pin'] == pin for d in self.pins)] *)
Definition any_pin (pins : list (string * string)) (pin : string) : bool :=
  existsb (fun d => String.eqb (snd d) pin) pins.

Definition is_duress_pin (s : BaseStation) (pin : string) : bool :=
  match _duress_pin s with Some d => String.eqb pin d | None => false end.

(** The trip of a motion or entry sensor, common to the two branches of
    [_process_msg].  [self._alert] does not exist ([alert] does), so the
    [NO_ALARM_ALERT_ONLY] branch raises while it evaluates the argument. *)
Definition sensor_trip (c : component) : method unit :=
  s <- get ;;
  if (setting_is c SensorSetting_ALARM_HOME_AND_AWAY && is_armed s)
     || (setting_is c SensorSetting_ALARM_AWAY_ONLY && is_armed_away s)
  then _trip (_alarm false) (c_instant_trip c)
  else if setting_is c SensorSetting_NO_ALARM_ALERT_ONLY && is_armed s
  then throw AttributeError
  else ret tt.

(** [BaseStation._process_msg], on the message classes above. *)
Definition _process_msg (msg : received) : method unit :=
  s <- get ;;
  match msg with
  | BaseStationKeypadMessage _ => ret tt
  | _ =>
    match components_get (_components s) (received_sn msg) with
    | None => ret tt                          (* component not enrolled *)
    | Some c =>
      match msg with
      | BaseStationKeypadMessage _ => ret tt
      | KeypadAlarmPinRequest kp pin =>
          if is_duress_pin s pin || String.eqb pin (_master_pin s) || any_pin (_pins s) pin
          then
            _send (BaseStationKeypadAlarmPinResponse kp (bs_sequence s) (sn s) DISARM) ;;;
            _disarm ;;;
            (if is_duress_pin s pin then _alarm true else ret tt)
          else
            _send (BaseStationKeypadAlarmPinResponse kp (bs_sequence s) (sn s) INVALID)
      | KeypadMenuPinRequest kp pin =>
          if String.eqb pin (_master_pin s)
          then _send (BaseStationKeypadValidMenuPinResponse kp (bs_sequence s))
          else _send (BaseStationKeypadInvalidMenuPinResponse kp (bs_sequence s))
      | KeypadPanicRequest _ =>
          if setting_is c KeypadSetting_PANIC_ENABLED then _alarm false else ret tt
      | MotionSensorMessage _ ev =>
          match ev with MOTION => sensor_trip c | HEARTBEAT => ret tt end
      | EntrySensorMessage _ ev =>
          match ev with OPEN => sensor_trip c | CLOSED => ret tt end
      end
    end
  end.

(** *** Sensor and the transceiver it sends through *)

Section SensorSend.

(** The message objects.  [Message] defines no [__eq__], so [==] on two
    messages is object identity. *)
Variable Msg : Type.
Variable same_object : Msg -> Msg -> bool.

(** What reaches the radio: a frame put on the air by [send_script] or
    [send_wave], and [sleep(2)]. *)
Inductive radio : Type := Transmit (msg : Msg) | Sleep (seconds : Z).








(** The number of times [msg] was put on the air. *)
Definition transmissions (msg : Msg) (log : list radio) : nat :=
  List.length (filter (fun r => match r with
                                | Transmit m => same_object m msg
                                | Sleep _ => false
                                end) log).

End SensorSend.

End Devices.

(** ** Predicates used in the statements *)

Fixpoint string_forallb (p : ascii -> bool) (s : string) : bool :=
  match s with
  | EmptyString => true
  | String c s' => p c && string_forallb p s'
  end.

(** A character of a packed serial number: [0x30 <= ord(c) <= 0x6E].  The
    code 0x6F is left out: [0x6F - 0x30] is the blank [0x3F]. *)
Definition is_sn_char (c : ascii) : bool := (0x30 <=? ord c) && (ord c <=? 0x6E).

(** The range the serial-number claim names, [0x30 <= ord(c) <= 0x6F]. *)
Definition is_sn_char_6F (c : ascii) : bool := (0x30 <=? ord c) && (ord c <=? 0x6F).

(** A hexadecimal digit [0-9A-Fa-f]. *)
Definition is_hex_char (c : ascii) : bool :=
  match int16 c with Ok _ => true | Raise _ => false end.


(** [pack] followed by [unpack] in the same format. *)
Definition pack_unpack (f : SerialNumberFormat.fmt) (s : string) (hb lb : bool)
  : result SerialNumberFormat.unpacked :=
  p <- SerialNumberFormat.pack f s hb lb ;; SerialNumberFormat.unpack f p.

(** Exhaustive check of a boolean property over a finite list of integers. *)
Definition nibble_values : list Z := [0;1;2;3;4;5;6;7;8;9;10;11;12;13;14;15].
Definition high_values : list Z := [0;16;32;48].
Definition flag_values : list Z := [0;1].

Fixpoint forall_below (n : nat) (P : Z -> bool) : bool :=
  match n with
  | O => true
  | S n' => P (Z.of_nat n') && forall_below n' P
  end.

(** The four packed bytes, over the high parts [hi] and low nibbles [li] of
    the five codes. *)
Definition packed0 (l0 l1 : Z) : Z := Z.lor (Z.shiftl l1 4) l0.
Definition packed1 (l2 l3 : Z) : Z := Z.lor (Z.shiftl l3 4) l2.
Definition packed2 (h0 h1 l4 : Z) : Z := Z.lor (Z.lor (Z.shiftl h1 2) (Z.shiftl h0 0)) l4.
Definition packed3 (hb lb h2 h3 h4 : Z) : Z :=
  Z.lor (Z.lor (Z.lor (Z.lor (Z.shiftl hb 7) (Z.shiftl lb 6)) (Z.shiftl h4 0))
               (Z.shiftr h3 2)) (Z.shiftr h2 4).

(** [p] occurs in [s] as a substring. *)
Definition occurs (p s : list ascii) : Prop :=
  exists pre post, s = pre ++ p ++ post.

(** The repeat marker [decode] searches for: ['F' + raw_hex[0:4]]. *)
Definition repeat_marker (raw_hex : list ascii) : list ascii :=
  "F"%char :: firstn 4 raw_hex.

(** A character that is the hexadecimal digit of a nibble. *)
Definition hexd (c : ascii) : Prop := exists n, 0 <= n < 16 /\ c = hex_digit n.

(** A SYNC run of four 1 ms pulses, the two 2 ms preamble pulses, then an
    edge 0.3 ms after the preamble and the edge after it. *)
Definition glitch_edges : list edge :=
  [ (0, 0); (1, 1000); (0, 2000); (1, 3000); (0, 4000);
    (1, 6000); (0, 8000);
    (1, 8300); (0, 8800) ].

(** The bits of the frame CC 05 22 31 36 37 4A 43 01 04 53 58 (a
    [KeypadHomeRequest] of keypad "167JC"), followed by the four bits of one
    more nibble and no repeat of the frame. *)
Definition unrepeated_frame_bits : bitstring :=
  list_ascii_of_string
    "0011001110100000010001001000110001101100111011000101001011000010100000000010000011001010000110100101".

(** ** Example states of the devices *)

Module Examples.

Import Devices.

(** A base station as [__init__] leaves its fields (no [_time_left_timer],
    no siren timer, default settings), with an entry sensor enrolled through
    [add_component] with the setting ALARM_HOME_AND_AWAY, a keypad, a duress
    PIN, and the armed state and entry-sensor instant flag given. *)
Definition base_station (armed : ArmedState) (instant_trigger : bool)
  (time_left_timer : attr Timer) : BaseStation :=
  mkBaseStation "123456" "1234" (Some "9999"%string) [] default_settings
    [ ("1R9CL"%string,
       sensor_component "Garage Door" DeviceType.ENTRY_SENSOR
         SensorSetting_ALARM_HOME_AND_AWAY instant_trigger);
      ("167JC"%string,
       mkComponent "Master Bedroom" DeviceType.KEYPAD
         (Some KeypadSetting_PANIC_ENABLED) None None) ]
    0 armed 0 0 None time_left_timer 0 [].

(** The countdown timer once a countdown has run to its end. *)
Definition spent_timer : Timer := mkTimer 1 cb_countdown false.

End Examples.

(** ** Canonical leaf messages

    The fields of a leaf message for which parsing its encoding returns the
    message itself. *)

(** A decimal digit [0-9]. *)
Definition is_digit_char (c : ascii) : bool := (48 <=? ord c) && (ord c <=? 57).







(** Kinds of errors *)
Definition raises_ValueError {A} (r : result A) : Prop :=
  match r with Ok _ => True | Raise e => is_ValueError e = true end.


(** ** The data pulses of [Transceiver.send_wave]

    [for msg_byte in bytes(msg): for i in range(8):
       if msg_byte & (1 << i): d = 1000  else: d = 500]:
    the delay of the pulse for bit [i] of a byte, the delays for a byte and
    for a byte string, and the symbols the receiver assigns to a list of
    durations. *)
Definition bit_delay (msg_byte i : Z) : Z :=
  if Z.land msg_byte (Z.shiftl 1 i) =? 0 then 500 else 1000.

Definition byte_delays (msg_byte : Z) : list Z :=
  map (bit_delay msg_byte) [0; 1; 2; 3; 4; 5; 6; 7].

Definition data_delays (bs : list Z) : list Z := flat_map byte_delays bs.

Definition symbols (ds : list Z) : bitstring := map symbol_of ds.

(** A symbol that stands for a bit. *)
Definition is_bit (c : ascii) : bool :=
  if ascii_dec c "0" then true else if ascii_dec c "1" then true else false.

(** The two hexadecimal digits of a byte in the order [decode] reads them,
    low nibble first. *)
Definition swapped_hex (bs : list Z) : list ascii :=
  flat_map (fun b => [hex_digit (Z.land b 0xF); hex_digit (Z.shiftr b 4)]) bs.

(** The tick the driver passes to a callback: the microseconds since boot
    in a 32-bit counter, which wraps around to 0 after [2 ^ 32 - 1]. *)
Definition tick32 (n : Z) : Z := n mod 2 ^ 32.

(** The edges that follow the tick [tick] at the distances [ds], with
    alternating levels of which [level] is the first; the tick of each edge
    is the one before plus the distance, in the 32-bit counter. *)
Fixpoint edges_after (tick level : Z) (ds : list Z) : list edge :=
  match ds with
  | [] => []
  | d :: ds' =>
      (level, tick32 (tick + d)) :: edges_after (tick32 (tick + d)) (1 - level) ds'
  end.

(** * Properties *)

(** ** Serial-number formats *)

Section SerialNumberRoundTrip.

Import SerialNumberFormat.

Lemma forall_below_spec n P :
  forall_below n P = true -> forall x, 0 <= x < Z.of_nat n -> P x = true.
Proof.
  induction n as [|n IH]; simpl; intros H x Hx; [lia|].
  apply andb_true_iff in H as [H1 H2].
  destruct (Z.eq_dec x (Z.of_nat n)) as [->|Hne]; [assumption|].
  apply IH; [assumption|lia].
Qed.

(** A six-bit code splits into its two high bits and its low nibble. *)
Lemma code_split c :
  0 <= c < 64 ->
  In (Z.land c 0x30) high_values /\ In (Z.land c 0xF) nibble_values /\
  Z.lor (Z.land c 0x30) (Z.land c 0xF) = c.
Proof.
  intros Hc.
  assert (H : forall_below 64 (fun c =>
            existsb (Z.eqb (Z.land c 0x30)) high_values &&
            existsb (Z.eqb (Z.land c 0xF)) nibble_values &&
            (Z.lor (Z.land c 0x30) (Z.land c 0xF) =? c)) = true)
    by (vm_compute; reflexivity).
  pose proof (forall_below_spec _ _ H c Hc) as Hx.
  apply andb_true_iff in Hx as [Hx H3]. apply andb_true_iff in Hx as [H1 H2].
  apply existsb_exists in H1 as (x & Hx & Ex). apply Z.eqb_eq in Ex.
  apply existsb_exists in H2 as (y & Hy & Ey). apply Z.eqb_eq in Ey.
  apply Z.eqb_eq in H3. subst x y. auto.
Qed.

Lemma unpack_bits_01 :
  forallb (fun h0 => forallb (fun h1 => forallb (fun l0 => forallb (fun l1 =>
  forallb (fun l4 =>
    let x0 := packed0 l0 l1 in let x2 := packed2 h0 h1 l4 in
    is_byte x0 && is_byte x2 &&
    (Z.lor (Z.land (Z.shiftr x2 0) 0x30) (Z.land x0 0xF) =? Z.lor h0 l0) &&
    (Z.lor (Z.land (Z.shiftr x2 2) 0x30) (Z.shiftr x0 4) =? Z.lor h1 l1))
  nibble_values) nibble_values) nibble_values) high_values) high_values = true.
Proof. vm_compute. reflexivity. Qed.

Lemma unpack_bits_23 :
  forallb (fun hb => forallb (fun lb => forallb (fun h2 => forallb (fun h3 =>
  forallb (fun h4 => forallb (fun l2 => forallb (fun l3 =>
    let x1 := packed1 l2 l3 in let x3 := packed3 hb lb h2 h3 h4 in
    is_byte x1 && is_byte x3 &&
    (Z.lor (Z.land (Z.shiftl x3 4) 0x30) (Z.land x1 0xF) =? Z.lor h2 l2) &&
    (Z.lor (Z.land (Z.shiftl x3 2) 0x30) (Z.shiftr x1 4) =? Z.lor h3 l3) &&
    Bool.eqb (negb (Z.land x3 0x80 =? 0)) (hb =? 1) &&
    Bool.eqb (negb (Z.land x3 0x40 =? 0)) (lb =? 1))
  nibble_values) nibble_values) high_values) high_values) high_values)
  flag_values) flag_values = true.
Proof. vm_compute. reflexivity. Qed.

Lemma unpack_bits_4 :
  forallb (fun hb => forallb (fun lb => forallb (fun h0 => forallb (fun h1 =>
  forallb (fun h2 => forallb (fun h3 => forallb (fun h4 => forallb (fun l4 =>
    let x2 := packed2 h0 h1 l4 in let x3 := packed3 hb lb h2 h3 h4 in
    (Z.lor (Z.land (Z.shiftl x3 0) 0x30) (Z.land x2 0xF) =? Z.lor h4 l4))
  nibble_values) high_values) high_values) high_values) high_values) high_values)
  flag_values) flag_values = true.
Proof. vm_compute. reflexivity. Qed.

Lemma byte1_ok x : is_byte x = true -> byte1 x = Ok [x].
Proof. unfold byte1, is_byte. intros ->. reflexivity. Qed.

Lemma int_of_bool_flag b : In (int_of_bool b) flag_values /\ (int_of_bool b =? 1) = b.
Proof. destruct b; simpl; auto. Qed.

Ltac split_andb H :=
  repeat match type of H with
  | (_ && _ = true) => let H1 := fresh H in apply andb_true_iff in H as [H H1]
  end.

Lemma ascii_pack_unpack s hb lb :
  (forall i, (i < 5)%nat -> 0 <= code_at s i < 64) ->
  pack_unpack ASCII_4B5C s hb lb =
  Ok (Triple (until_blank (map (code_at s) [0;1;2;3;4]%nat)) hb lb).
Proof.
  intros Hc.
  destruct (code_split _ (Hc 0%nat ltac:(lia))) as (Hh0 & Hl0 & E0).
  destruct (code_split _ (Hc 1%nat ltac:(lia))) as (Hh1 & Hl1 & E1).
  destruct (code_split _ (Hc 2%nat ltac:(lia))) as (Hh2 & Hl2 & E2).
  destruct (code_split _ (Hc 3%nat ltac:(lia))) as (Hh3 & Hl3 & E3).
  destruct (code_split _ (Hc 4%nat ltac:(lia))) as (Hh4 & Hl4 & E4).
  destruct (int_of_bool_flag hb) as (Fhb & Ehb).
  destruct (int_of_bool_flag lb) as (Flb & Elb).
  set (c0 := code_at s 0) in *. set (c1 := code_at s 1) in *.
  set (c2 := code_at s 2) in *. set (c3 := code_at s 3) in *.
  set (c4 := code_at s 4) in *.
  pose proof unpack_bits_01 as A.
  rewrite forallb_forall in A. specialize (A _ Hh0).
  rewrite forallb_forall in A. specialize (A _ Hh1).
  rewrite forallb_forall in A. specialize (A _ Hl0).
  rewrite forallb_forall in A. specialize (A _ Hl1).
  rewrite forallb_forall in A. specialize (A _ Hl4).
  cbv zeta in A. split_andb A.
  pose proof unpack_bits_23 as B.
  rewrite forallb_forall in B. specialize (B _ Fhb).
  rewrite forallb_forall in B. specialize (B _ Flb).
  rewrite forallb_forall in B. specialize (B _ Hh2).
  rewrite forallb_forall in B. specialize (B _ Hh3).
  rewrite forallb_forall in B. specialize (B _ Hh4).
  rewrite forallb_forall in B. specialize (B _ Hl2).
  rewrite forallb_forall in B. specialize (B _ Hl3).
  cbv zeta in B. split_andb B.
  pose proof unpack_bits_4 as C.
  rewrite forallb_forall in C. specialize (C _ Fhb).
  rewrite forallb_forall in C. specialize (C _ Flb).
  rewrite forallb_forall in C. specialize (C _ Hh0).
  rewrite forallb_forall in C. specialize (C _ Hh1).
  rewrite forallb_forall in C. specialize (C _ Hh2).
  rewrite forallb_forall in C. specialize (C _ Hh3).
  rewrite forallb_forall in C. specialize (C _ Hh4).
  rewrite forallb_forall in C. specialize (C _ Hl4).
  cbv zeta in C.
  unfold pack_unpack, pack.
  fold c0 c1 c2 c3 c4.
  change (Z.lor (Z.shiftl (Z.land c1 15) 4) (Z.land c0 15))
    with (packed0 (Z.land c0 15) (Z.land c1 15)).
  change (Z.lor (Z.shiftl (Z.land c3 15) 4) (Z.land c2 15))
    with (packed1 (Z.land c2 15) (Z.land c3 15)).
  change (Z.lor (Z.lor (Z.shiftl (Z.land c1 48) 2) (Z.shiftl (Z.land c0 48) 0)) (Z.land c4 15))
    with (packed2 (Z.land c0 48) (Z.land c1 48) (Z.land c4 15)).
  match goal with |- context [byte1 (Z.lor ?a ?b)] =>
    change (Z.lor a b) with (packed3 (int_of_bool hb) (int_of_bool lb)
                               (Z.land c2 48) (Z.land c3 48) (Z.land c4 48)) end.
  rewrite (byte1_ok _ A), (byte1_ok _ B), (byte1_ok _ A2), (byte1_ok _ B4).
  cbn [bind app].
  unfold unpack. cbn [len List.length Z.of_nat Pos.of_succ_nat Pos.succ Z.ltb Z.compare Pos.compare Pos.compare_cont raise_if bind index nth_error].
  apply Z.eqb_eq in A1, A0, B3, B2, C.
  rewrite A1, A0, B3, B2, C, E0, E1, E2, E3, E4.
  apply eqb_prop in B1, B0. rewrite B1, B0, Ehb, Elb.
  reflexivity.
Qed.

Lemma chr_ord a : chr (ord a) = a.
Proof. unfold chr, ord. rewrite N2Z.id. apply ascii_N_embedding. Qed.

Lemma ord_range a : 0 <= ord a < 256.
Proof.
  unfold ord. pose proof (N_ascii_bounded a). lia.
Qed.

Lemma sn_char_code a :
  is_sn_char a = true ->
  0 <= ord a - 0x30 < 64 /\ (ord a - 0x30 =? 0x3F) = false /\ chr (ord a - 0x30 + 0x30) = a.
Proof.
  unfold is_sn_char. intros H. apply andb_true_iff in H as [H1 H2].
  apply Z.leb_le in H1, H2.
  split; [lia|split].
  - apply Z.eqb_neq. lia.
  - replace (ord a - 0x30 + 0x30) with (ord a) by lia. apply chr_ord.
Qed.

Lemma ascii_roundtrip s hb lb :
  String.length s = 5%nat -> string_forallb is_sn_char s = true ->
  pack_unpack ASCII_4B5C s hb lb = Ok (Triple s hb lb).
Proof.
  intros Hlen Hok.
  destruct s as [|a0 [|a1 [|a2 [|a3 [|a4 [|]]]]]]; try discriminate.
  cbn [string_forallb] in Hok.
  apply andb_true_iff in Hok as [H0 Hok]. apply andb_true_iff in Hok as [H1 Hok].
  apply andb_true_iff in Hok as [H2 Hok]. apply andb_true_iff in Hok as [H3 Hok].
  apply andb_true_iff in Hok as [H4 _].
  destruct (sn_char_code _ H0) as (R0 & N0 & C0).
  destruct (sn_char_code _ H1) as (R1 & N1 & C1).
  destruct (sn_char_code _ H2) as (R2 & N2 & C2).
  destruct (sn_char_code _ H3) as (R3 & N3 & C3).
  destruct (sn_char_code _ H4) as (R4 & N4 & C4).
  rewrite ascii_pack_unpack.
  - cbn [map code_at string_get until_blank].
    rewrite N0, N1, N2, N3, N4, C0, C1, C2, C3, C4. reflexivity.
  - intros i Hi.
    destruct i as [|[|[|[|[|]]]]]; cbn [code_at string_get]; try assumption; lia.
Qed.

Lemma hex_char_value a :
  is_hex_char a = true ->
  exists v, int16 a = Ok v /\ In v nibble_values /\ hex_digit v = upper a.
Proof.
  destruct a as [[] [] [] [] [] [] [] []]; intros H; try discriminate H;
    eexists; (split; [reflexivity|split; [simpl; tauto|reflexivity]]).
Qed.

Lemma hex_bits :
  forallb (fun v3 => forallb (fun v5 =>
    is_byte v3 && is_byte (Z.shiftl v5 4 + v3) &&
    (Z.land v3 0xF =? v3) &&
    (Z.land (Z.shiftl v5 4 + v3) 0xF =? v3) &&
    (Z.shiftr (Z.shiftl v5 4 + v3) 4 =? v5)) nibble_values) nibble_values = true.
Proof. vm_compute. reflexivity. Qed.

Lemma hex_bits_at v3 v5 :
  In v3 nibble_values -> In v5 nibble_values ->
  is_byte v3 = true /\ is_byte (Z.shiftl v5 4 + v3) = true /\
  Z.land v3 0xF = v3 /\ Z.land (Z.shiftl v5 4 + v3) 0xF = v3 /\
  Z.shiftr (Z.shiftl v5 4 + v3) 4 = v5.
Proof.
  intros H3 H5. pose proof hex_bits as A.
  rewrite forallb_forall in A. specialize (A _ H3).
  rewrite forallb_forall in A. specialize (A _ H5).
  split_andb A. apply Z.eqb_eq in A0, A1, A2. auto.
Qed.

Lemma hex_roundtrip h :
  String.length h = 6%nat -> string_forallb is_hex_char h = true ->
  pack_unpack HEX_5B6C h false false = Ok (Hex (string_upper h)).
Proof.
  intros Hlen Hok.
  destruct h as [|a0 [|a1 [|a2 [|a3 [|a4 [|a5 [|]]]]]]]; try discriminate.
  cbn [string_forallb] in Hok.
  apply andb_true_iff in Hok as [H0 Hok]. apply andb_true_iff in Hok as [H1 Hok].
  apply andb_true_iff in Hok as [H2 Hok]. apply andb_true_iff in Hok as [H3 Hok].
  apply andb_true_iff in Hok as [H4 Hok]. apply andb_true_iff in Hok as [H5 _].
  destruct (hex_char_value _ H0) as (v0 & I0 & M0 & U0).
  destruct (hex_char_value _ H1) as (v1 & I1 & M1 & U1).
  destruct (hex_char_value _ H2) as (v2 & I2 & M2 & U2).
  destruct (hex_char_value _ H3) as (v3 & I3 & M3 & U3).
  destruct (hex_char_value _ H4) as (v4 & I4 & M4 & U4).
  destruct (hex_char_value _ H5) as (v5 & I5 & M5 & U5).
  destruct (hex_bits_at v0 v0 M0 M0) as (B0 & _ & L0 & _).
  destruct (hex_bits_at v1 v1 M1 M1) as (B1 & _ & L1 & _).
  destruct (hex_bits_at v2 v2 M2 M2) as (B2 & _ & L2 & _).
  destruct (hex_bits_at v4 v4 M4 M4) as (B4 & _ & L4 & _).
  destruct (hex_bits_at v3 v5 M3 M5) as (_ & B3 & _ & L3 & S3).
  unfold pack_unpack, pack. cbn [string_get bind].
  rewrite I0, I1, I2, I3, I4, I5. cbn [bind].
  rewrite (byte1_ok _ B0), (byte1_ok _ B1), (byte1_ok _ B2), (byte1_ok _ B3),
          (byte1_ok _ B4).
  cbn [bind app]. unfold unpack.
  cbn [len List.length Z.of_nat Pos.of_succ_nat Pos.succ Z.ltb Z.compare Pos.compare
       Pos.compare_cont raise_if bind index nth_error].
  rewrite L0, L1, L2, L3, L4, S3, U0, U1, U2, U3, U4, U5. reflexivity.
Qed.

(** C8, counterexample.  The serial number ["1o234"] has five characters in
    the range 0x30..0x6F, yet unpacking its packed form returns ["1"]: the
    character [o] is 0x6F, whose code [0x6F - 0x30] is the blank 0x3F that
    ends the decoded string. *)
Lemma serial_number_blank_counterexample :
  String.length "1o234" = 5%nat /\
  string_forallb is_sn_char_6F "1o234" = true /\
  pack_unpack ASCII_4B5C "1o234" false false = Ok (Triple "1" false false) /\
  pack_unpack ASCII_4B5C "1o234" false false <> Ok (Triple "1o234" false false).
Proof.
  repeat split; try reflexivity. vm_compute. discriminate.
Qed.

(** C8, as amended.  For every five-character string [s] of characters in
    the range 0x30..0x6E and every pair of flags, unpacking the ASCII_4B5C
    packing of [s] returns [s] and the flags; for every six-character
    hexadecimal string [h], unpacking its HEX_5B6C packing returns [h] in
    upper case. *)
Theorem serial_number_formats_roundtrip :
  forall (s h : string) (hb lb : bool),
    String.length s = 5%nat -> string_forallb is_sn_char s = true ->
    String.length h = 6%nat -> string_forallb is_hex_char h = true ->
    pack_unpack ASCII_4B5C s hb lb = Ok (Triple s hb lb) /\
    pack_unpack HEX_5B6C h false false = Ok (Hex (string_upper h)).
Proof.
  intros s h hb lb Hs Hsc Hh Hhc. split.
  - apply ascii_roundtrip; assumption.
  - apply hex_roundtrip; assumption.
Qed.

Lemma serial_number_formats_roundtrip_witness :
  (String.length "1C3J9" = 5%nat /\ string_forallb is_sn_char "1C3J9" = true /\
   String.length "12ab5f" = 6%nat /\ string_forallb is_hex_char "12ab5f" = true) /\
  pack_unpack ASCII_4B5C "1C3J9" true false = Ok (Triple "1C3J9" true false) /\
  pack_unpack HEX_5B6C "12ab5f" false false = Ok (Hex "12AB5F").
Proof.
  split; [repeat split|].
  apply (serial_number_formats_roundtrip "1C3J9" "12ab5f" true false); reflexivity.
Defined.

End SerialNumberRoundTrip.

(** ** The encoding of one keypad request *)

(** C7, counterexample.  The frame of
    [KeypadDisarmPinRequest(sn="167JC", sequence=0, pin="1234")] is not a
    12-byte frame with checksum 0x78: no byte string is at once the encoding
    of the message, 12 bytes long and closed by the checksum 0x78. *)
Lemma disarm_pin_frame_counterexample :
  ~ (exists b, Message_bytes (KeypadPinMessage KeypadDisarmPinRequest "167JC" 0 "1234") = Ok b /\
               List.length b = 12%nat /\
               plc_of (KeypadPinMessage KeypadDisarmPinRequest "167JC" 0 "1234") = 0x66 /\
               payload_of (KeypadPinMessage KeypadDisarmPinRequest "167JC" 0 "1234")
                 = Ok [0x01; 0x04; 0x21; 0x43; 0x0F; 0xF0; 0x51] /\
               Message_checksum (KeypadPinMessage KeypadDisarmPinRequest "167JC" 0 "1234")
                 = Ok 0x78 /\
               footer_of (KeypadPinMessage KeypadDisarmPinRequest "167JC" 0 "1234") = Ok []).
Proof.
  intros (b & Hb & Hlen & _).
  vm_compute in Hb. injection Hb as <-. discriminate Hlen.
Qed.

(** C7, as amended.  The message
    [KeypadDisarmPinRequest(sn="167JC", sequence=0, pin="1234")] can be
    constructed and encodes to a 16-byte frame: vendor code CC 05, payload
    length code 0x66, the serial number, the payload
    01 04 21 43 0F F0 51, the checksum 0xB9 (the payload bytes sum to 441),
    and an empty footer. *)
Theorem disarm_pin_frame :
  construct (KeypadPinMessage KeypadDisarmPinRequest "167JC" 0 "1234")
    = Ok (KeypadPinMessage KeypadDisarmPinRequest "167JC" 0 "1234") /\
  Message_bytes (KeypadPinMessage KeypadDisarmPinRequest "167JC" 0 "1234")
    = Ok [0xCC; 0x05; 0x66; 0x31; 0x36; 0x37; 0x4A; 0x43;
          0x01; 0x04; 0x21; 0x43; 0x0F; 0xF0; 0x51; 0xB9] /\
  List.length [0xCC; 0x05; 0x66; 0x31; 0x36; 0x37; 0x4A; 0x43;
               0x01; 0x04; 0x21; 0x43; 0x0F; 0xF0; 0x51; 0xB9] = 16%nat /\
  plc_of (KeypadPinMessage KeypadDisarmPinRequest "167JC" 0 "1234") = 0x66 /\
  payload_of (KeypadPinMessage KeypadDisarmPinRequest "167JC" 0 "1234")
    = Ok [0x01; 0x04; 0x21; 0x43; 0x0F; 0xF0; 0x51] /\
  sum [0x01; 0x04; 0x21; 0x43; 0x0F; 0xF0; 0x51] = 441 /\
  Message_checksum (KeypadPinMessage KeypadDisarmPinRequest "167JC" 0 "1234") = Ok 0xB9 /\
  footer_of (KeypadPinMessage KeypadDisarmPinRequest "167JC" 0 "1234") = Ok [].
Proof. repeat split. Qed.

(** ** The sequence counter *)

Section SequenceCounter.

Import Devices.

Lemma AbstractDevice_inc_range s : 0 <= AbstractDevice_inc s < 15.
Proof. unfold AbstractDevice_inc. apply Z.mod_pos_bound. lia. Qed.

Lemma Keypad_inc_range s : 0 <= Keypad_inc s < 15.
Proof. unfold Keypad_inc. apply Z.mod_pos_bound. lia. Qed.

(** After [n] transmissions the counter of a device other than a keypad is
    the initial value plus [n], modulo 15. *)
Lemma send_n_sequence {Msg : Type} (mk : Z -> Msg) n : forall d,
  sequence (send_n AbstractDevice_inc mk n d) =
  if (n =? 0)%nat then sequence d else (sequence d + Z.of_nat n) mod 15.
Proof.
  induction n as [|n IH]; intros d; [reflexivity|].
  cbn [send_n]. rewrite IH. cbn [AbstractDevice_send sequence].
  unfold AbstractDevice_inc.
  destruct n as [|n]; cbn [Nat.eqb].
  - reflexivity.
  - rewrite Zplus_mod_idemp_l. f_equal. lia.
Qed.

(** After [n] transmissions the counter of a keypad is the initial value
    plus [4 n], modulo 15. *)
Lemma send_n_sequence_keypad {Msg : Type} (mk : Z -> Msg) n : forall d,
  sequence (send_n Keypad_inc mk n d) =
  if (n =? 0)%nat then sequence d else (sequence d + 4 * Z.of_nat n) mod 15.
Proof.
  induction n as [|n IH]; intros d; [reflexivity|].
  cbn [send_n]. rewrite IH. cbn [AbstractDevice_send sequence].
  unfold Keypad_inc.
  destruct n as [|n]; cbn [Nat.eqb].
  - f_equal.
  - rewrite Zplus_mod_idemp_l. f_equal. lia.
Qed.

(** C3, the code at the failing input.  [_inc] reduces modulo [0xF], that is
    15: the counter never takes the value 15, a device at 14 wraps to 0 on
    its next transmission where counting modulo 16 gives 15, and a keypad at
    12 goes to 1 where counting modulo 16 gives 0. *)
Theorem sequence_counter_is_modulo_15 :
  (forall s, AbstractDevice_inc s <> 15) /\
  (forall s, Keypad_inc s <> 15) /\
  sequence (send_n AbstractDevice_inc (fun q => q) 1 (mkDevice 14 [])) = 0 /\
  (14 + 1) mod 16 = 15 /\
  sequence (send_n Keypad_inc (fun q => q) 1 (mkDevice 12 [])) = 1 /\
  (12 + 4 * 1) mod 16 = 0.
Proof.
  repeat split; try reflexivity.
  - intros s. pose proof (AbstractDevice_inc_range s). lia.
  - intros s. pose proof (Keypad_inc_range s). lia.
Qed.

End SequenceCounter.

(** ** The demodulators and the glitch rule *)

Lemma recv_cbf_glitch_pair s t0 l1 k1 l2 k2 :
  t s = Some t0 -> skip s = false -> duration_us t0 k1 < 400 ->
  _recv_cbf (_recv_cbf s l1 k1) l2 k2 = s.
Proof.
  intros Ht Hs Hd. destruct s as [d sk en tt f0 f1 sb]. cbn in Ht, Hs. subst tt sk.
  apply Z.ltb_lt in Hd.
  unfold _recv_cbf at 2. cbn [t skip]. rewrite Hd.
  unfold _recv_cbf. cbn. reflexivity.
Qed.

Lemma listen_cbf_short s t0 level tick :
  _rx_done s = false -> _rx_t s = Some t0 -> duration_us t0 tick < 400 ->
  _rx_preamble_high s = true ->
  _rx_buffer (_listen_cbf s level tick) = _rx_buffer s ++ ["0"%char].
Proof.
  intros Hd Ht Hdt Hp. unfold _listen_cbf. rewrite Hd, Ht.
  assert (E1 : (2100 <? duration_us t0 tick) = false) by (apply Z.ltb_ge; lia).
  assert (E2 : (1900 <? duration_us t0 tick) = false) by (apply Z.ltb_ge; lia).
  rewrite E1, E2. cbn [_rx_buffer]. rewrite Hp.
  unfold symbol_of.
  assert (E3 : (1100 <? duration_us t0 tick) = false) by (apply Z.ltb_ge; lia).
  assert (E4 : (900 <=? duration_us t0 tick) = false) by (apply Z.leb_gt; lia).
  assert (E5 : (600 <? duration_us t0 tick) = false) by (apply Z.ltb_ge; lia).
  rewrite E3, E4, E5. reflexivity.
Qed.

Lemma recv_edges_glitch_pair s t0 e1 e2 frame :
  t s = Some t0 -> skip s = false -> duration_us t0 (snd e1) < 400 ->
  recv_edges s (e1 :: e2 :: frame) = recv_edges s frame.
Proof.
  intros Ht Hs Hd. unfold recv_edges. cbn [fold_left].
  now rewrite (recv_cbf_glitch_pair s t0).
Qed.

(** C6, counterexample.  [Transceiver._listen_cbf] has no glitch branch: after
    a SYNC run and the preamble, an edge 0.3 ms after the previous one and
    the edge that follows it put two ['0'] symbols into the receive buffer,
    which was empty before them.  On the same edges [RFUtils._recv_cbf]
    leaves its bit string as it was. *)
Lemma listen_glitch_counterexample :
  duration_us 8000 8300 = 300 /\
  _rx_buffer (listen_edges rx_init glitch_edges) = ["0"; "0"]%char /\
  _rx_buffer (listen_edges rx_init (firstn 7 glitch_edges)) = [] /\
  encoded (recv_edges rf_init glitch_edges) = encoded (recv_edges rf_init (firstn 7 glitch_edges)).
Proof. vm_compute. repeat split. Qed.

(** C6, as amended.  In [RFUtils._recv_cbf], an edge that follows the
    previous accepted edge by less than 0.4 ms is a glitch: that edge and the
    next one are dropped and leave the demodulator state as it was, so that
    the edges of a frame that follows are decoded exactly as they would be
    without the pair.  [Transceiver._listen_cbf] has no such rule (it relies
    on the 400 microsecond glitch filter of the driver): while it collects
    data it appends the symbol ['0'] for such an edge. *)
Theorem glitch_pair_is_dropped_by_recv_cbf :
  forall (s : rf_state) (t0 : Z) (e1 e2 : edge) (frame : list edge)
         (r : rx_state) (r0 level tick : Z),
    t s = Some t0 -> skip s = false -> duration_us t0 (snd e1) < 400 ->
    _rx_done r = false -> _rx_t r = Some r0 -> _rx_preamble_high r = true ->
    duration_us r0 tick < 400 ->
    _recv_cbf (_recv_cbf s (fst e1) (snd e1)) (fst e2) (snd e2) = s /\
    recv_edges s (e1 :: e2 :: frame) = recv_edges s frame /\
    _rx_buffer (_listen_cbf r level tick) = _rx_buffer r ++ ["0"%char].
Proof.
  intros s t0 e1 e2 frame r r0 level tick Ht Hs Hd Hrd Hrt Hrp Hrdt.
  split; [|split].
  - now apply (recv_cbf_glitch_pair s t0).
  - now apply (recv_edges_glitch_pair s t0).
  - now apply (listen_cbf_short r r0).
Qed.

Lemma glitch_pair_is_dropped_by_recv_cbf_witness :
  let s := recv_edges rf_init (firstn 7 glitch_edges) in
  let r := listen_edges rx_init (firstn 7 glitch_edges) in
  (t s = Some 8000 /\ skip s = false /\ duration_us 8000 8300 < 400 /\
   _rx_done r = false /\ _rx_t r = Some 8000 /\ _rx_preamble_high r = true) /\
  (_recv_cbf (_recv_cbf s 1 8300) 0 8800 = s /\
   recv_edges s [(1, 8300); (0, 8800); (1, 9300)] = recv_edges s [(1, 9300)] /\
   _rx_buffer (_listen_cbf r 1 8300) = _rx_buffer r ++ ["0"%char]).
Proof.
  intros s r. split.
  - repeat split.
  - apply (glitch_pair_is_dropped_by_recv_cbf s 8000 (1, 8300) (0, 8800) [(1, 9300)]
             r 8000 1 8300); reflexivity.
Defined.

(** ** Transceiver.decode without a repeat marker *)

Lemma starts_with_app p s : starts_with p s = true <-> exists post, s = p ++ post.
Proof.
  revert s. induction p as [|a p IH]; intros s; cbn [starts_with].
  - split; [intros _; exists s; reflexivity|reflexivity].
  - destruct s as [|b s].
    + split; [discriminate|]. intros (post & H). discriminate H.
    + destruct (ascii_dec a b) as [->|Hne].
      * rewrite IH. split; intros (post & H); exists post.
        -- cbn. now rewrite H.
        -- cbn in H. now injection H.
      * split; [discriminate|]. intros (post & H). cbn in H. injection H as H1 _. congruence.
Qed.

Lemma find_from_absent p : forall s i, ~ occurs p s -> find_from p s i = -1.
Proof.
  induction s as [|b s IH]; intros i Hno.
  - cbn [find_from]. destruct (starts_with p []) eqn:E; [|reflexivity].
    exfalso. apply Hno. apply starts_with_app in E as (post & E).
    exists [], post. exact E.
  - cbn [find_from]. destruct (starts_with p (b :: s)) eqn:E.
    + exfalso. apply Hno. apply starts_with_app in E as (post & E).
      exists [], post. exact E.
    + apply IH. intros (pre & post & H). apply Hno.
      exists (b :: pre), post. cbn. now rewrite H.
Qed.

Lemma slice_upto_minus1 {A} (s : list A) : slice_upto s (-1) = removelast s.
Proof.
  unfold slice_upto. cbn. rewrite removelast_firstn_len.
  f_equal. lia.
Qed.

Lemma find_from_occurs p : forall s i, occurs p s -> 0 <= i -> 0 <= find_from p s i.
Proof.
  induction s as [|b s IH]; intros i (pre & post & H) Hi.
  - cbn [find_from]. destruct (starts_with p []) eqn:E; [lia|].
    destruct pre; [|discriminate]. cbn in H.
    assert (E' : starts_with p [] = true) by (apply starts_with_app; now exists post).
    congruence.
  - cbn [find_from]. destruct (starts_with p (b :: s)) eqn:E; [lia|].
    apply IH; [|lia].
    destruct pre as [|a pre].
    + cbn in H.
      assert (E' : starts_with p (b :: s) = true) by (apply starts_with_app; now exists post).
      congruence.
    + cbn in H. injection H as _ H. now exists pre, post.
Qed.

Lemma int2_acc_bound : forall s acc n,
  0 <= acc -> int2_acc acc s = Ok n ->
  0 <= n < (acc + 1) * 2 ^ Z.of_nat (List.length s).
Proof.
  induction s as [|c s IH]; intros acc n Hacc H.
  - cbn in H. injection H as <-. cbn. lia.
  - cbn [int2_acc] in H. cbn [List.length]. rewrite Nat2Z.inj_succ, Z.pow_succ_r by lia.
    destruct (ascii_dec c "0").
    + apply IH in H; [|lia]. nia.
    + destruct (ascii_dec c "1"); [|discriminate].
      apply IH in H; [|lia]. nia.
Qed.

Lemma int2_nibble g n :
  (List.length g <= 4)%nat -> int2 g = Ok n -> 0 <= n < 16.
Proof.
  intros Hl H. unfold int2 in H. destruct g as [|c g]; [discriminate|].
  apply int2_acc_bound in H; [|lia].
  assert (2 ^ Z.of_nat (List.length (c :: g)) <= 2 ^ 4)
    by (apply Z.pow_le_mono_r; lia).
  lia.
Qed.

Lemma nibbles_hexd : forall fuel bits raw,
  nibbles fuel bits = Ok raw -> Forall hexd raw.
Proof.
  induction fuel as [|fuel IH]; intros bits raw H.
  - destruct bits; cbn in H; injection H as <-; constructor.
  - destruct bits as [|b bits]; [cbn in H; injection H as <-; constructor|].
    cbn [nibbles] in H.
    destruct (int2 (rev (firstn 4 (b :: bits)))) as [n|e] eqn:En; [|discriminate].
    cbn [bind] in H.
    destruct (nibbles fuel (skipn 4 (b :: bits))) as [rest|e] eqn:Er; [|discriminate].
    cbn [bind] in H. injection H as <-.
    constructor.
    + exists n. split; [|reflexivity].
      apply (int2_nibble (rev (firstn 4 (b :: bits)))); [|exact En].
      rewrite length_rev. apply firstn_le_length.
    + apply (IH _ _ Er).
Qed.

Lemma int16_hex_digit n : 0 <= n < 16 -> int16 (hex_digit n) = Ok n.
Proof.
  intros H.
  assert (A : forall_below 16 (fun n => match int16 (hex_digit n) with
                                        | Ok m => m =? n | Raise _ => false end) = true)
    by (vm_compute; reflexivity).
  pose proof (forall_below_spec _ _ A n H) as Hn. cbv beta in Hn.
  destruct (int16 (hex_digit n)); [|discriminate].
  apply Z.eqb_eq in Hn. now subst.
Qed.

Lemma swap_nibbles_ok : forall k l,
  List.length l = (2 * k)%nat -> Forall hexd l -> exists bs, swap_nibbles l = Ok bs.
Proof.
  induction k as [|k IH]; intros l Hl Hf.
  - destruct l; [|discriminate]. exists []. reflexivity.
  - destruct l as [|lo [|hi rest]]; cbn [List.length] in Hl; try lia.
    apply Forall_cons_iff in Hf as [(nl & Rl & ->) Hf].
    apply Forall_cons_iff in Hf as [(nh & Rh & ->) Hf].
    destruct (IH rest) as (bs & Hbs); [lia|assumption|].
    cbn [swap_nibbles]. rewrite !int16_hex_digit by assumption. cbn [bind].
    unfold byte1.
    assert (E : (0 <=? 16 * nh + nl) && (16 * nh + nl <? 256) = true).
    { apply andb_true_iff. split; [apply Z.leb_le|apply Z.ltb_lt]; lia. }
    rewrite E. cbn [bind]. rewrite Hbs. cbn [bind]. eexists. reflexivity.
Qed.

Lemma Forall_firstn' {A} (P : A -> Prop) n : forall l, Forall P l -> Forall P (firstn n l).
Proof.
  induction n as [|n IH]; intros l Hl; [constructor|].
  destruct Hl as [|x l Hx Hl]; cbn [firstn]; constructor; auto.
Qed.

Lemma decode_origin_length raw origin :
  decode_origin raw = Ok origin -> (17 <= List.length raw)%nat.
Proof.
  unfold decode_origin, index. intros H.
  destruct (nth_error raw 16) eqn:E; [|discriminate].
  assert (16 < List.length raw)%nat by (apply nth_error_Some; congruence). lia.
Qed.

(** C10.  Let a bit string without ['X'] decode to the hexadecimal string
    [raw_hex], let its origin digit be a device type other than the base
    station, and let ['F'] followed by the first four digits of [raw_hex]
    occur nowhere in [raw_hex].  Then [find] returns -1 and [decode] goes on
    with [raw_hex] less its last digit: it raises the odd-byte-count error
    when that has an odd number of digits, and otherwise returns the
    nibble-swapped bytes of it; nothing is raised for the missing marker. *)
Theorem decode_without_repeat_marker :
  forall (bits : bitstring) (raw_hex : list ascii) (origin : Z),
    count_X bits = 0%nat ->
    raw_hex_of bits = Ok raw_hex ->
    decode_origin raw_hex = Ok origin ->
    origin <> DeviceType.BASE_STATION ->
    ~ occurs (repeat_marker raw_hex) raw_hex ->
    str_find raw_hex (repeat_marker raw_hex) = -1 /\
    decode bits =
      (raise_if (Z.of_nat (List.length (removelast raw_hex)) mod 2 =? 1) DecodeError ;;;
       swap_nibbles (removelast raw_hex))%py /\
    (Nat.even (List.length raw_hex) = true -> decode bits = Raise DecodeError) /\
    (Nat.even (List.length raw_hex) = false ->
     exists swapped, swap_nibbles (removelast raw_hex) = Ok swapped /\
                     decode bits = Ok swapped).
Proof.
  intros bits raw_hex origin HX Hraw Horigin Hnb Hno.
  assert (Hfind : str_find raw_hex (repeat_marker raw_hex) = -1)
    by (apply find_from_absent; exact Hno).
  assert (Hdec : decode bits =
      (raise_if (Z.of_nat (List.length (removelast raw_hex)) mod 2 =? 1) DecodeError ;;;
       swap_nibbles (removelast raw_hex))%py).
  { unfold decode. rewrite HX. cbn [Nat.eqb negb raise_if bind]. rewrite Hraw. cbn [bind].
    unfold decode_hex. rewrite Horigin. cbn [bind].
    apply Z.eqb_neq in Hnb. rewrite Hnb.
    fold (repeat_marker raw_hex). rewrite Hfind, slice_upto_minus1. reflexivity. }
  pose proof (decode_origin_length _ _ Horigin) as Hlen.
  assert (Hrl : List.length (removelast raw_hex) = (List.length raw_hex - 1)%nat).
  { rewrite removelast_firstn_len, length_firstn. lia. }
  split; [exact Hfind|]. split; [exact Hdec|]. split.
  - intros Hev. rewrite Hdec, Hrl.
    apply Nat.even_spec in Hev as (k & Hk).
    replace (Z.of_nat (List.length raw_hex - 1)) with (2 * (Z.of_nat k - 1) + 1) by lia.
    rewrite Z.add_comm, Z.mul_comm, Z_mod_plus_full. reflexivity.
  - intros Hodd.
    assert (Ho : Nat.odd (List.length raw_hex) = true)
      by (unfold Nat.odd; now rewrite Hodd).
    apply Nat.odd_spec in Ho as (k & Hk).
    destruct (swap_nibbles_ok k (removelast raw_hex)) as (bs & Hbs).
    + lia.
    + rewrite removelast_firstn_len. apply Forall_firstn'.
      apply (nibbles_hexd _ _ _ Hraw).
    + exists bs. split; [exact Hbs|].
      rewrite Hdec, Hrl, Hbs.
      replace (Z.of_nat (List.length raw_hex - 1)) with (Z.of_nat k * 2) by lia.
      rewrite Z_mod_mult. reflexivity.
Qed.

Lemma decode_without_repeat_marker_witness :
  exists raw_hex,
    (count_X unrepeated_frame_bits = 0%nat /\
     raw_hex_of unrepeated_frame_bits = Ok raw_hex /\
     decode_origin raw_hex = Ok DeviceType.KEYPAD /\
     DeviceType.KEYPAD <> DeviceType.BASE_STATION /\
     ~ occurs (repeat_marker raw_hex) raw_hex) /\
    str_find raw_hex (repeat_marker raw_hex) = -1 /\
    decode unrepeated_frame_bits =
      Ok [0xCC; 0x05; 0x22; 0x31; 0x36; 0x37; 0x4A; 0x43; 0x01; 0x04; 0x53; 0x58].
Proof.
  exists (list_ascii_of_string "CC5022136373A43410403585A").
  assert (Hno : ~ occurs (repeat_marker (list_ascii_of_string "CC5022136373A43410403585A"))
                         (list_ascii_of_string "CC5022136373A43410403585A")).
  { intros H. apply (find_from_occurs _ _ 0) in H; [|lia].
    vm_compute in H. apply H. reflexivity. }
  split.
  - repeat split; try assumption. discriminate.
  - destruct (decode_without_repeat_marker unrepeated_frame_bits
                (list_ascii_of_string "CC5022136373A43410403585A") DeviceType.KEYPAD)
      as (Hf & Hd & _ & _); try reflexivity; try assumption; try discriminate.
    split; [exact Hf|]. rewrite Hd. reflexivity.
Defined.

(** ** The base station: trips and PIN requests *)

Section BaseStationFacts.

Import Devices Examples.

Lemma trip_instant f s : _trip f (Some true) s = f s.
Proof. reflexivity. Qed.

Lemma trip_retrip_ignored f i s :
  i <> Some true -> _time_left s <> 0 -> _trip f i s = (s, Ok tt).
Proof.
  intros Hi Ht. unfold _trip, seq, get.
  destruct i as [[]|]; try congruence;
    apply Z.eqb_neq in Ht; rewrite Ht; reflexivity.
Qed.

Lemma trip_armed_away i s :
  i <> Some true -> _armed s = ARMED_AWAY -> _time_left s = 0 ->
  entry_delay_away (_settings s) <> 0 ->
  _trip (_alarm false) i s =
  (mkBaseStation (sn s) (_master_pin s) (_duress_pin s) (_pins s) (_settings s)
     (_components s) (_error_flags s) ARMED_AWAY (_ess s)
     (entry_delay_away (_settings s) - 1) (_siren_timer s)
     (Value (mkTimer 1 cb_countdown true)) (bs_sequence s)
     (trace s ++ [printed (entry_delay_away (_settings s) - 1)]), Ok tt).
Proof.
  intros Hi Ha Ht Hd. destruct s as [a b c d e f g h k l m n o p].
  cbn in Ha, Ht, Hd. subst h l. apply Z.eqb_neq in Hd.
  destruct i as [[]|]; try congruence;
    cbv [_trip seq get _countdown is_armed is_armed_away is_armed_home is_arming
         ArmedState_eqb set_time_left modify emit set_time_left_timer Timer_start
         _time_left _armed _settings negb orb andb Z.eqb ret
         sn _master_pin _duress_pin _pins _components _error_flags _ess
         _siren_timer _time_left_timer bs_sequence trace interval function is_alive];
    cbv [_time_left _settings] in Hd; fold (Z.eqb (entry_delay_away e) 0); rewrite Hd; reflexivity.
Qed.

Lemma trip_armed_home i s :
  i <> Some true -> _armed s = ARMED_HOME -> _time_left s = 0 ->
  _trip (_alarm false) i s = _alarm false s.
Proof.
  intros Hi Ha Ht. destruct s as [a b c d e f g h k l m n o p].
  cbn in Ha, Ht. subst h l.
  destruct i as [[]|]; try congruence; reflexivity.
Qed.

(** C4, the code at the failing input.  An enrolled entry sensor with the
    setting ALARM_HOME_AND_AWAY opens while [time_left] is 0.  With the base
    station ARMED_HOME, [_trip] does not set [time_left] to
    [entry_delay_home] (its second test is [is_armed_away()] again): the
    counter stays 0, no countdown timer is started, and [_countdown] goes
    straight to [_alarm], which starts the siren.  With the base station
    ARMED_AWAY the counter is set to [entry_delay_away] (30) and the
    countdown starts, taking the first second off.  A sensor enrolled with
    [instant_trigger=True] is tripped through the countdown as well:
    [add_component] files the flag under the key ["instat_trigger"] and
    [_process_msg] reads ['instant_trip']. *)
Theorem trip_while_armed_home :
  (* entry sensor opens while ARMED_HOME *)
  (let r := _process_msg (EntrySensorMessage "1R9CL" OPEN)
              (base_station ARMED_HOME false (Value spent_timer)) in
   snd r = Raise AttributeError /\
   _time_left (fst r) = 0 /\
   entry_delay_home (_settings (fst r)) = 1 /\
   _time_left_timer (fst r) = Value spent_timer /\
   trace (fst r) = [start_siren]) /\
  (* the same while ARMED_AWAY *)
  (let r := _process_msg (EntrySensorMessage "1R9CL" OPEN)
              (base_station ARMED_AWAY false (Value spent_timer)) in
   snd r = Ok tt /\
   _time_left (fst r) = 29 /\
   _time_left_timer (fst r) = Value (mkTimer 1 cb_countdown true) /\
   trace (fst r) = [printed 29]) /\
  (* an entry sensor enrolled with instant_trigger=True, while ARMED_AWAY *)
  (let r := _process_msg (EntrySensorMessage "1R9CL" OPEN)
              (base_station ARMED_AWAY true (Value spent_timer)) in
   snd r = Ok tt /\ _time_left (fst r) = 29 /\ trace (fst r) = [printed 29]).
Proof. vm_compute. repeat split. Qed.

(** Once a countdown timer has been created, the duress PIN does what the
    claim says: the DISARM response is sent to the keypad, the state becomes
    OFF, and [alarm] is called without [start_siren]. *)
Lemma duress_pin_with_timer s kp pin c tm :
  components_get (_components s) kp = Some c ->
  _duress_pin s = Some pin ->
  _time_left_timer s = Value tm ->
  exists s',
    _process_msg (KeypadAlarmPinRequest kp pin) s = (s', Ok tt) /\
    _armed s' = OFF /\ _time_left s' = 0 /\
    trace s' = (trace s ++
      [Sent (BaseStationKeypadAlarmPinResponse kp (bs_sequence s) (sn s) DISARM);
       stop_siren; disarm; alarm])%list.
Proof.
  intros Hc Hd Ht. destruct s as [a b d0 d e f g h k l m n o p].
  cbn in Hc, Hd, Ht. subst d0 n.
  unfold _process_msg, seq, get. cbn [received_sn _components]. rewrite Hc.
  unfold is_duress_pin. cbn [_duress_pin]. rewrite String.eqb_refl. cbn [orb].
  (destruct tm as [ti tf []]; destruct m as [[si sf []]|];
    cbv [_send _disarm _alarm _cancel_countdown seq get emit modify set_sequence
         set_armed set_siren_timer set_time_left_timer set_time_left ret throw
         is_alive Timer_cancel interval function negb
         sn _master_pin _duress_pin _pins _settings _components _error_flags _armed
         _ess _time_left _siren_timer _time_left_timer bs_sequence trace];
    eexists; (split; [reflexivity|]); cbn [_armed _time_left trace];
    rewrite <- ?app_assoc; auto).
Qed.

(** A PIN that is neither the duress PIN, the master PIN nor an additional
    PIN is answered with the INVALID response; only the sequence counter and
    the list of sent messages change. *)
Lemma invalid_pin s kp pin c :
  components_get (_components s) kp = Some c ->
  is_duress_pin s pin = false -> String.eqb pin (_master_pin s) = false ->
  any_pin (_pins s) pin = false ->
  _process_msg (KeypadAlarmPinRequest kp pin) s =
  (mkBaseStation (sn s) (_master_pin s) (_duress_pin s) (_pins s) (_settings s)
     (_components s) (_error_flags s) (_armed s) (_ess s) (_time_left s)
     (_siren_timer s) (_time_left_timer s) (AbstractDevice_inc (bs_sequence s))
     (trace s ++ [Sent (BaseStationKeypadAlarmPinResponse kp (bs_sequence s) (sn s) INVALID)])%list,
   Ok tt).
Proof.
  intros Hc H1 H2 H3.
  unfold _process_msg, seq, get. cbn [received_sn]. rewrite Hc, H1, H2, H3.
  reflexivity.
Qed.

(** C5, the code at the failing input.  A base station whose fields are as
    [__init__] leaves them is ARMED_HOME and receives, from an enrolled
    keypad, a PIN request with the duress PIN.  It sends the DISARM response,
    goes to OFF and calls [stop_siren] and [disarm]; then [_alarm(True)]
    calls [_cancel_countdown], which reads [self._time_left_timer], an
    attribute no code has assigned yet, and the handler ends in
    [AttributeError] before [alarm()] is called. *)
Theorem duress_pin_before_any_countdown :
  let r := _process_msg (KeypadAlarmPinRequest "167JC" "9999")
             (base_station ARMED_HOME false Unset) in
  snd r = Raise AttributeError /\
  _armed (fst r) = OFF /\
  trace (fst r) =
    [Sent (BaseStationKeypadAlarmPinResponse "167JC" 0 "123456" DISARM);
     stop_siren; disarm] /\
  ~ In alarm (trace (fst r)).
Proof.
  vm_compute. repeat split.
  (intros [H|[H|[H|[]]]]; discriminate H).
Qed.

End BaseStationFacts.

(** ** Sensor transmissions *)

Section SensorFacts.

Import Devices.
Variable Msg : Type.
Variable same_object : Msg -> Msg -> bool.


End SensorFacts.

Section SensorClaim.

Import Devices.


End SensorClaim.

(** ** The checksum *)


Lemma bind_Ok {A B} (c : result A) (k : A -> result B) r :
  bind c k = Ok r -> exists a, c = Ok a /\ k a = Ok r.
Proof. destruct c as [a|e]; cbn; [eauto|discriminate]. Qed.

Ltac inv_bind H :=
  repeat match type of H with
  | bind ?c ?k = Ok _ =>
      let a := fresh "a" in let Ha := fresh "Ha" in
      apply bind_Ok in H as (a & Ha & H)
  end.







Lemma factory_checksum b msg pl c p :
  Message_factory_dispatch b = Ok (msg, pl) ->
  index b (8 + pl) = Ok c ->
  payload_of msg = Ok p ->
  Message_factory b =
  if c =? sum p mod 256 then Ok msg else Raise (ChecksumMismatch c (sum p mod 256)).
Proof.
  intros Hd Hc Hp. unfold Message_factory. rewrite Hd. cbn [bind]. rewrite Hc. cbn [bind].
  unfold set_checksum, Message_checksum. rewrite Hp. cbn [bind].
  destruct (c =? sum p mod 256); reflexivity.
Qed.


(** *** The byte that [Message.factory] takes for the checksum *)






(** *** Where the checksum error can come from *)





Lemma byte1_raises x e : byte1 x = Raise e -> e = ValueError.
Proof. unfold byte1. destruct (_ && _); [discriminate|]. now intros [= <-]. Qed.

Lemma bytes_of_raises xs e : bytes_of xs = Raise e -> e = ValueError.
Proof.
  induction xs as [|x xs IH]; cbn [bytes_of]; [discriminate|].
  destruct (byte1 x) eqn:E; cbn [bind].
  - destruct (bytes_of xs); cbn [bind]; [discriminate|]. intros [= <-]. now apply IH.
  - intros [= <-]. now apply byte1_raises in E.
Qed.












(** ** Parsing an encoded message

    [Message.factory] is followed through the frame that [Message.__bytes__]
    builds: the header and the dispatch of [Message.factory], then the
    factories of the three families, then the leaf classes one by one. *)


Lemma stuffed_high s a : 0 <= a < 16 -> Z.shiftr (Z.lor (Z.shiftl s 4) a) 4 = s.
Proof.
  intros Ha. rewrite Z.shiftr_lor, Z.shiftr_shiftl_l by lia.
  replace (4 - 4) with 0 by lia. rewrite Z.shiftl_0_r.
  rewrite (Z.shiftr_div_pow2 a) by lia. rewrite Z.div_small by (cbn; lia).
  apply Z.lor_0_r.
Qed.


Lemma added_high s a : 0 <= a < 16 -> Z.shiftr (Z.shiftl s 4 + a) 4 = s.
Proof.
  intros Ha. rewrite Z.shiftr_div_pow2, Z.shiftl_mul_pow2 by lia.
  change (2 ^ 4) with 16. rewrite Z.add_comm, Z.div_add by lia.
  rewrite Z.div_small by lia. reflexivity.
Qed.



(** strings *)
Lemma chrs_ords s : chrs (ords s) = s.
Proof. induction s as [|a s IH]; cbn; [reflexivity|]. now rewrite chr_ord, IH. Qed.


Lemma encode_ascii_Ok s l : encode_ascii s = Ok l ->
  l = ords s /\ decode_ascii l = Ok s.
Proof.
  unfold encode_ascii, decode_ascii.
  destruct (forallb _ (ords s)) eqn:E; [|discriminate].
  intros [= <-]. rewrite E, chrs_ords. auto.
Qed.

Lemma firstn_app_exact {A} (l r : list A) : firstn (List.length l) (l ++ r) = l.
Proof. rewrite firstn_app, Nat.sub_diag, firstn_all. cbn. apply app_nil_r. Qed.

Lemma skipn_app_exact {A} (l r : list A) : skipn (List.length l) (l ++ r) = r.
Proof. rewrite skipn_app, Nat.sub_diag, skipn_all. reflexivity. Qed.

(** The dispatch of [Message.factory] on an encoded frame. *)
Lemma dispatch_encoded plc sn p c f pl :
  String.length sn = 5%nat ->
  forallb (fun c => c <? 128) (ords sn) = true ->
  PAYLOAD_LENGTHS plc = Some pl -> pl = List.length p ->
  Message_factory_dispatch ([0xCC; 0x05; plc] ++ ords sn ++ p ++ [c] ++ f) =
  (msg <- first_factory_or
            [ ComponentMessage_factory plc sn p f;
              BaseStationKeypadMessage_factory plc sn p f ] (Message plc sn p f) ;;
   Ok (msg, pl))%py /\
  index ([0xCC; 0x05; plc] ++ ords sn ++ p ++ [c] ++ f) (8 + pl) = Ok c.
Proof.
  intros Hlen Hasc Hpl ->.
  assert (Hdec : decode_ascii (ords sn) = Ok sn).
  { unfold decode_ascii. now rewrite Hasc, chrs_ords. }
  destruct sn as [|a0 [|a1 [|a2 [|a3 [|a4 [|]]]]]]; try discriminate Hlen.
  cbn [ords app] in *.
  split.
  - unfold Message_factory_dispatch.
    assert (E9 : (len (204 :: 5 :: plc :: ord a0 :: ord a1 :: ord a2 :: ord a3 :: ord a4
                        :: p ++ c :: f) <? 9) = false).
    { apply Z.ltb_ge. unfold len. cbn [List.length]. rewrite length_app. cbn [List.length]. lia. }
    rewrite E9. cbn [raise_if bind index nth_error].
    change (Z.shiftl 204 8 + 5 =? VENDOR_CODE) with true. cbn [negb raise_if bind].
    rewrite Hpl. cbn [bind].
    change (slice (204 :: 5 :: plc :: ord a0 :: ord a1 :: ord a2 :: ord a3 :: ord a4
                        :: p ++ c :: f) 3 8)
      with [ord a0; ord a1; ord a2; ord a3; ord a4].
    rewrite Hdec. cbn [bind].
    change (slice (204 :: 5 :: plc :: ord a0 :: ord a1 :: ord a2 :: ord a3 :: ord a4
                        :: p ++ c :: f) 8 (8 + List.length p))
      with (firstn (8 + List.length p - 8) (p ++ c :: f)).
    replace (8 + List.length p - 8)%nat with (List.length p) by lia.
    rewrite firstn_app_exact.
    change (slice_from (204 :: 5 :: plc :: ord a0 :: ord a1 :: ord a2 :: ord a3 :: ord a4
                        :: p ++ c :: f) (8 + List.length p + 1))
      with (skipn (List.length p + 1) (p ++ c :: f)).
    rewrite (Nat.add_comm (List.length p) 1), <- skipn_skipn, skipn_app_exact. cbn [skipn].
    reflexivity.
  - unfold index. change (nth_error _ (8 + List.length p)) with (nth_error (p ++ c :: f) (List.length p)).
    rewrite nth_error_app2 by lia. rewrite Nat.sub_diag. reflexivity.
Qed.

Lemma byte1_Ok x l : byte1 x = Ok l -> l = [x].
Proof. unfold byte1. destruct (_ && _); [|discriminate]. now intros [= <-]. Qed.



Lemma index_last_snoc {A} (l : list A) a : index_last (l ++ [a]) = Ok a.
Proof. unfold index_last. rewrite rev_app_distr. reflexivity. Qed.






Lemma raise_if_error c e : is_ValueError e = true -> raises_ValueError (raise_if c e).
Proof. destruct c; cbn; auto. Qed.

Lemma Message_init_error sn : raises_ValueError (Message_init sn).
Proof. apply raise_if_error. reflexivity. Qed.












(** ** More on the serial-number formats *)

Section SerialNumberFacts.

Import SerialNumberFormat.

Ltac andb_hyps H :=
  repeat match type of H with
  | (_ && _ = true) => let H1 := fresh H in apply andb_true_iff in H as [H H1]
  end.

(** The packing looks at the low six bits of a code only. *)
Lemma code_split_any c :
  In (Z.land c 0x30) high_values /\ In (Z.land c 0xF) nibble_values /\
  Z.lor (Z.land c 0x30) (Z.land c 0xF) = Z.land c 0x3F.
Proof.
  assert (R : 0 <= Z.land c 0x3F < 64).
  { change 0x3F with (Z.ones 6). rewrite Z.land_ones by lia.
    apply Z.mod_pos_bound. reflexivity. }
  destruct (code_split _ R) as (H1 & H2 & H3).
  assert (A48 : Z.land (Z.land c 0x3F) 0x30 = Z.land c 0x30)
    by (rewrite <- Z.land_assoc; reflexivity).
  assert (A15 : Z.land (Z.land c 0x3F) 0xF = Z.land c 0xF)
    by (rewrite <- Z.land_assoc; reflexivity).
  rewrite A48, A15 in H3. rewrite A48 in H1. rewrite A15 in H2.
  repeat split; assumption.
Qed.

Lemma ascii_pack_unpack_any s hb lb :
  exists x0 x1 x2 x3,
    pack ASCII_4B5C s hb lb = Ok [x0; x1; x2; x3] /\
    is_byte x0 = true /\ is_byte x1 = true /\ is_byte x2 = true /\ is_byte x3 = true /\
    unpack ASCII_4B5C [x0; x1; x2; x3] =
    Ok (Triple (until_blank (map (fun i => Z.land (code_at s i) 0x3F) [0;1;2;3;4]%nat)) hb lb).
Proof.
  destruct (code_split_any (code_at s 0)) as (Hh0 & Hl0 & E0).
  destruct (code_split_any (code_at s 1)) as (Hh1 & Hl1 & E1).
  destruct (code_split_any (code_at s 2)) as (Hh2 & Hl2 & E2).
  destruct (code_split_any (code_at s 3)) as (Hh3 & Hl3 & E3).
  destruct (code_split_any (code_at s 4)) as (Hh4 & Hl4 & E4).
  destruct (int_of_bool_flag hb) as (Fhb & Ehb).
  destruct (int_of_bool_flag lb) as (Flb & Elb).
  set (c0 := code_at s 0) in *. set (c1 := code_at s 1) in *.
  set (c2 := code_at s 2) in *. set (c3 := code_at s 3) in *.
  set (c4 := code_at s 4) in *.
  pose proof unpack_bits_01 as A.
  rewrite forallb_forall in A. specialize (A _ Hh0).
  rewrite forallb_forall in A. specialize (A _ Hh1).
  rewrite forallb_forall in A. specialize (A _ Hl0).
  rewrite forallb_forall in A. specialize (A _ Hl1).
  rewrite forallb_forall in A. specialize (A _ Hl4).
  cbv zeta in A. andb_hyps A.
  pose proof unpack_bits_23 as B.
  rewrite forallb_forall in B. specialize (B _ Fhb).
  rewrite forallb_forall in B. specialize (B _ Flb).
  rewrite forallb_forall in B. specialize (B _ Hh2).
  rewrite forallb_forall in B. specialize (B _ Hh3).
  rewrite forallb_forall in B. specialize (B _ Hh4).
  rewrite forallb_forall in B. specialize (B _ Hl2).
  rewrite forallb_forall in B. specialize (B _ Hl3).
  cbv zeta in B. andb_hyps B.
  pose proof unpack_bits_4 as C.
  rewrite forallb_forall in C. specialize (C _ Fhb).
  rewrite forallb_forall in C. specialize (C _ Flb).
  rewrite forallb_forall in C. specialize (C _ Hh0).
  rewrite forallb_forall in C. specialize (C _ Hh1).
  rewrite forallb_forall in C. specialize (C _ Hh2).
  rewrite forallb_forall in C. specialize (C _ Hh3).
  rewrite forallb_forall in C. specialize (C _ Hh4).
  rewrite forallb_forall in C. specialize (C _ Hl4).
  cbv zeta in C.
  exists (packed0 (Z.land c0 15) (Z.land c1 15)),
         (packed1 (Z.land c2 15) (Z.land c3 15)),
         (packed2 (Z.land c0 48) (Z.land c1 48) (Z.land c4 15)),
         (packed3 (int_of_bool hb) (int_of_bool lb)
                  (Z.land c2 48) (Z.land c3 48) (Z.land c4 48)).
  split; [|split; [exact A|split; [exact B|split; [exact A2|split; [exact B4|]]]]].
  - unfold pack. fold c0 c1 c2 c3 c4.
    change (Z.lor (Z.shiftl (Z.land c1 15) 4) (Z.land c0 15))
      with (packed0 (Z.land c0 15) (Z.land c1 15)).
    change (Z.lor (Z.shiftl (Z.land c3 15) 4) (Z.land c2 15))
      with (packed1 (Z.land c2 15) (Z.land c3 15)).
    change (Z.lor (Z.lor (Z.shiftl (Z.land c1 48) 2) (Z.shiftl (Z.land c0 48) 0)) (Z.land c4 15))
      with (packed2 (Z.land c0 48) (Z.land c1 48) (Z.land c4 15)).
    match goal with |- context [byte1 (Z.lor ?a ?b)] =>
      change (Z.lor a b) with (packed3 (int_of_bool hb) (int_of_bool lb)
                                 (Z.land c2 48) (Z.land c3 48) (Z.land c4 48)) end.
    rewrite (byte1_ok _ A), (byte1_ok _ B), (byte1_ok _ A2), (byte1_ok _ B4).
    reflexivity.
  - unfold unpack.
    cbn [len List.length Z.of_nat Pos.of_succ_nat Pos.succ Z.ltb Z.compare Pos.compare
         Pos.compare_cont raise_if bind index nth_error map].
    apply Z.eqb_eq in A1, A0, B3, B2, C.
    rewrite A1, A0, B3, B2, C, E0, E1, E2, E3, E4.
    apply eqb_prop in B1, B0. rewrite B1, B0, Ehb, Elb.
    reflexivity.
Qed.

Lemma until_blank_length b : (String.length (until_blank b) <= List.length b)%nat.
Proof.
  induction b as [|c b IH]; cbn; [lia|]. destruct (c =? 63); cbn; lia.
Qed.

(** X1.  [SerialNumberFormat.pack] with [ASCII_4B5C] never raises: for every
    string and every pair of flags it returns exactly four bytes, and
    [unpack] of these bytes returns the two flags unchanged, with a string of
    at most five characters. *)
Theorem pack_ascii_any_string :
  forall (s : string) (hb lb : bool),
    exists x0 x1 x2 x3 s',
      pack ASCII_4B5C s hb lb = Ok [x0; x1; x2; x3] /\
      Forall (fun x => 0 <= x < 256) [x0; x1; x2; x3] /\
      pack_unpack ASCII_4B5C s hb lb = Ok (Triple s' hb lb) /\
      (String.length s' <= 5)%nat.
Proof.
  intros s hb lb.
  destruct (ascii_pack_unpack_any s hb lb) as (x0 & x1 & x2 & x3 & Hp & B0 & B1 & B2 & B3 & Hu).
  exists x0, x1, x2, x3. eexists. split; [exact Hp|]. split; [|split].
  - unfold is_byte in B0, B1, B2, B3.
    apply andb_true_iff in B0 as [? ?], B1 as [? ?], B2 as [? ?], B3 as [? ?].
    repeat constructor; lia.
  - unfold pack_unpack. rewrite Hp. cbn [bind]. exact Hu.
  - etransitivity; [apply until_blank_length|]. cbn. lia.
Qed.

(** The first five characters of a string (the string itself when it is
    shorter). *)
Lemma until_blank_codes s :
  string_forallb is_sn_char s = true ->
  until_blank (map (fun i => Z.land (code_at s i) 0x3F) [0;1;2;3;4]%nat) = substring 0 5 s.
Proof.
  assert (K : forall a, is_sn_char a = true ->
            (Z.land (ord a - 48) 63 =? 63) = false /\ chr (Z.land (ord a - 48) 63 + 48) = a).
  { intros a Ha. destruct (sn_char_code a Ha) as (R & N & C).
    change 63 with (Z.ones 6). rewrite Z.land_ones by lia.
    rewrite Z.mod_small by (change (2 ^ 6) with 64; lia).
    change (Z.ones 6) with 63. auto. }
  intros H. cbn [map].
  destruct s as [|a0 s]; [reflexivity|].
  cbn [string_forallb] in H. apply andb_true_iff in H as [H0 H].
  destruct (K _ H0) as (N0 & C0).
  cbn [code_at string_get until_blank substring]. rewrite N0, C0. f_equal.
  destruct s as [|a1 s]; [reflexivity|].
  cbn [string_forallb] in H. apply andb_true_iff in H as [H1 H].
  destruct (K _ H1) as (N1 & C1).
  cbn [code_at string_get until_blank substring]. rewrite N1, C1. f_equal.
  destruct s as [|a2 s]; [reflexivity|].
  cbn [string_forallb] in H. apply andb_true_iff in H as [H2 H].
  destruct (K _ H2) as (N2 & C2).
  cbn [code_at string_get until_blank substring]. rewrite N2, C2. f_equal.
  destruct s as [|a3 s]; [reflexivity|].
  cbn [string_forallb] in H. apply andb_true_iff in H as [H3 H].
  destruct (K _ H3) as (N3 & C3).
  cbn [code_at string_get until_blank substring]. rewrite N3, C3. f_equal.
  destruct s as [|a4 s]; [reflexivity|].
  cbn [string_forallb] in H. apply andb_true_iff in H as [H4 H].
  destruct (K _ H4) as (N4 & C4).
  cbn [code_at string_get until_blank substring]. rewrite N4, C4. f_equal.
  destruct s; reflexivity.
Qed.

(** X2.  For a string of characters in the range 0x30..0x6E of any length,
    unpacking the ASCII_4B5C packing returns the first five characters (the
    whole string when it has at most five) and the flags: shorter strings
    are padded with blanks that [unpack] drops again, and characters after
    the fifth are ignored. *)
Theorem pack_ascii_pads_and_truncates :
  forall (s : string) (hb lb : bool),
    string_forallb is_sn_char s = true ->
    pack_unpack ASCII_4B5C s hb lb = Ok (Triple (substring 0 5 s) hb lb).
Proof.
  intros s hb lb H.
  destruct (ascii_pack_unpack_any s hb lb) as (x0 & x1 & x2 & x3 & Hp & _ & _ & _ & _ & Hu).
  unfold pack_unpack. rewrite Hp. cbn [bind]. rewrite Hu, (until_blank_codes s H).
  reflexivity.
Qed.

Lemma pack_ascii_pads_and_truncates_witness :
  string_forallb is_sn_char "1C3" = true /\
  pack_unpack ASCII_4B5C "1C3" true false = Ok (Triple "1C3" true false).
Proof.
  split; [reflexivity|].
  apply (pack_ascii_pads_and_truncates "1C3" true false). reflexivity.
Defined.

End SerialNumberFacts.












(** *** Base-station messages *)




Lemma pack_hex_length s fb : pack_hex s = Ok fb -> List.length fb = 5%nat.
Proof.
  unfold pack_hex, SerialNumberFormat.pack. intros H. inv_bind H. injection H as <-.
  repeat match goal with H : byte1 _ = Ok _ |- _ => apply byte1_Ok in H; subst end.
  reflexivity.
Qed.






Lemma ComponentMessage_factory_rejects_bs plc sn mt rest f :
  plc <> 0x11 ->
  exists e, ComponentMessage_factory plc sn ([0; mt] ++ rest) f = Raise e /\
            is_ValueError e = true.
Proof.
  intros Hplc. unfold ComponentMessage_factory. cbn [app].
  pose proof (Message_init_error sn) as Hs.
  destruct (Message_init sn) as [[]|e]; cbn [bind]; [|eauto].
  cbn [first_factory]. unfold KeypadMessage_factory. cbn [index nth_error bind].
  change (enum_of OriginType.values 0) with (Ok 0). cbn [bind].
  change (negb (0 =? OriginType.KEYPAD)) with true. cbn [raise_if bind try_ValueError is_ValueError].
  unfold SensorMessage_factory. apply Z.eqb_neq in Hplc. rewrite Hplc.
  cbn. eauto.
Qed.














(** ** The domains of [unpack] and of the hexadecimal packing *)

Section SerialNumberDomains.

Import SerialNumberFormat.

(** X3.  [SerialNumberFormat.unpack] raises [ValueError] on a buffer of fewer
    than four bytes (ASCII_4B5C) or five bytes (HEX_5B6C), and on every
    longer buffer it returns a result: a triple of a string of at most five
    characters and two flags, or a string of six characters. *)
Theorem unpack_buffer_length :
  forall (buffer : list Z),
    ((List.length buffer < 4)%nat -> unpack ASCII_4B5C buffer = Raise ValueError) /\
    ((4 <= List.length buffer)%nat ->
       exists s hb lb, unpack ASCII_4B5C buffer = Ok (Triple s hb lb) /\
                       (String.length s <= 5)%nat) /\
    ((List.length buffer < 5)%nat -> unpack HEX_5B6C buffer = Raise ValueError) /\
    ((5 <= List.length buffer)%nat ->
       exists s, unpack HEX_5B6C buffer = Ok (Hex s) /\ String.length s = 6%nat).
Proof.
  intros buffer. repeat split.
  - intros H. unfold unpack, len.
    replace (Z.of_nat (List.length buffer) <? 4) with true by (symmetry; apply Z.ltb_lt; lia).
    reflexivity.
  - intros H. destruct buffer as [|b0 [|b1 [|b2 [|b3 rest]]]]; cbn [List.length] in H; try lia.
    unfold unpack, len.
    replace (Z.of_nat (List.length (b0 :: b1 :: b2 :: b3 :: rest)) <? 4) with false
      by (symmetry; apply Z.ltb_ge; cbn [List.length]; lia).
    cbn [raise_if bind index nth_error]. do 3 eexists. split; [reflexivity|].
    etransitivity; [apply until_blank_length|]. cbn. lia.
  - intros H. unfold unpack, len.
    replace (Z.of_nat (List.length buffer) <? 5) with true by (symmetry; apply Z.ltb_lt; lia).
    reflexivity.
  - intros H.
    destruct buffer as [|b0 [|b1 [|b2 [|b3 [|b4 rest]]]]]; cbn [List.length] in H; try lia.
    unfold unpack, len.
    replace (Z.of_nat (List.length (b0 :: b1 :: b2 :: b3 :: b4 :: rest)) <? 5) with false
      by (symmetry; apply Z.ltb_ge; cbn [List.length]; lia).
    cbn [raise_if bind index nth_error]. eexists. split; reflexivity.
Qed.

Lemma unpack_buffer_length_witness :
  unpack ASCII_4B5C [0x31; 0x43; 0x33] = Raise ValueError /\
  (exists s hb lb, unpack ASCII_4B5C [0x31; 0x93; 0x19; 0x95] = Ok (Triple s hb lb) /\
                   (String.length s <= 5)%nat) /\
  unpack HEX_5B6C [1; 2; 3; 4] = Raise ValueError /\
  (exists s, unpack HEX_5B6C [1; 2; 3; 4; 5] = Ok (Hex s) /\ String.length s = 6%nat).
Proof.
  split; [|split; [|split]].
  - apply (unpack_buffer_length [0x31; 0x43; 0x33]). cbn. lia.
  - apply (unpack_buffer_length [0x31; 0x93; 0x19; 0x95]). cbn. lia.
  - apply (unpack_buffer_length [1; 2; 3; 4]). cbn. lia.
  - apply (unpack_buffer_length [1; 2; 3; 4; 5]). cbn. lia.
Defined.

Lemma string_get_Ok_length s i c : string_get s i = Ok c -> (i < String.length s)%nat.
Proof.
  revert i. induction s as [|a s IH]; intros i H; [discriminate|].
  destruct i; cbn in *; [lia|]. apply IH in H. lia.
Qed.

Lemma string_get_short s i : (String.length s <= i)%nat -> string_get s i = Raise IndexError.
Proof.
  revert i. induction s as [|a s IH]; intros i H; [reflexivity|].
  destruct i; cbn in *; [lia|]. apply IH. lia.
Qed.

Lemma int16_is_hex c v : int16 c = Ok v -> is_hex_char c = true.
Proof. unfold is_hex_char. now intros ->. Qed.

(** X4.  On strings of 8-bit characters, [SerialNumberFormat.pack] with
    [HEX_5B6C] returns a result exactly for the strings of at least six
    characters whose first six are hexadecimal digits [0-9A-Fa-f], and the
    result has five bytes; characters after the sixth are ignored.  A string
    of fewer than six hexadecimal digits raises [IndexError]. *)
Theorem pack_hex_domain :
  forall (s : string) (hb lb : bool),
    ((exists b, pack HEX_5B6C s hb lb = Ok b) <->
     (6 <= String.length s)%nat /\ string_forallb is_hex_char (substring 0 6 s) = true) /\
    (forall b, pack HEX_5B6C s hb lb = Ok b ->
       List.length b = 5%nat /\ pack HEX_5B6C (substring 0 6 s) hb lb = Ok b) /\
    ((String.length s < 6)%nat -> string_forallb is_hex_char s = true ->
     pack HEX_5B6C s hb lb = Raise IndexError).
Proof.
  intros s hb lb. split; [split|split].
  - intros (b & H). unfold pack in H. inv_bind H.
    pose proof (string_get_Ok_length _ _ _ Ha8) as L.
    destruct s as [|k0 [|k1 [|k2 [|k3 [|k4 [|k5 rest]]]]]]; cbn [String.length] in L; try lia.
    cbn [string_get] in *.
    injection Ha as <-. injection Ha2 as <-. injection Ha5 as <-.
    injection Ha8 as <-. injection Ha10 as <-. injection Ha13 as <-.
    split; [cbn [String.length]; lia|].
    cbn [substring string_forallb].
    rewrite (int16_is_hex _ _ Ha0), (int16_is_hex _ _ Ha3), (int16_is_hex _ _ Ha6),
            (int16_is_hex _ _ Ha9), (int16_is_hex _ _ Ha11), (int16_is_hex _ _ Ha14).
    destruct rest; reflexivity.
  - intros (L & H).
    destruct s as [|k0 [|k1 [|k2 [|k3 [|k4 [|k5 rest]]]]]]; cbn [String.length] in L; try lia.
    assert (H' : string_forallb is_hex_char
                   (String k0 (String k1 (String k2 (String k3 (String k4 (String k5 ""))))))
                 = true) by (destruct rest; exact H).
    cbn [string_forallb] in H'.
    apply andb_true_iff in H' as [G0 H']. apply andb_true_iff in H' as [G1 H'].
    apply andb_true_iff in H' as [G2 H']. apply andb_true_iff in H' as [G3 H'].
    apply andb_true_iff in H' as [G4 H']. apply andb_true_iff in H' as [G5 _].
    destruct (hex_char_value _ G0) as (v0 & I0 & M0 & _).
    destruct (hex_char_value _ G1) as (v1 & I1 & M1 & _).
    destruct (hex_char_value _ G2) as (v2 & I2 & M2 & _).
    destruct (hex_char_value _ G3) as (v3 & I3 & M3 & _).
    destruct (hex_char_value _ G4) as (v4 & I4 & M4 & _).
    destruct (hex_char_value _ G5) as (v5 & I5 & M5 & _).
    destruct (hex_bits_at v0 v0 M0 M0) as (B0 & _).
    destruct (hex_bits_at v1 v1 M1 M1) as (B1 & _).
    destruct (hex_bits_at v2 v2 M2 M2) as (B2 & _).
    destruct (hex_bits_at v4 v4 M4 M4) as (B4 & _).
    destruct (hex_bits_at v3 v5 M3 M5) as (_ & B3 & _).
    unfold pack. cbn [string_get bind].
    rewrite I0, I1, I2, I3, I4, I5. cbn [bind].
    rewrite (byte1_ok _ B0), (byte1_ok _ B1), (byte1_ok _ B2), (byte1_ok _ B3),
            (byte1_ok _ B4).
    cbn [bind]. eexists. reflexivity.
  - intros b H. split.
    + apply (pack_hex_length s b).
      unfold pack_hex. unfold pack in H |- *. exact H.
    + pose proof H as H0. unfold pack in H0. inv_bind H0.
      pose proof (string_get_Ok_length _ _ _ Ha8) as L.
      destruct s as [|k0 [|k1 [|k2 [|k3 [|k4 [|k5 rest]]]]]]; cbn [String.length] in L; try lia.
      rewrite <- H. destruct rest; reflexivity.
  - intros L H.
    destruct s as [|k0 [|k1 [|k2 [|k3 [|k4 [|k5 rest]]]]]];
      cbn [String.length] in L; try lia; cbn [string_forallb] in H;
      repeat match type of H with
             | (_ && _ = true) => let G := fresh "G" in apply andb_true_iff in H as [G H]
             end;
      unfold pack; cbn [string_get bind];
      repeat match goal with
             | Hc : is_hex_char ?a = true |- _ =>
                 let v := fresh "v" in let I := fresh "I" in let M := fresh "M" in
                 destruct (hex_char_value _ Hc) as (v & I & M & _); clear Hc;
                 destruct (hex_bits_at v v M M) as (?B & _)
             end;
      repeat match goal with
             | I : int16 _ = Ok _ |- _ => rewrite I; clear I
             end;
      cbn [bind];
      repeat match goal with
             | B : is_byte _ = true |- _ => rewrite (byte1_ok _ B); clear B
             end;
      reflexivity.
Qed.

Lemma pack_hex_domain_witness :
  (exists b, pack HEX_5B6C "12ab5f" false false = Ok b) /\
  pack HEX_5B6C "12ab5" false false = Raise IndexError.
Proof.
  destruct (pack_hex_domain "12ab5f" false false) as ((_ & H) & _).
  destruct (pack_hex_domain "12ab5" false false) as (_ & _ & E).
  split; [apply H|apply E]; repeat split; cbn; lia.
Defined.

End SerialNumberDomains.

(** ** More on messages *)

(** X5.  [Message.factory] raises [InvalidMessageBytesError] on every byte
    string of fewer than nine bytes, on every longer one whose first two
    bytes are not the vendor code 0xCC05, and on every one whose third byte
    is not a payload length code. *)
Theorem factory_rejects_bad_header :
  forall (b : list Z),
    ((List.length b < 9)%nat -> Message_factory b = Raise InvalidMessageBytesError) /\
    (forall b0 b1 rest, b = b0 :: b1 :: rest -> (9 <= List.length b)%nat ->
       Z.shiftl b0 8 + b1 <> VENDOR_CODE ->
       Message_factory b = Raise InvalidMessageBytesError) /\
    (forall b0 b1 plc rest, b = b0 :: b1 :: plc :: rest -> (9 <= List.length b)%nat ->
       PAYLOAD_LENGTHS plc = None ->
       Message_factory b = Raise InvalidMessageBytesError).
Proof.
  intros b. split; [|split].
  - intros H. unfold Message_factory, Message_factory_dispatch, len.
    replace (Z.of_nat (List.length b) <? 9) with true by (symmetry; apply Z.ltb_lt; lia).
    reflexivity.
  - intros b0 b1 rest -> H Hvc. unfold Message_factory, Message_factory_dispatch, len.
    replace (Z.of_nat (List.length (b0 :: b1 :: rest)) <? 9) with false
      by (symmetry; apply Z.ltb_ge; lia).
    cbn [raise_if bind index nth_error].
    apply Z.eqb_neq in Hvc. rewrite Hvc. reflexivity.
  - intros b0 b1 plc rest -> H Hplc. unfold Message_factory, Message_factory_dispatch, len.
    replace (Z.of_nat (List.length (b0 :: b1 :: plc :: rest)) <? 9) with false
      by (symmetry; apply Z.ltb_ge; lia).
    cbn [raise_if bind index nth_error].
    destruct (negb (Z.shiftl b0 8 + b1 =? VENDOR_CODE)); [reflexivity|].
    cbn [raise_if bind]. rewrite Hplc. reflexivity.
Qed.

Lemma factory_rejects_bad_header_witness :
  Message_factory [0xCC; 0x05; 0x22; 0x31; 0x36; 0x37; 0x4A; 0x43] =
    Raise InvalidMessageBytesError /\
  Message_factory [0xCC; 0x06; 0x22; 0x31; 0x36; 0x37; 0x4A; 0x43; 0x01; 0x04; 0x53; 0x58] =
    Raise InvalidMessageBytesError /\
  Message_factory [0xCC; 0x05; 0x44; 0x31; 0x36; 0x37; 0x4A; 0x43; 0x01; 0x04; 0x53; 0x58] =
    Raise InvalidMessageBytesError.
Proof.
  split; [|split].
  - apply (factory_rejects_bad_header [0xCC; 0x05; 0x22; 0x31; 0x36; 0x37; 0x4A; 0x43]).
    cbn. lia.
  - destruct (factory_rejects_bad_header
                [0xCC; 0x06; 0x22; 0x31; 0x36; 0x37; 0x4A; 0x43; 0x01; 0x04; 0x53; 0x58])
      as (_ & H & _).
    eapply H; [reflexivity|cbn; lia|vm_compute; discriminate].
  - destruct (factory_rejects_bad_header
                [0xCC; 0x05; 0x44; 0x31; 0x36; 0x37; 0x4A; 0x43; 0x01; 0x04; 0x53; 0x58])
      as (_ & _ & H).
    eapply H; [reflexivity|cbn; lia|reflexivity].
Defined.

(** The origin types are below 16, so a byte whose low nibble is no origin
    type is no origin type itself. *)
Lemma origin_low_nibble p0 :
  existsb (Z.eqb (Z.land p0 0xF)) OriginType.values = false ->
  existsb (Z.eqb p0) OriginType.values = false.
Proof.
  intros H. destruct (existsb (Z.eqb p0) OriginType.values) eqn:E; [|reflexivity].
  apply existsb_exists in E as (x & Hx & Ex). apply Z.eqb_eq in Ex. subst x.
  assert (Z.land p0 0xF = p0).
  { cbn in Hx. destruct Hx as [<-|[<-|[<-|[<-|[<-|[]]]]]]; reflexivity. }
  rewrite H0 in H.
  assert (existsb (Z.eqb p0) OriginType.values = true)
    by (apply existsb_exists; exists p0; split; [exact Hx|apply Z.eqb_refl]).
  congruence.
Qed.

(** X6.  A frame with a valid header whose first payload byte has a low
    nibble that is no origin type is not an error for [Message.factory]: the
    factories of all subclasses raise [ValueError], which the loop over the
    subclasses swallows, and the result is the plain [Message] with the
    payload and footer as received, provided the checksum byte is the sum of
    the payload modulo 256; otherwise the checksum error is raised. *)
Theorem factory_unknown_origin :
  forall (plc : Z) (sn : string) (p0 : Z) (rest : list Z) (c : Z) (f : list Z),
    String.length sn = 5%nat ->
    forallb (fun x => x <? 128) (ords sn) = true ->
    PAYLOAD_LENGTHS plc = Some (List.length (p0 :: rest)) ->
    existsb (Z.eqb (Z.land p0 0xF)) OriginType.values = false ->
    Message_factory ([0xCC; 0x05; plc] ++ ords sn ++ (p0 :: rest) ++ [c] ++ f) =
    if c =? sum (p0 :: rest) mod 256 then Ok (Message plc sn (p0 :: rest) f)
    else Raise (ChecksumMismatch c (sum (p0 :: rest) mod 256)).
Proof.
  intros plc sn p0 rest c f Hlen Hasc Hpl Hlow.
  pose proof (origin_low_nibble p0 Hlow) as Hp0.
  destruct (dispatch_encoded plc sn (p0 :: rest) c f (List.length (p0 :: rest))
              Hlen Hasc Hpl eq_refl) as (Hd & Hi).
  assert (Hsn : Message_init sn = Ok tt).
  { unfold Message_init. rewrite Hlen. reflexivity. }
  assert (Hc : ComponentMessage_factory plc sn (p0 :: rest) f = Raise ValueError).
  { unfold ComponentMessage_factory. rewrite Hsn. cbn [bind first_factory].
    unfold KeypadMessage_factory. cbn [index nth_error bind].
    unfold enum_of at 1. rewrite Hp0. cbn [bind try_ValueError is_ValueError].
    unfold SensorMessage_factory.
    destruct (negb (plc =? 17)); cbn [raise_if bind try_ValueError is_ValueError];
      [reflexivity|].
    cbn [index nth_error bind]. unfold enum_of at 1. rewrite Hlow. reflexivity. }
  assert (Hb : BaseStationKeypadMessage_factory plc sn (p0 :: rest) f = Raise ValueError).
  { unfold BaseStationKeypadMessage_factory. cbn [index nth_error bind].
    unfold enum_of at 1. rewrite Hp0. reflexivity. }
  cbn [first_factory_or fold_right] in Hd. rewrite Hc, Hb in Hd.
  cbn [try_ValueError is_ValueError bind] in Hd.
  apply (factory_checksum _ _ _ _ _ Hd Hi). reflexivity.
Qed.

Lemma factory_unknown_origin_witness :
  Message_factory [0xCC; 0x05; 0x22; 0x31; 0x36; 0x37; 0x4A; 0x43; 0x03; 0x00; 0x00; 0x03] =
  Ok (Message 0x22 "167JC" [0x03; 0x00; 0x00] []).
Proof.
  apply (factory_unknown_origin 0x22 "167JC" 0x03 [0x00; 0x00] 0x03 []); reflexivity.
Defined.

Lemma stuffed_range s a :
  0 <= a < 16 -> 0 <= Z.lor (Z.shiftl s 4) a < 256 -> 0 <= s <= 15.
Proof.
  intros Ha H. rewrite <- (stuffed_high s a Ha). rewrite Z.shiftr_div_pow2 by lia.
  change (2 ^ 4) with 16. split.
  - apply Z.div_pos; lia.
  - assert (Z.lor (Z.shiftl s 4) a / 16 < 16) by (apply Z.div_lt_upper_bound; lia). lia.
Qed.

Lemma added_range s a :
  0 <= a < 16 -> 0 <= Z.shiftl s 4 + a < 256 -> 0 <= s <= 15.
Proof.
  intros Ha H. rewrite <- (added_high s a Ha). rewrite Z.shiftr_div_pow2 by lia.
  change (2 ^ 4) with 16. split.
  - apply Z.div_pos; lia.
  - assert ((Z.shiftl s 4 + a) / 16 < 16) by (apply Z.div_lt_upper_bound; lia). lia.
Qed.

Lemma byte1_range x l : byte1 x = Ok l -> 0 <= x < 256.
Proof.
  unfold byte1. destruct (0 <=? x) eqn:E1; [|discriminate].
  destruct (x <? 256) eqn:E2; [|discriminate]. intros _.
  apply Z.leb_le in E1. apply Z.ltb_lt in E2. lia.
Qed.

Lemma Message_init_Ok sn : Message_init sn = Ok tt -> String.length sn = 5%nat.
Proof.
  unfold Message_init. destruct (String.length sn =? 5)%nat eqn:E; [|discriminate].
  intros _. now apply Nat.eqb_eq.
Qed.

Lemma construct_Ok_fields v :
  family_of v <> FBase -> construct v = Ok v ->
  String.length (sn_of v) = 5%nat /\ 0 <= sequence_of v <= 15.
Proof.
  intros Hfam Hc. unfold construct in Hc.
  destruct (init_checks v) as [[]|]; [|discriminate]. cbn [bind] in Hc.
  destruct (family_of v) eqn:F; [congruence| | |].
  - unfold KeypadMessage_init in Hc.
    destruct (payload_body_of v) as [body|]; [|discriminate]. cbn [bind] in Hc.
    destruct (KeypadMessage_payload _ _ (Ok body)) as [p|] eqn:Hp; [|discriminate].
    cbn [bind] in Hc.
    destruct (Message_init (sn_of v)) as [[]|] eqn:Hs; [|discriminate].
    split; [now apply Message_init_Ok|].
    unfold KeypadMessage_payload in Hp. cbn [bytes_of bind] in Hp.
    destruct (byte1 OriginType.KEYPAD); [|discriminate]. cbn [bind] in Hp.
    destruct (byte1 (Z.lor (Z.shiftl (sequence_of v) 4) 4)) eqn:Hb; [|discriminate].
    apply byte1_range in Hb. apply (stuffed_range _ 4); lia.
  - unfold BaseStationKeypadMessage_init in Hc.
    destruct (payload_body_of v) as [body|]; [|discriminate]. cbn [bind] in Hc.
    destruct (footer_body_of v) as [fb|]; [|discriminate]. cbn [bind] in Hc.
    destruct (BaseStationKeypadMessage_payload _ _ (Ok body)); [|discriminate].
    cbn [bind] in Hc.
    destruct (BaseStationKeypadMessage_footer _ _ (Ok fb)) as [f|] eqn:Hf; [|discriminate].
    cbn [bind] in Hc.
    destruct (Message_init (sn_of v)) as [[]|] eqn:Hs; [|discriminate].
    split; [now apply Message_init_Ok|].
    unfold BaseStationKeypadMessage_footer in Hf. cbn [bind] in Hf.
    destruct (byte1 (Z.lor (Z.shiftl (sequence_of v) 4) (info_type_of v))) eqn:Hb;
      [|discriminate].
    apply byte1_range in Hb. apply (stuffed_range _ (info_type_of v)); [|exact Hb].
    destruct v; cbv; split; congruence.
  - unfold SensorMessage_init in Hc.
    destruct (SensorMessage_payload _ _ _) as [p|] eqn:Hp; [|discriminate].
    cbn [bind] in Hc.
    destruct (Message_init (sn_of v)) as [[]|] eqn:Hs; [|discriminate].
    split; [now apply Message_init_Ok|].
    unfold SensorMessage_payload in Hp. cbv zeta in Hp. cbn [bytes_of bind] in Hp.
    destruct (byte1 (Z.shiftl (sequence_of v) 4 + sensor_origin_of v)) eqn:Hb; [|discriminate].
    apply byte1_range in Hb. apply (added_range _ (sensor_origin_of v)); [|exact Hb].
    destruct v; cbv; split; congruence.
Qed.

(** X7.  Every message object of a leaf class that a constructor returns has
    a serial number of exactly five characters and a sequence number in
    0..15: the constructors evaluate the payload (and the footer), which put
    the sequence number into the high nibble of a byte. *)
Theorem constructed_message_fields :
  forall (v : message),
    family_of v <> FBase ->
    construct v = Ok v ->
    String.length (sn_of v) = 5%nat /\ 0 <= sequence_of v <= 15.
Proof. intros v Hfam Hc. now apply construct_Ok_fields. Qed.

Lemma constructed_message_fields_witness :
  String.length "1C3J9" = 5%nat /\ 0 <= 1 <= 15.
Proof.
  apply (constructed_message_fields (MotionSensorMessage "1C3J9" 1 MS_MOTION));
    [discriminate|reflexivity].
Defined.

(** X8.  A base-station frame (origin byte 0, a message type and an event
    type that exist, a payload length code other than 0x11) whose footer has
    fewer than six bytes makes [Message.factory] raise [IndexError]: the
    factory of [BaseStationKeypadMessage] reads [footer[5]] before anything
    is checked, and [IndexError] is no [ValueError], so the loop over the
    subclasses does not swallow it. *)
Theorem factory_truncated_footer :
  forall (plc : Z) (sn : string) (mt ev : Z) (body : list Z) (c : Z) (f : list Z),
    String.length sn = 5%nat ->
    forallb (fun x => x <? 128) (ords sn) = true ->
    PAYLOAD_LENGTHS plc = Some (List.length ([0; mt] ++ body ++ [ev])) ->
    plc <> 0x11 ->
    enum_of MessageType.values mt = Ok mt ->
    enum_of EventType.values ev = Ok ev ->
    (List.length f < 6)%nat ->
    Message_factory ([0xCC; 0x05; plc] ++ ords sn ++ ([0; mt] ++ body ++ [ev]) ++ [c] ++ f) =
    Raise IndexError.
Proof.
  intros plc sn mt ev body c f Hlen Hasc Hpl Hplc Hmt Hev Hf.
  destruct (dispatch_encoded plc sn ([0; mt] ++ body ++ [ev]) c f _ Hlen Hasc Hpl eq_refl)
    as (Hd & _).
  destruct (ComponentMessage_factory_rejects_bs plc sn mt (body ++ [ev]) f Hplc)
    as (e & He & Hv).
  assert (Hb : BaseStationKeypadMessage_factory plc sn ([0; mt] ++ body ++ [ev]) f =
               Raise IndexError).
  { unfold BaseStationKeypadMessage_factory. cbn [app index nth_error bind].
    change (enum_of OriginType.values 0) with (Ok 0). cbn [bind].
    change (negb (0 =? OriginType.BASE_STATION)) with false. cbn [raise_if bind].
    rewrite Hmt. cbn [bind].
    change (0 :: mt :: body ++ [ev]) with ((0 :: mt :: body) ++ [ev]).
    rewrite index_last_snoc. cbn [bind]. rewrite Hev. cbn [bind].
    unfold index. destruct (nth_error f 5) eqn:E; [|reflexivity].
    assert (5 < List.length f)%nat by (apply nth_error_Some; congruence). lia. }
  unfold Message_factory. rewrite Hd. cbn [first_factory_or fold_right].
  rewrite He. cbn [try_ValueError]. rewrite Hv, Hb. reflexivity.
Qed.

Lemma factory_truncated_footer_witness :
  Message_factory [0xCC; 0x05; 0x33; 0x31; 0x36; 0x37; 0x4A; 0x43;
                   0x00; 0x01; 0x00; 0x53; 0x54; 0x01; 0x02; 0x03] = Raise IndexError.
Proof.
  apply (factory_truncated_footer 0x33 "167JC" 0x01 0x53 [0x00] 0x54 [0x01; 0x02; 0x03]);
    try reflexivity; [discriminate|cbn; lia].
Defined.

Lemma pin_check_raises pin e : pin_check pin = Raise e -> e = ValueError.
Proof.
  unfold pin_check.
  destruct (String.length pin =? 4)%nat eqn:E; cbn [negb raise_if bind];
    [|now intros [= <-]].
  apply Nat.eqb_eq in E.
  destruct pin as [|c0 [|c1 [|c2 [|c3 [|]]]]]; try discriminate E.
  unfold KeypadPinMessage_payload_body. cbn [string_get bind].
  unfold int10. cbv zeta.
  destruct ((48 <=? ord c1) && (ord c1 <=? 57)); cbn [bind]; [|now intros [= <-]].
  destruct ((48 <=? ord c0) && (ord c0 <=? 57)); cbn [bind]; [|now intros [= <-]].
  destruct ((48 <=? ord c3) && (ord c3 <=? 57)); cbn [bind]; [|now intros [= <-]].
  destruct ((48 <=? ord c2) && (ord c2 <=? 57)); cbn [bind]; [|now intros [= <-]].
  match goal with |- context [bytes_of ?l] => destruct (bytes_of l) eqn:Eb end;
    cbn [bind]; [discriminate|].
  intros [= <-]. now apply bytes_of_raises in Eb.
Qed.

Lemma pin_check_digits pin :
  pin_check pin = Ok tt <->
  String.length pin = 4%nat /\ string_forallb is_digit_char pin = true.
Proof.
  unfold pin_check. split.
  - destruct (String.length pin =? 4)%nat eqn:E; cbn [negb raise_if bind]; [|discriminate].
    apply Nat.eqb_eq in E. intros H. split; [exact E|].
    destruct pin as [|c0 [|c1 [|c2 [|c3 [|]]]]]; try discriminate E.
    unfold KeypadPinMessage_payload_body in H. cbn [string_get bind] in H.
    unfold int10 in H. cbv zeta in H. cbn [string_forallb]. unfold is_digit_char.
    destruct ((48 <=? ord c1) && (ord c1 <=? 57)); [|discriminate H].
    destruct ((48 <=? ord c0) && (ord c0 <=? 57)); [|discriminate H].
    destruct ((48 <=? ord c3) && (ord c3 <=? 57)); [|discriminate H].
    destruct ((48 <=? ord c2) && (ord c2 <=? 57)); [|discriminate H].
    reflexivity.
  - intros (E & H).
    destruct pin as [|c0 [|c1 [|c2 [|c3 [|]]]]]; try discriminate E.
    cbn [String.length Nat.eqb negb raise_if bind].
    cbn [string_forallb] in H. unfold is_digit_char in H.
    apply andb_true_iff in H as [H0 H]. apply andb_true_iff in H as [H1 H].
    apply andb_true_iff in H as [H2 H]. apply andb_true_iff in H as [H3 _].
    unfold KeypadPinMessage_payload_body. cbn [string_get bind].
    unfold int10. cbv zeta. rewrite H0, H1, H2, H3. cbn [bind bytes_of].
    apply andb_true_iff in H0 as [A0 B0], H1 as [A1 B1], H2 as [A2 B2], H3 as [A3 B3].
    apply Z.leb_le in A0, B0, A1, B1, A2, B2, A3, B3.
    assert (R1 : is_byte (Z.shiftl (ord c1 - 48) 4 + (ord c0 - 48)) = true).
    { unfold is_byte. rewrite Z.shiftl_mul_pow2 by lia. change (2 ^ 4) with 16.
      apply andb_true_iff. split; [apply Z.leb_le|apply Z.ltb_lt]; lia. }
    assert (R3 : is_byte (Z.shiftl (ord c3 - 48) 4 + (ord c2 - 48)) = true).
    { unfold is_byte. rewrite Z.shiftl_mul_pow2 by lia. change (2 ^ 4) with 16.
      apply andb_true_iff. split; [apply Z.leb_le|apply Z.ltb_lt]; lia. }
    unfold is_byte in R1, R3. unfold byte1. rewrite R1, R3. reflexivity.
Qed.

Lemma sequence_byte seq :
  0 <= seq <= 15 -> byte1 (Z.lor (Z.shiftl seq 4) 4) = Ok [Z.lor (Z.shiftl seq 4) 4].
Proof.
  intros H.
  assert (C : seq = 0 \/ seq = 1 \/ seq = 2 \/ seq = 3 \/ seq = 4 \/ seq = 5 \/ seq = 6 \/
              seq = 7 \/ seq = 8 \/ seq = 9 \/ seq = 10 \/ seq = 11 \/ seq = 12 \/
              seq = 13 \/ seq = 14 \/ seq = 15) by lia.
  repeat (destruct C as [->|C]; [reflexivity|]). subst. reflexivity.
Qed.

(** X9.  The constructor of a PIN request ([KeypadDisarmPinRequest],
    [KeypadNewPinRequest], [KeypadMenuPinRequest]) returns an object exactly
    when the serial number has five characters, the sequence number is in
    0..15 and the PIN consists of four decimal digits; a PIN of another
    length, or with a character that is no decimal digit, raises
    [ValueError]. *)
Theorem pin_request_validation :
  forall (c : PinClass) (sn : string) (seq : Z) (pin : string),
    (construct (KeypadPinMessage c sn seq pin) = Ok (KeypadPinMessage c sn seq pin) <->
     String.length sn = 5%nat /\ 0 <= seq <= 15 /\
     String.length pin = 4%nat /\ string_forallb is_digit_char pin = true) /\
    (String.length pin <> 4%nat \/ string_forallb is_digit_char pin = false ->
     construct (KeypadPinMessage c sn seq pin) = Raise ValueError).
Proof.
  intros c sn seq pin. split; [split|].
  - intros H.
    assert (Hf : family_of (KeypadPinMessage c sn seq pin) <> FBase) by discriminate.
    destruct (construct_Ok_fields _ Hf H) as (Hs & Hq).
    cbn [sn_of sequence_of] in Hs, Hq.
    unfold construct in H. cbn [init_checks] in H.
    destruct (pin_check pin) as [[]|] eqn:Hp; [|discriminate H].
    apply pin_check_digits in Hp as (Hl & Hd). auto.
  - intros (Hs & Hq & Hl & Hd).
    pose proof (proj2 (pin_check_digits pin) (conj Hl Hd)) as Hp.
    unfold construct. cbn [init_checks family_of sn_of sequence_of event_type_of
                           payload_body_of].
    rewrite Hp. cbn [bind]. unfold KeypadMessage_init.
    unfold pin_check in Hp. rewrite Hl in Hp. cbn [Nat.eqb negb raise_if bind] in Hp.
    destruct (KeypadPinMessage_payload_body pin) as [body|]; [|discriminate Hp].
    cbn [bind]. unfold KeypadMessage_payload. cbn [bytes_of bind].
    change (byte1 OriginType.KEYPAD) with (Ok [OriginType.KEYPAD]). cbn [bind].
    rewrite (sequence_byte seq Hq). cbn [bind].
    assert (He : exists e, byte1 (PinClass_event_type c) = Ok e)
      by (destruct c; eexists; reflexivity).
    destruct He as (e & ->). cbn [bind].
    unfold Message_init. rewrite Hs. reflexivity.
  - intros H. unfold construct. cbn [init_checks].
    destruct (pin_check pin) as [[]|e] eqn:Hp.
    + apply pin_check_digits in Hp as (Hl & Hd). destruct H; congruence.
    + apply pin_check_raises in Hp. subst e. reflexivity.
Qed.

Lemma pin_request_validation_witness :
  construct (KeypadPinMessage KeypadDisarmPinRequest "167JC" 0 "1234") =
    Ok (KeypadPinMessage KeypadDisarmPinRequest "167JC" 0 "1234") /\
  construct (KeypadPinMessage KeypadDisarmPinRequest "167JC" 0 "12a4") = Raise ValueError.
Proof.
  split.
  - apply (pin_request_validation KeypadDisarmPinRequest "167JC" 0 "1234").
    repeat split; cbn; lia.
  - apply (pin_request_validation KeypadDisarmPinRequest "167JC" 0 "12a4").
    right. reflexivity.
Defined.

(** ** More on [Transceiver.decode] *)

Lemma count_X_In bits : In "X"%char bits -> (count_X bits =? 0)%nat = false.
Proof.
  intros H. apply Nat.eqb_neq. unfold count_X.
  apply (count_occ_In ascii_dec) in H. lia.
Qed.

(** X10.  [Transceiver.decode] raises [DecodeError] on every bit string that
    holds the symbol ['X'] of an invalid pulse width, wherever it stands. *)
Theorem decode_rejects_invalid_pulse :
  forall (bits : bitstring), In "X"%char bits -> decode bits = Raise DecodeError.
Proof.
  intros bits H. unfold decode. rewrite (count_X_In bits H). reflexivity.
Qed.

Lemma decode_rejects_invalid_pulse_witness :
  decode ["0"; "1"; "X"; "1"]%char = Raise DecodeError.
Proof.
  apply (decode_rejects_invalid_pulse ["0"; "1"; "X"; "1"]%char). cbn. tauto.
Defined.

Lemma is_bit_cases c : is_bit c = true -> c = "0"%char \/ c = "1"%char.
Proof.
  unfold is_bit. destruct (ascii_dec c "0"); [auto|].
  destruct (ascii_dec c "1"); [auto|discriminate].
Qed.

Lemma int2_acc_bits g : forall acc,
  forallb is_bit g = true -> exists n, int2_acc acc g = Ok n.
Proof.
  induction g as [|c g IH]; intros acc H; cbn [int2_acc]; [eauto|].
  cbn [forallb] in H. apply andb_true_iff in H as [Hc Hg].
  destruct (is_bit_cases c Hc) as [-> | ->]; cbn; apply IH; exact Hg.
Qed.

Lemma int2_bits g :
  g <> [] -> forallb is_bit g = true -> exists n, int2 g = Ok n.
Proof.
  intros Hne H. unfold int2. destruct g; [congruence|]. now apply int2_acc_bits.
Qed.

Lemma forallb_firstn {A} (p : A -> bool) n : forall l,
  forallb p l = true -> forallb p (firstn n l) = true.
Proof.
  induction n as [|n IH]; intros l H; [reflexivity|].
  destruct l as [|x l]; [reflexivity|]. cbn in *.
  apply andb_true_iff in H as [-> H]. now apply IH.
Qed.

Lemma forallb_skipn {A} (p : A -> bool) n : forall l,
  forallb p l = true -> forallb p (skipn n l) = true.
Proof.
  induction n as [|n IH]; intros l H; [exact H|].
  destruct l as [|x l]; [reflexivity|]. cbn in *.
  apply andb_true_iff in H as [_ H]. now apply IH.
Qed.

Lemma forallb_rev {A} (p : A -> bool) l : forallb p l = true -> forallb p (rev l) = true.
Proof.
  intros H. apply forallb_forall. intros x Hx. apply in_rev in Hx.
  rewrite forallb_forall in H. now apply H.
Qed.

(** The loop over the groups of four bits returns one digit per group. *)
Lemma nibbles_bits : forall fuel bits,
  forallb is_bit bits = true ->
  exists raw, nibbles fuel bits = Ok raw /\ (4 * List.length raw <= List.length bits + 3)%nat.
Proof.
  induction fuel as [|fuel IH]; intros bits H.
  - exists []. split; [destruct bits; reflexivity|cbn; lia].
  - destruct bits as [|b bits]; [exists []; split; [reflexivity|cbn; lia]|].
    cbn [nibbles].
    destruct (int2_bits (rev (firstn 4 (b :: bits)))) as (n & ->).
    + cbn [firstn rev]. intros E. apply app_eq_nil in E as [_ E]. discriminate.
    + apply forallb_rev, forallb_firstn, H.
    + cbn [bind].
      destruct (IH (skipn 4 (b :: bits)) (forallb_skipn _ _ _ H)) as (raw & -> & L).
      cbn [bind]. eexists. split; [reflexivity|].
      cbn [List.length]. rewrite length_skipn in L. cbn [List.length] in L. lia.
Qed.

Lemma count_X_bits bits : forallb is_bit bits = true -> count_X bits = 0%nat.
Proof.
  intros H. unfold count_X. apply count_occ_not_In. intros Hin.
  rewrite forallb_forall in H. specialize (H _ Hin). discriminate H.
Qed.

(** X11.  [Transceiver.decode] raises [DecodeError] on every string of at
    most 64 symbols ['0'], ['1'] and ['X']: such a string has no seventeenth
    hexadecimal digit, and the [IndexError] of [raw_hex[16]] is turned into
    the [DecodeError] for an invalid origin.  A frame of at most eight
    bytes is therefore never returned. *)
Theorem decode_rejects_short_input :
  forall (bits : bitstring),
    (List.length bits <= 64)%nat ->
    forallb (fun c => is_bit c || if ascii_dec c "X" then true else false) bits = true ->
    decode bits = Raise DecodeError.
Proof.
  intros bits Hlen Hsym. unfold decode.
  destruct (count_X bits =? 0)%nat eqn:E; [|reflexivity].
  cbn [negb raise_if bind]. apply Nat.eqb_eq in E.
  assert (Hb : forallb is_bit bits = true).
  { apply forallb_forall. intros c Hc. rewrite forallb_forall in Hsym.
    specialize (Hsym c Hc). apply orb_true_iff in Hsym as [H|H]; [exact H|].
    destruct (ascii_dec c "X") as [->|]; [|discriminate H].
    unfold count_X in E. apply (count_occ_In ascii_dec) in Hc. lia. }
  destruct (nibbles_bits (List.length bits) bits Hb) as (raw & Hraw & L).
  unfold raw_hex_of. rewrite Hraw. cbn [bind].
  unfold decode_hex, decode_origin, index.
  destruct (nth_error raw 16) eqn:N; [|reflexivity].
  assert (16 < List.length raw)%nat by (apply nth_error_Some; congruence). lia.
Qed.

Lemma decode_rejects_short_input_witness :
  decode (repeat "1"%char 64) = Raise DecodeError.
Proof.
  apply (decode_rejects_short_input (repeat "1"%char 64)); [cbn; lia|reflexivity].
Defined.

(** *** Decoding the data pulses of a frame *)

(** The eight symbols of a byte, as two groups of four bits, least
    significant first: checked over all bytes. *)
Lemma byte_symbols_check :
  forall_below 256 (fun b =>
    match int2 (rev (firstn 4 (symbols (byte_delays b)))),
          int2 (rev (firstn 4 (skipn 4 (symbols (byte_delays b))))) with
    | Ok lo, Ok hi => (lo =? Z.land b 0xF) && (hi =? Z.shiftr b 4) && (16 * hi + lo =? b)
    | _, _ => false
    end && forallb is_bit (symbols (byte_delays b))) = true.
Proof. vm_compute. reflexivity. Qed.

Lemma byte_symbols b :
  0 <= b < 256 ->
  int2 (rev (firstn 4 (symbols (byte_delays b)))) = Ok (Z.land b 0xF) /\
  int2 (rev (firstn 4 (skipn 4 (symbols (byte_delays b))))) = Ok (Z.shiftr b 4) /\
  16 * Z.shiftr b 4 + Z.land b 0xF = b /\
  forallb is_bit (symbols (byte_delays b)) = true.
Proof.
  intros Hb. pose proof (forall_below_spec _ _ byte_symbols_check b Hb) as H.
  cbv beta in H. apply andb_true_iff in H as [H Hbits].
  destruct (int2 (rev (firstn 4 (symbols (byte_delays b))))) as [lo|]; [|discriminate H].
  destruct (int2 (rev (firstn 4 (skipn 4 (symbols (byte_delays b)))))) as [hi|];
    [|discriminate H].
  apply andb_true_iff in H as [H H3]. apply andb_true_iff in H as [H1 H2].
  apply Z.eqb_eq in H1, H2, H3. subst lo hi. auto.
Qed.

Lemma symbols_byte_shape b :
  exists s0 s1 s2 s3 s4 s5 s6 s7,
    symbols (byte_delays b) = [s0; s1; s2; s3; s4; s5; s6; s7].
Proof. unfold symbols, byte_delays. cbn [map]. do 8 eexists. reflexivity. Qed.

Lemma nibbles_byte fuel b rest :
  0 <= b < 256 ->
  nibbles (S (S fuel)) (symbols (byte_delays b) ++ rest) =
  (r <- nibbles fuel rest ;;
   Ok (hex_digit (Z.land b 0xF) :: hex_digit (Z.shiftr b 4) :: r)).
Proof.
  intros Hb. destruct (byte_symbols b Hb) as (Hlo & Hhi & _ & _).
  destruct (symbols_byte_shape b) as (s0 & s1 & s2 & s3 & s4 & s5 & s6 & s7 & E).
  rewrite E in *. cbn [app firstn skipn] in *.
  cbn [nibbles firstn skipn]. rewrite Hlo. cbn [bind]. rewrite Hhi. cbn [bind].
  destruct (nibbles fuel rest); reflexivity.
Qed.

Lemma symbols_data_cons b bs :
  symbols (data_delays (b :: bs)) = symbols (byte_delays b) ++ symbols (data_delays bs).
Proof. unfold symbols, data_delays. cbn [flat_map]. apply map_app. Qed.

Lemma nibbles_data : forall bs fuel rest,
  Forall (fun b => 0 <= b < 256) bs ->
  nibbles (2 * List.length bs + fuel) (symbols (data_delays bs) ++ rest) =
  (r <- nibbles fuel rest ;; Ok (swapped_hex bs ++ r)).
Proof.
  induction bs as [|b bs IH]; intros fuel rest Hf.
  - cbn. destruct (nibbles fuel rest); reflexivity.
  - apply Forall_cons_iff in Hf as [Hb Hf].
    rewrite symbols_data_cons, <- app_assoc.
    replace (2 * List.length (b :: bs) + fuel)%nat
      with (S (S (2 * List.length bs + fuel))) by (cbn [List.length]; lia).
    rewrite (nibbles_byte _ b _ Hb), (IH fuel rest Hf).
    destruct (nibbles fuel rest); reflexivity.
Qed.

Lemma symbols_data_bits bs :
  Forall (fun b => 0 <= b < 256) bs -> forallb is_bit (symbols (data_delays bs)) = true.
Proof.
  induction 1 as [|b bs Hb _ IH]; [reflexivity|].
  rewrite symbols_data_cons, forallb_app, IH.
  destruct (byte_symbols b Hb) as (_ & _ & _ & ->). reflexivity.
Qed.

Lemma symbols_data_length bs : List.length (symbols (data_delays bs)) = (8 * List.length bs)%nat.
Proof.
  induction bs as [|b bs IH]; [reflexivity|].
  rewrite symbols_data_cons, length_app, IH.
  destruct (symbols_byte_shape b) as (s0 & s1 & s2 & s3 & s4 & s5 & s6 & s7 & ->).
  cbn [List.length]. lia.
Qed.

Lemma swapped_hex_length bs : List.length (swapped_hex bs) = (2 * List.length bs)%nat.
Proof.
  induction bs as [|b bs IH]; [reflexivity|].
  cbn [swapped_hex flat_map app List.length] in *.
  unfold swapped_hex in IH. rewrite IH. lia.
Qed.

Lemma nibble_ranges b : 0 <= b < 256 -> 0 <= Z.land b 0xF < 16 /\ 0 <= Z.shiftr b 4 < 16.
Proof.
  intros Hb. split.
  - change 0xF with (Z.ones 4). rewrite Z.land_ones by lia. apply Z.mod_pos_bound. reflexivity.
  - rewrite Z.shiftr_div_pow2 by lia. change (2 ^ 4) with 16. split.
    + apply Z.div_pos; lia.
    + apply Z.div_lt_upper_bound; lia.
Qed.

Lemma swap_nibbles_swapped_hex bs :
  Forall (fun b => 0 <= b < 256) bs -> swap_nibbles (swapped_hex bs) = Ok bs.
Proof.
  induction 1 as [|b bs Hb _ IH]; [reflexivity|].
  cbn [swapped_hex flat_map app]. fold (swapped_hex bs). cbn [swap_nibbles].
  destruct (nibble_ranges b Hb) as (Rl & Rh).
  rewrite (int16_hex_digit _ Rh), (int16_hex_digit _ Rl). cbn [bind].
  destruct (byte_symbols b Hb) as (_ & _ & -> & _).
  rewrite byte1_ok by (unfold is_byte; apply andb_true_iff; split;
                       [apply Z.leb_le|apply Z.ltb_lt]; lia).
  cbn [bind]. rewrite IH. reflexivity.
Qed.

Lemma nibbles_tail fuel tail :
  List.length tail = 8%nat -> forallb is_bit tail = true ->
  exists t1 t2, nibbles (S (S fuel)) tail = Ok [t1; t2].
Proof.
  intros Hl Hb.
  destruct tail as [|c0 [|c1 [|c2 [|c3 [|c4 [|c5 [|c6 [|c7 [|]]]]]]]]]; try discriminate Hl.
  cbn [nibbles firstn skipn].
  destruct (int2_bits (rev [c0; c1; c2; c3])) as (n1 & ->).
  { cbn. discriminate. }
  { apply forallb_rev. apply (forallb_firstn is_bit 4) in Hb. exact Hb. }
  destruct (int2_bits (rev [c4; c5; c6; c7])) as (n2 & ->).
  { cbn. discriminate. }
  { apply forallb_rev. apply (forallb_skipn is_bit 4) in Hb. exact Hb. }
  cbn [bind]. replace (nibbles fuel []) with (@Ok (list ascii) []) by (destruct fuel; reflexivity).
  cbn [bind]. eauto.
Qed.

Lemma raw_hex_of_frame bs tail :
  Forall (fun b => 0 <= b < 256) bs ->
  List.length tail = 8%nat -> forallb is_bit tail = true ->
  exists t1 t2, raw_hex_of (symbols (data_delays bs) ++ tail) = Ok (swapped_hex bs ++ [t1; t2]).
Proof.
  intros Hf Hl Hb. unfold raw_hex_of.
  rewrite length_app, symbols_data_length, Hl.
  replace (8 * List.length bs + 8)%nat
    with (2 * List.length bs + S (S (6 * List.length bs + 6)))%nat by lia.
  rewrite (nibbles_data bs _ tail Hf).
  destruct (nibbles_tail (6 * List.length bs + 6) tail Hl Hb) as (t1 & t2 & ->).
  cbn [bind]. eauto.
Qed.

(** X12.  [Transceiver.decode] inverts the bit order of [send_wave] for a
    base-station frame.  Take the bytes [bs] of a frame of at least nine
    bytes whose ninth byte (the first payload byte) has the low nibble 0, the
    pulse delays [send_wave] emits for them (bit 0 of each byte first, 1000
    microseconds for a 1 and 500 for a 0), the symbols the receiver assigns
    to these delays, and any eight further bits (the end delimiter): the
    result of [decode] is [bs]. *)
Theorem decode_base_station_frame :
  forall (bs : list Z) (tail : bitstring),
    Forall (fun b => 0 <= b < 256) bs ->
    (9 <= List.length bs)%nat ->
    Z.land (nth 8 bs 0) 0xF = 0 ->
    List.length tail = 8%nat ->
    forallb is_bit tail = true ->
    decode (symbols (data_delays bs) ++ tail) = Ok bs.
Proof.
  intros bs tail Hf Hlen Horigin Hl Hb.
  destruct (raw_hex_of_frame bs tail Hf Hl Hb) as (t1 & t2 & Hraw).
  unfold decode.
  assert (HX : count_X (symbols (data_delays bs) ++ tail) = 0%nat).
  { apply count_X_bits. rewrite forallb_app, (symbols_data_bits bs Hf), Hb. reflexivity. }
  rewrite HX. cbn [Nat.eqb negb raise_if bind]. rewrite Hraw. cbn [bind].
  unfold decode_hex.
  assert (Ho : decode_origin (swapped_hex bs ++ [t1; t2]) = Ok DeviceType.BASE_STATION).
  { destruct bs as [|b0 [|b1 [|b2 [|b3 [|b4 [|b5 [|b6 [|b7 [|b8 rest]]]]]]]]];
      cbn [List.length] in Hlen; try lia.
    cbn [nth] in Horigin.
    unfold decode_origin. cbn [swapped_hex flat_map app index nth_error].
    rewrite Horigin. reflexivity. }
  rewrite Ho. cbn [bind].
  change (DeviceType.BASE_STATION =? DeviceType.BASE_STATION) with true. cbv iota.
  assert (Hs : slice_upto (swapped_hex bs ++ [t1; t2]) (-2) = swapped_hex bs).
  { unfold slice_upto. change (-2 <? 0) with true. cbv iota.
    change (Z.to_nat (- -2)) with 2%nat.
    rewrite length_app. cbn [List.length].
    replace (List.length (swapped_hex bs) + 2 - 2)%nat with (List.length (swapped_hex bs)) by lia.
    apply firstn_app_exact. }
  rewrite Hs, swapped_hex_length.
  replace (Z.of_nat (2 * List.length bs) mod 2 =? 1) with false.
  2:{ symmetry. apply Z.eqb_neq. rewrite Nat2Z.inj_mul, Z.mul_comm, Z_mod_mult. discriminate. }
  cbn [raise_if bind]. apply swap_nibbles_swapped_hex. exact Hf.
Qed.

Lemma decode_base_station_frame_witness :
  let bs := [0xCC; 0x05; 0x33; 0x31; 0x36; 0x37; 0x4A; 0x43;
             0x00; 0x01; 0x00; 0x53; 0x54; 0x01; 0x02; 0x03; 0x64; 0x05; 0x02] in
  decode (symbols (data_delays bs) ++ symbols [1000; 1000; 500; 500; 1000; 1000; 1000; 1000])
  = Ok bs.
Proof.
  intros bs. apply (decode_base_station_frame bs); try reflexivity.
  - repeat constructor; lia.
  - cbn. lia.
Defined.

(** ** Receiving a frame *)

Lemma duration_after t0 d : 0 <= d -> duration_us t0 (t0 + d) = d.
Proof.
  intros H. unfold duration_us.
  replace (t0 + d <? t0) with false by (symmetry; apply Z.ltb_ge; lia). lia.
Qed.

(** A tick inside the range of the counter is not wrapped. *)
Lemma tick32_small n : 0 <= n < 2 ^ 32 -> tick32 n = n.
Proof. intros H. unfold tick32. now apply Z.mod_small. Qed.

Lemma sum_nonneg ds : Forall (fun d => 0 <= d) ds -> 0 <= sum ds.
Proof.
  induction 1 as [|d ds Hd _ IH]; unfold sum in *; cbn [fold_right]; lia.
Qed.

(** *** [Transceiver._listen_cbf] *)

Lemma listen_done s es : _rx_done s = true -> listen_edges s es = s.
Proof.
  intros H. unfold listen_edges. induction es as [|e es IH]; [reflexivity|].
  cbn [fold_left]. unfold _listen_cbf at 2. rewrite H. exact IH.
Qed.

Lemma listen_app s es1 es2 :
  listen_edges s (es1 ++ es2) = listen_edges (listen_edges s es1) es2.
Proof. unfold listen_edges. apply fold_left_app. Qed.

Lemma listen_data_step s t0 level d :
  _rx_done s = false -> _rx_t s = Some t0 -> _rx_preamble_high s = true ->
  0 <= d <= 1900 ->
  let s' := _listen_cbf s level (t0 + d) in
  _rx_done s' = false /\ _rx_t s' = Some (t0 + d) /\ _rx_preamble_high s' = true /\
  _rx_buffer s' = _rx_buffer s ++ [symbol_of d].
Proof.
  intros Hd Ht Hp Hr. unfold _listen_cbf. rewrite Hd, Ht, (duration_after t0 d) by lia.
  replace (2100 <? d) with false by (symmetry; apply Z.ltb_ge; lia).
  replace (1900 <? d) with false by (symmetry; apply Z.ltb_ge; lia).
  cbn [_rx_done _rx_t _rx_preamble_high _rx_buffer]. rewrite ?Hd, ?Hp. auto.
Qed.

Lemma listen_data : forall ds s t0 level,
  _rx_done s = false -> _rx_t s = Some t0 -> _rx_preamble_high s = true ->
  Forall (fun d => 0 <= d <= 1900) ds ->
  0 <= t0 -> t0 + sum ds < 2 ^ 32 ->
  let s' := listen_edges s (edges_after t0 level ds) in
  _rx_done s' = false /\ _rx_t s' = Some (t0 + sum ds) /\ _rx_preamble_high s' = true /\
  _rx_buffer s' = _rx_buffer s ++ symbols ds.
Proof.
  induction ds as [|d ds IH]; intros s t0 level Hd Ht Hp Hf H0 Hw.
  - cbn. rewrite Z.add_0_r, app_nil_r. auto.
  - apply Forall_cons_iff in Hf as [Hr Hf].
    assert (Hs : 0 <= sum ds)
      by (apply sum_nonneg; eapply Forall_impl; [|exact Hf]; cbv beta; lia).
    unfold sum in Hw; cbn [fold_right] in Hw; fold (sum ds) in Hw.
    destruct (listen_data_step s t0 level d Hd Ht Hp Hr) as (Hd1 & Ht1 & Hp1 & Hb1).
    cbn [edges_after]. rewrite (tick32_small (t0 + d)) by lia.
    unfold listen_edges. cbn [fold_left fst snd].
    destruct (IH (_listen_cbf s level (t0 + d)) (t0 + d) (1 - level) Hd1 Ht1 Hp1 Hf)
      as (Hd2 & Ht2 & Hp2 & Hb2); [lia|lia|].
    unfold listen_edges in Hd2, Ht2, Hp2, Hb2.
    rewrite Hd2, Ht2, Hp2, Hb2, Hb1. cbn [sum symbols map fold_right].
    repeat split; try reflexivity.
    + f_equal. unfold sum. cbn [fold_right]. lia.
    + rewrite <- app_assoc. reflexivity.
Qed.

Lemma edges_after_app : forall ds1 ds2 tick level,
  Forall (fun d => 0 <= d) ds1 -> 0 <= tick -> tick + sum ds1 < 2 ^ 32 ->
  exists level',
    edges_after tick level (ds1 ++ ds2) =
    edges_after tick level ds1 ++ edges_after (tick + sum ds1) level' ds2.
Proof.
  induction ds1 as [|d ds1 IH]; intros ds2 tick level Hf H0 Hw.
  - exists level. cbn. now rewrite Z.add_0_r.
  - apply Forall_cons_iff in Hf as [Hd Hf].
    pose proof (sum_nonneg ds1 Hf) as Hs.
    unfold sum in Hw; cbn [fold_right] in Hw; fold (sum ds1) in Hw.
    destruct (IH ds2 (tick + d) (1 - level) Hf) as (l' & E); [lia|lia|].
    exists l'. cbn [app edges_after]. rewrite (tick32_small (tick + d)) by lia.
    rewrite E. unfold sum. cbn [fold_right].
    now rewrite Z.add_assoc.
Qed.

(** X13.  [Transceiver._listen_cbf] receives a frame whose edges all fall
    before the 32-bit tick counter wraps around.  From a state that is not
    done, has seen an edge at the tick [t0] and holds four ['1'] symbols in
    its SYNC buffer, a rising edge after a preamble-long low pulse (more than
    1.9 and at most 2.1 ms), a falling edge after a preamble-long high pulse,
    then edges at the distances [ds], each at most 1.9 ms, and an edge after
    a gap of more than 2.1 ms, the last of them at a tick below [2 ^ 32],
    leave the receiver done with exactly the symbols of [ds] in its buffer,
    whatever the buffer held before; every later edge is ignored.  (A frame
    during which the counter wraps is outside this statement: there the
    callback takes its overflow branch.) *)
Theorem listen_cbf_receives_frame :
  forall (s : rx_state) (t0 p1 p2 : Z) (ds : list Z) (g : Z) (level : Z) (more : list edge),
    _rx_done s = false -> _rx_t s = Some t0 -> _rx_sync_buffer s = bits_1111 ->
    1900 < p1 <= 2100 -> 1900 < p2 <= 2100 ->
    Forall (fun d => 0 <= d <= 1900) ds -> 2100 < g ->
    0 <= t0 -> t0 + p1 + p2 + sum ds + g < 2 ^ 32 ->
    let es := (1, t0 + p1) :: (0, t0 + p1 + p2)
              :: edges_after (t0 + p1 + p2) level (ds ++ [g]) ++ more in
    _rx_done (listen_edges s es) = true /\
    _rx_buffer (listen_edges s es) = symbols ds.
Proof.
  intros s t0 p1 p2 ds g level more Hd Ht Hs H1 H2 Hf Hg H0 Hw es. subst es.
  assert (Hf0 : Forall (fun d => 0 <= d) ds)
    by (eapply Forall_impl; [|exact Hf]; cbv beta; lia).
  pose proof (sum_nonneg ds Hf0) as Hsum.
  (* the two preamble edges *)
  set (s1 := _listen_cbf s 1 (t0 + p1)).
  assert (E1 : s1 = mkRx false (_rx_buffer s) (Some (t0 + p1)) true false bits_1111
                         (_rx_start_flag0 s)).
  { subst s1. unfold _listen_cbf. rewrite Hd, Ht, (duration_after t0 p1) by lia.
    replace (2100 <? p1) with false by (symmetry; apply Z.ltb_ge; lia).
    replace (1900 <? p1) with true by (symmetry; apply Z.ltb_lt; lia).
    rewrite Hs. destruct (list_eq_dec ascii_dec bits_1111 bits_1111); [|congruence].
    rewrite ?Hd. reflexivity. }
  set (s2 := _listen_cbf s1 0 (t0 + p1 + p2)).
  assert (E2 : s2 = mkRx false [] (Some (t0 + p1 + p2)) true true bits_1111
                         (_rx_start_flag0 s)).
  { subst s2. rewrite E1. unfold _listen_cbf.
    cbn [_rx_done _rx_t _rx_sync_buffer _rx_preamble_low _rx_start_flag0].
    rewrite (duration_after (t0 + p1) p2) by lia.
    replace (2100 <? p2) with false by (symmetry; apply Z.ltb_ge; lia).
    replace (1900 <? p2) with true by (symmetry; apply Z.ltb_lt; lia).
    destruct (list_eq_dec ascii_dec bits_1111 bits_1111); [|congruence]. reflexivity. }
  unfold listen_edges. cbn [fold_left fst snd]. fold s1. fold s2.
  fold (listen_edges s2 (edges_after (t0 + p1 + p2) level (ds ++ [g]) ++ more)).
  rewrite listen_app.
  destruct (edges_after_app ds [g] (t0 + p1 + p2) level Hf0) as (l' & ->); [lia|lia|].
  rewrite listen_app.
  destruct (listen_data ds s2 (t0 + p1 + p2) level) as (Hd3 & Ht3 & Hp3 & Hb3);
    try (rewrite E2; reflexivity); [exact Hf|lia|lia|].
  set (s3 := listen_edges s2 (edges_after (t0 + p1 + p2) level ds)) in *.
  (* the gap *)
  cbn [edges_after]. rewrite (tick32_small (t0 + p1 + p2 + sum ds + g)) by lia.
  change (listen_edges s3 [(l', t0 + p1 + p2 + sum ds + g)])
    with (_listen_cbf s3 l' (t0 + p1 + p2 + sum ds + g)).
  set (s4 := _listen_cbf s3 l' (t0 + p1 + p2 + sum ds + g)).
  assert (E4 : _rx_done s4 = true /\ _rx_buffer s4 = _rx_buffer s3).
  { subst s4. unfold _listen_cbf. rewrite Hd3, Ht3, duration_after by lia.
    replace (2100 <? g) with true by (symmetry; apply Z.ltb_lt; lia).
    rewrite Hp3. auto. }
  destruct E4 as (Hd4 & Hb4).
  rewrite (listen_done s4 more Hd4). split; [exact Hd4|].
  rewrite Hb4, Hb3, E2. reflexivity.
Qed.

Lemma listen_cbf_receives_frame_witness :
  let s := listen_edges rx_init [(0, 0); (1, 1000); (0, 2000); (1, 3000); (0, 4000)] in
  let es := (1, 4000 + 2000) :: (0, 4000 + 2000 + 2000)
            :: edges_after (4000 + 2000 + 2000) 1 ([500; 1000; 1000; 500] ++ [3000])
               ++ [(0, 20000); (1, 21000)] in
  _rx_done (listen_edges s es) = true /\
  _rx_buffer (listen_edges s es) = ["0"; "1"; "1"; "0"]%char.
Proof.
  intros s es.
  apply (listen_cbf_receives_frame s 4000 2000 2000 [500; 1000; 1000; 500] 3000 1
           [(0, 20000); (1, 21000)]); try reflexivity; try lia.
  repeat constructor; lia.
Defined.

(** *** [RFUtils._recv_cbf] *)

Lemma recv_data_step s t0 level d :
  t s = Some t0 -> skip s = false -> start_flag1 s = true ->
  400 <= d <= 1900 ->
  let s' := _recv_cbf s level (t0 + d) in
  t s' = Some (t0 + d) /\ skip s' = false /\ start_flag1 s' = true /\
  done s' = done s /\ encoded s' = encoded s ++ [symbol_of d].
Proof.
  intros Ht Hk Hf Hr. unfold _recv_cbf. rewrite Ht, Hk, (duration_after t0 d) by lia.
  replace (d <? 400) with false by (symmetry; apply Z.ltb_ge; lia).
  replace (2100 <? d) with false by (symmetry; apply Z.ltb_ge; lia).
  replace (1900 <? d) with false by (symmetry; apply Z.ltb_ge; lia).
  cbn [t skip start_flag1 done encoded]. rewrite ?Hf, ?Hk. auto.
Qed.

Lemma recv_data : forall ds s t0 level,
  t s = Some t0 -> skip s = false -> start_flag1 s = true ->
  Forall (fun d => 400 <= d <= 1900) ds ->
  0 <= t0 -> t0 + sum ds < 2 ^ 32 ->
  let s' := recv_edges s (edges_after t0 level ds) in
  t s' = Some (t0 + sum ds) /\ skip s' = false /\ start_flag1 s' = true /\
  done s' = done s /\ encoded s' = encoded s ++ symbols ds.
Proof.
  induction ds as [|d ds IH]; intros s t0 level Ht Hk Hf Hr H0 Hw.
  - cbn. rewrite Z.add_0_r, app_nil_r. auto.
  - apply Forall_cons_iff in Hr as [Hd Hr].
    assert (Hs : 0 <= sum ds)
      by (apply sum_nonneg; eapply Forall_impl; [|exact Hr]; cbv beta; lia).
    unfold sum in Hw; cbn [fold_right] in Hw; fold (sum ds) in Hw.
    destruct (recv_data_step s t0 level d Ht Hk Hf Hd) as (Ht1 & Hk1 & Hf1 & Hd1 & He1).
    cbn [edges_after]. rewrite (tick32_small (t0 + d)) by lia.
    unfold recv_edges. cbn [fold_left fst snd].
    destruct (IH (_recv_cbf s level (t0 + d)) (t0 + d) (1 - level) Ht1 Hk1 Hf1 Hr)
      as (Ht2 & Hk2 & Hf2 & Hd2 & He2); [lia|lia|].
    unfold recv_edges in Ht2, Hk2, Hf2, Hd2, He2.
    rewrite Ht2, Hk2, Hf2, Hd2, He2, Hd1, He1. cbn [symbols map].
    repeat split; try reflexivity.
    + f_equal. unfold sum. cbn [fold_right]. lia.
    + rewrite <- app_assoc. reflexivity.
Qed.

(** X14.  [RFUtils._recv_cbf] receives a frame whose edges all fall before
    the 32-bit tick counter wraps around.  From the state after an accepted
    edge at the tick [t0], with four ['1'] symbols in the SYNC buffer and no
    glitch pending, a rising edge after a preamble-long low pulse, a falling
    edge after a preamble-long high pulse, edges at the distances [ds], each
    between 0.4 and 1.9 ms, and an edge after a gap of more than 2.1 ms, the
    last of them at a tick below [2 ^ 32], set [done] and leave exactly the
    symbols of [ds] in [encoded].  (A frame during which the counter wraps
    is outside this statement: there the callback takes its overflow
    branch.) *)
Theorem recv_cbf_receives_frame :
  forall (s : rf_state) (t0 p1 p2 : Z) (ds : list Z) (g : Z) (level : Z),
    t s = Some t0 -> skip s = false -> sync_buffer s = bits_1111 ->
    1900 < p1 <= 2100 -> 1900 < p2 <= 2100 ->
    Forall (fun d => 400 <= d <= 1900) ds -> 2100 < g ->
    0 <= t0 -> t0 + p1 + p2 + sum ds + g < 2 ^ 32 ->
    let es := (1, t0 + p1) :: (0, t0 + p1 + p2)
              :: edges_after (t0 + p1 + p2) level (ds ++ [g]) in
    done (recv_edges s es) = true /\ encoded (recv_edges s es) = symbols ds.
Proof.
  intros s t0 p1 p2 ds g level Ht Hk Hs H1 H2 Hf Hg H0 Hw es. subst es.
  assert (Hf0 : Forall (fun d => 0 <= d) ds)
    by (eapply Forall_impl; [|exact Hf]; cbv beta; lia).
  pose proof (sum_nonneg ds Hf0) as Hsum.
  set (s1 := _recv_cbf s 1 (t0 + p1)).
  assert (E1 : s1 = mkRf (done s) false (encoded s) (Some (t0 + p1)) true false bits_1111).
  { subst s1. unfold _recv_cbf. rewrite Ht, Hk, (duration_after t0 p1) by lia.
    replace (p1 <? 400) with false by (symmetry; apply Z.ltb_ge; lia).
    replace (2100 <? p1) with false by (symmetry; apply Z.ltb_ge; lia).
    replace (1900 <? p1) with true by (symmetry; apply Z.ltb_lt; lia).
    rewrite Hs. destruct (list_eq_dec ascii_dec bits_1111 bits_1111); [|congruence].
    rewrite ?Hk. reflexivity. }
  set (s2 := _recv_cbf s1 0 (t0 + p1 + p2)).
  assert (E2 : s2 = mkRf (done s) false [] (Some (t0 + p1 + p2)) true true bits_1111).
  { subst s2. rewrite E1. unfold _recv_cbf.
    cbn [t skip sync_buffer start_flag0 done].
    rewrite (duration_after (t0 + p1) p2) by lia.
    replace (p2 <? 400) with false by (symmetry; apply Z.ltb_ge; lia).
    replace (2100 <? p2) with false by (symmetry; apply Z.ltb_ge; lia).
    replace (1900 <? p2) with true by (symmetry; apply Z.ltb_lt; lia).
    destruct (list_eq_dec ascii_dec bits_1111 bits_1111); [|congruence]. reflexivity. }
  unfold recv_edges. cbn [fold_left fst snd]. fold s1. fold s2.
  destruct (edges_after_app ds [g] (t0 + p1 + p2) level Hf0) as (l' & ->); [lia|lia|].
  rewrite fold_left_app.
  destruct (recv_data ds s2 (t0 + p1 + p2) level) as (Ht3 & Hk3 & Hf3 & Hd3 & He3);
    try (rewrite E2; reflexivity); [exact Hf|lia|lia|].
  set (s3 := recv_edges s2 (edges_after (t0 + p1 + p2) level ds)) in *.
  change (fold_left (fun s0 e => _recv_cbf s0 (fst e) (snd e))
            (edges_after (t0 + p1 + p2) level ds) s2) with s3.
  cbn [edges_after fold_left fst snd].
  rewrite (tick32_small (t0 + p1 + p2 + sum ds + g)) by lia.
  unfold _recv_cbf. rewrite Ht3, Hk3, duration_after by lia.
  replace (g <? 400) with false by (symmetry; apply Z.ltb_ge; lia).
  replace (2100 <? g) with true by (symmetry; apply Z.ltb_lt; lia).
  rewrite Hf3. cbn [done encoded]. split; [reflexivity|].
  rewrite He3, E2. reflexivity.
Qed.

Lemma recv_cbf_receives_frame_witness :
  let s := recv_edges rf_init [(0, 0); (1, 1000); (0, 2000); (1, 3000); (0, 4000)] in
  let es := (1, 4000 + 2000) :: (0, 4000 + 2000 + 2000)
            :: edges_after (4000 + 2000 + 2000) 1 ([500; 1000; 1000; 500] ++ [3000]) in
  done (recv_edges s es) = true /\
  encoded (recv_edges s es) = ["0"; "1"; "1"; "0"]%char.
Proof.
  intros s es.
  apply (recv_cbf_receives_frame s 4000 2000 2000 [500; 1000; 1000; 500] 3000 1);
    try reflexivity; try lia.
  repeat constructor; lia.
Defined.

(** ** More on the devices *)

Section DeviceFacts.

Import Devices Examples.

(** X15.  The sequence counter after [n >= 1] transmissions is the initial
    value plus [n], reduced modulo 15, for a device that uses
    [AbstractDevice._inc], and the initial value plus [4 n], reduced modulo
    15, for a keypad; whatever the initial value, the counter is in 0..14
    from the first transmission on. *)
Theorem sequence_counter_after_n :
  forall (Msg : Type) (mk : Z -> Msg) (n : nat) (d : device Msg),
    (1 <= n)%nat ->
    sequence (send_n AbstractDevice_inc mk n d) = (sequence d + Z.of_nat n) mod 15 /\
    sequence (send_n Keypad_inc mk n d) = (sequence d + 4 * Z.of_nat n) mod 15 /\
    0 <= sequence (send_n AbstractDevice_inc mk n d) <= 14 /\
    0 <= sequence (send_n Keypad_inc mk n d) <= 14.
Proof.
  intros Msg mk n d Hn.
  rewrite (send_n_sequence mk n d), (send_n_sequence_keypad mk n d).
  replace (n =? 0)%nat with false by (symmetry; apply Nat.eqb_neq; lia).
  pose proof (Z.mod_pos_bound (sequence d + Z.of_nat n) 15 ltac:(lia)).
  pose proof (Z.mod_pos_bound (sequence d + 4 * Z.of_nat n) 15 ltac:(lia)).
  repeat split; lia.
Qed.

Lemma sequence_counter_after_n_witness :
  sequence (send_n AbstractDevice_inc (fun q => q) 20 (mkDevice 3 [])) = (3 + 20) mod 15 /\
  sequence (send_n Keypad_inc (fun q => q) 20 (mkDevice 3 [])) = (3 + 4 * 20) mod 15.
Proof.
  destruct (sequence_counter_after_n Z (fun q => q) 20 (mkDevice 3 [])) as (H1 & H2 & _);
    [lia|]. split; [exact H1|exact H2].
Defined.

(** X16.  [BaseStation._trip] does not re-trip: when [instant_trip] is not
    true and [time_left] is not 0, the call returns without changing the
    state and without calling the trip function. *)
Theorem trip_does_not_retrip :
  forall (f : method unit) (instant_trip : option bool) (s : BaseStation),
    instant_trip <> Some true -> _time_left s <> 0 ->
    _trip f instant_trip s = (s, Ok tt).
Proof. intros f i s Hi Ht. now apply trip_retrip_ignored. Qed.

Lemma trip_does_not_retrip_witness :
  let s := mkBaseStation "123456" "1234" None [] default_settings [] 0 ARMED_AWAY 0 5
             None Unset 0 [] in
  _trip (_alarm false) None s = (s, Ok tt).
Proof.
  intros s. apply (trip_does_not_retrip (_alarm false) None s); [discriminate|].
  cbn. lia.
Defined.

(** X17.  While ARMED_AWAY with [time_left] 0, a trip that is not instant
    sets [time_left] to the away entry delay and runs the countdown once:
    [time_left] is the entry delay less one, a one-second timer for the next
    step of the countdown is started, and nothing else changes but the
    printed message; the alarm is not raised yet. *)
Theorem trip_while_armed_away_starts_countdown :
  forall (instant_trip : option bool) (s : BaseStation),
    instant_trip <> Some true -> _armed s = ARMED_AWAY -> _time_left s = 0 ->
    entry_delay_away (_settings s) <> 0 ->
    _trip (_alarm false) instant_trip s =
    (mkBaseStation (sn s) (_master_pin s) (_duress_pin s) (_pins s) (_settings s)
       (_components s) (_error_flags s) ARMED_AWAY (_ess s)
       (entry_delay_away (_settings s) - 1) (_siren_timer s)
       (Value (mkTimer 1 cb_countdown true)) (bs_sequence s)
       (trace s ++ [printed (entry_delay_away (_settings s) - 1)]), Ok tt).
Proof. intros i s Hi Ha Ht Hd. now apply trip_armed_away. Qed.

Lemma trip_while_armed_away_starts_countdown_witness :
  let s := base_station ARMED_AWAY false Unset in
  exists s', _trip (_alarm false) None s = (s', Ok tt) /\ _time_left s' = 29 /\
             trace s' = [printed 29].
Proof.
  intros s. eexists. split; [|split].
  - apply (trip_while_armed_away_starts_countdown None s);
      [discriminate|reflexivity|reflexivity|cbn; lia].
  - reflexivity.
  - reflexivity.
Defined.

(** X18.  A PIN request from an enrolled keypad whose PIN is neither the
    duress PIN, the master PIN nor an additional PIN is answered with the
    INVALID response, sent with the current sequence number; the sequence
    counter is incremented and nothing else of the base station changes. *)
Theorem invalid_pin_is_refused :
  forall (s : BaseStation) (kp pin : string) (c : component),
    components_get (_components s) kp = Some c ->
    is_duress_pin s pin = false -> String.eqb pin (_master_pin s) = false ->
    any_pin (_pins s) pin = false ->
    _process_msg (KeypadAlarmPinRequest kp pin) s =
    (mkBaseStation (sn s) (_master_pin s) (_duress_pin s) (_pins s) (_settings s)
       (_components s) (_error_flags s) (_armed s) (_ess s) (_time_left s)
       (_siren_timer s) (_time_left_timer s) (AbstractDevice_inc (bs_sequence s))
       (trace s ++ [Sent (BaseStationKeypadAlarmPinResponse kp (bs_sequence s) (sn s) INVALID)])%list,
     Ok tt).
Proof. intros s kp pin c Hc H1 H2 H3. now apply (invalid_pin s kp pin c). Qed.

Lemma invalid_pin_is_refused_witness :
  let s := base_station ARMED_HOME false Unset in
  exists s', _process_msg (KeypadAlarmPinRequest "167JC" "0000") s = (s', Ok tt) /\
             _armed s' = ARMED_HOME /\ bs_sequence s' = 1 /\
             trace s' = [Sent (BaseStationKeypadAlarmPinResponse "167JC" 0 "123456" INVALID)].
Proof.
  intros s. eexists. split.
  - eapply (invalid_pin_is_refused s "167JC" "0000"); reflexivity.
  - repeat split.
Defined.

(** X19.  Once a countdown timer has been created, the duress PIN from an
    enrolled keypad is answered with the DISARM response, the state becomes
    OFF with [time_left] 0, and [stop_siren], [disarm] and [alarm] are
    called in this order; [start_siren] is not called. *)
Theorem duress_pin_after_a_countdown :
  forall (s : BaseStation) (kp pin : string) (c : component) (tm : Timer),
    components_get (_components s) kp = Some c ->
    _duress_pin s = Some pin ->
    _time_left_timer s = Value tm ->
    exists s',
      _process_msg (KeypadAlarmPinRequest kp pin) s = (s', Ok tt) /\
      _armed s' = OFF /\ _time_left s' = 0 /\
      trace s' = (trace s ++
        [Sent (BaseStationKeypadAlarmPinResponse kp (bs_sequence s) (sn s) DISARM);
         stop_siren; disarm; alarm])%list.
Proof. intros s kp pin c tm Hc Hd Ht. now apply (duress_pin_with_timer s kp pin c tm). Qed.

Lemma duress_pin_after_a_countdown_witness :
  let s := base_station ARMED_HOME false (Value spent_timer) in
  exists s',
    _process_msg (KeypadAlarmPinRequest "167JC" "9999") s = (s', Ok tt) /\
    _armed s' = OFF /\ _time_left s' = 0 /\
    trace s' = (trace s ++
      [Sent (BaseStationKeypadAlarmPinResponse "167JC" (bs_sequence s) (sn s) DISARM);
       stop_siren; disarm; alarm])%list.
Proof.
  intros s.
  eapply (duress_pin_after_a_countdown s "167JC" "9999"); reflexivity.
Defined.

End DeviceFacts.
